(** * Credential and secret management of the API-management CLI

    A shallow embedding of two Go source files of the command-line client:

    - [mi/utils/utils.go]: the secure-secret encryption pipeline
      (keystore access, RSA encryption under one of two padding schemes,
      and the three output sinks);
    - the pre-command credential resolver of package [utils]
      ([ExecutePreCommandWithBasicAuth], [ExecutePreCommandWithOAuth],
      [GetClientIDSecret], [GetOAuthTokens]).

    Go code that prints, exits, panics, reads the terminal, talks to the
    network or touches the disk is embedded in a small state-and-outcome
    monad: the state carries an append-only trace of observable events and
    the contents of the credential files, the outcome says whether the
    function returned, the process exited, or the goroutine panicked.
    Libraries outside the repository (Go's standard library, the keystore,
    properties and HTTP packages) enter through records of functions. *)

From Stdlib Require Import ZArith NArith Ascii String List Bool Lia.
From stdpp Require Import base option list gmap strings.

Import ListNotations.
Local Open Scope string_scope.
Local Open Scope Z_scope.
Local Open Scope list_scope.

(* ===================================================================== *)
(** * Go strings

    A Go string is a sequence of bytes, here a [string] of 8-bit [ascii]
    characters.  The functions of package [strings] the program calls have an
    ASCII fast path, embedded as written in the Go library, and a slow path
    through the Unicode tables, which is left to the [Unicode] record. *)
(* ===================================================================== *)

Module GoStrings.

(** The slow paths of [strings.TrimSpace] and [strings.EqualFold]. *)
Record Unicode := {
  (** [strings.TrimFunc(s, unicode.IsSpace)] *)
  TrimFunc_IsSpace : string -> string;
  (** [strings.TrimRightFunc(s, unicode.IsSpace)] *)
  TrimRightFunc_IsSpace : string -> string;
  (** the [hasUnicode] part of [strings.EqualFold] *)
  EqualFold_hasUnicode : string -> string -> bool
}.

Definition byte_of (c : ascii) : Z := Z.of_N (N_of_ascii c).

(** [utf8.RuneSelf]: bytes below it are single-byte runes. *)
Definition RuneSelf : Z := 128.

(** The table [asciiSpace] of package [strings]. *)
Definition asciiSpace (c : ascii) : bool :=
  let b := byte_of c in
  (b =? 9) || (b =? 10) || (b =? 11) || (b =? 12) || (b =? 13) || (b =? 32).

(** Where one of the two scanning loops of [TrimSpace] stopped. *)
Inductive scan :=
| AtByte (rest : string)      (* at the end or at an ASCII non-space byte *)
| AtUnicode (rest : string).  (* at a byte >= RuneSelf *)

Fixpoint scanLeft (s : string) : scan :=
  match s with
  | EmptyString => AtByte EmptyString
  | String c s' =>
      if RuneSelf <=? byte_of c then AtUnicode s
      else if asciiSpace c then scanLeft s'
      else AtByte s
  end.

Fixpoint revOnto (s acc : string) : string :=
  match s with
  | EmptyString => acc
  | String c s' => revOnto s' (String c acc)
  end.

Definition reverse (s : string) : string := revOnto s EmptyString.

(** The second loop runs from the end of [s[start:]]. *)
Definition scanRight (s : string) : scan :=
  match scanLeft (reverse s) with
  | AtByte r => AtByte (reverse r)
  | AtUnicode r => AtUnicode (reverse r)
  end.

Section WithUnicode.
Variable U : Unicode.

(** [strings.TrimSpace] *)
Definition TrimSpace (s : string) : string :=
  match scanLeft s with
  | AtUnicode rest => TrimFunc_IsSpace U rest
  | AtByte rest =>
      match scanRight rest with
      | AtUnicode kept => TrimRightFunc_IsSpace U kept
      | AtByte kept => kept
      end
  end.

(** [strings.EqualFold]: the byte loop, then the comparison of the
    lengths; the first byte [>= RuneSelf] on either side hands the two
    remaining suffixes to the Unicode part. *)
Fixpoint EqualFold (s t : string) : bool :=
  match s, t with
  | String sc s', String tc t' =>
      let sr := byte_of sc in
      let tr := byte_of tc in
      if RuneSelf <=? Z.lor sr tr then EqualFold_hasUnicode U s t
      else if tr =? sr then EqualFold s' t'
      else
        let lo := Z.min sr tr in
        let hi := Z.max sr tr in
        if (65 <=? lo) && (lo <=? 90) && (hi =? lo + 97 - 65)
        then EqualFold s' t'
        else false
  | EmptyString, EmptyString => true
  | _, _ => false
  end.
End WithUnicode.

(** A label is plain ASCII when every byte is below [RuneSelf]. *)
Fixpoint isASCII (s : string) : bool :=
  match s with
  | EmptyString => true
  | String c s' => (byte_of c <? RuneSelf) && isASCII s'
  end.

(** Case-insensitive equality the way the specification words it, for
    ASCII labels: equal after every upper-case letter is replaced by its
    lower-case letter. *)
Definition lowerByte (c : ascii) : ascii :=
  let b := byte_of c in
  if (65 <=? b) && (b <=? 90) then ascii_of_N (Z.to_N (b + 32)) else c.

Fixpoint toLower (s : string) : string :=
  match s with
  | EmptyString => EmptyString
  | String c s' => String (lowerByte c) (toLower s')
  end.

Definition equalIgnoringCase (s t : string) : bool :=
  String.eqb (toLower s) (toLower t).

(** ** [encoding/base64], standard alphabet with padding *)

Definition encodeStd : string :=
  "ABCDEFGHIJKLMNOPQRSTUVWXYZabcdefghijklmnopqrstuvwxyz0123456789+/".

Definition sextet (v : Z) : ascii :=
  match String.get (Z.to_nat (Z.land v 63)) encodeStd with
  | Some c => c
  | None => "="%char
  end.

Definition padChar : ascii := "="%char.

Fixpoint EncodeToString (src : string) : string :=
  match src with
  | EmptyString => EmptyString
  | String a EmptyString =>
      let v := Z.shiftl (byte_of a) 16 in
      String (sextet (Z.shiftr v 18)) (String (sextet (Z.shiftr v 12))
        (String padChar (String padChar EmptyString)))
  | String a (String b EmptyString) =>
      let v := Z.lor (Z.shiftl (byte_of a) 16) (Z.shiftl (byte_of b) 8) in
      String (sextet (Z.shiftr v 18)) (String (sextet (Z.shiftr v 12))
        (String (sextet (Z.shiftr v 6)) (String padChar EmptyString)))
  | String a (String b (String c rest)) =>
      let v := Z.lor (Z.lor (Z.shiftl (byte_of a) 16) (Z.shiftl (byte_of b) 8))
                     (byte_of c) in
      String (sextet (Z.shiftr v 18)) (String (sextet (Z.shiftr v 12))
        (String (sextet (Z.shiftr v 6)) (String (sextet v)
          (EncodeToString rest))))
  end.

End GoStrings.

(* ===================================================================== *)
(** * The Go run time seen by the two packages *)
(* ===================================================================== *)

(** Go's [error] interface value: [nil] or a message. *)
Definition error := option string.

(** [errors.New] *)
Definition errors_New (msg : string) : error := Some msg.

(** The result of a library call that returns [(value, err)] with a
    meaningful value exactly when [err == nil]. *)
Inductive result (A : Type) :=
| Ok (a : A)
| Err (e : string).
Arguments Ok {A} a.
Arguments Err {A} e.

(** ** Data declared by the sources *)

(** [crypto/rsa] keys. *)
Record rsa_PublicKey := { N : Z; E : Z }.
Record rsa_PrivateKey := { PublicKey : rsa_PublicKey; D : Z }.

(** The dynamic type of the [any] that [x509.ParsePKCS8PrivateKey]
    returns. *)
Inductive privateKey :=
| RSAPrivateKey (k : rsa_PrivateKey)  (* *rsa.PrivateKey *)
| ECDSAPrivateKey                      (* *ecdsa.PrivateKey *)
| Ed25519PrivateKey                    (* ed25519.PrivateKey *)
| ECDHPrivateKey.                      (* *ecdh.PrivateKey *)

Inductive hashAlg := SHA1 | SHA256.

(** [type metaData struct] *)
Record metaData := { Name : string; Namespace : string }.

(** [type k8sSecretConfig struct] *)
Record k8sSecretConfig := {
  APIVerion : string;
  Kind : string;
  MetaData : metaData;
  StringData : gmap string string;
  Type_ : string
}.

(** [type SecretConfig struct] *)
Record SecretConfig := {
  OutputType : string;
  Algorithm : string;
  InputType : string;
  InputFile : string;
  PlainTextAlias : string;
  PlainTextSecretText : string
}.

(** [EnvKeys], built positionally by [EnvKeys{clientID,
    encryptedClientSecret, username}]. *)
Record EnvKeys := {
  ClientID : string;
  ClientSecret : string;
  Username : string
}.

(** What the code reads off a [*resty.Response]. *)
Record Response := {
  StatusCode : Z;
  Status : string;
  Body : string;
  Error : string
}.

(** [RegistrationResponse], the decoded registration answer. *)
Record RegistrationResponse := {
  reg_ClientID : string;
  reg_ClientSecret : string
}.

(** ** Observable events *)

Inductive event :=
| Println (line : string)
    (* a line on standard output: fmt.Println, fmt.Printf *)
| Logged (line : string)
    (* utils.Logln *)
| Fatal (msg : string) (err : error)
    (* the diagnostic printed before the process exits:
       utils.HandleErrorAndExit, log.Fatal *)
| PromptedUsername
| PromptedPassword
| POST (url : string) (headers : gmap string string) (body : string)
    (* InvokePOSTRequest *)
| KeysFilePut (path env : string) (keys : EnvKeys)
    (* AddNewEnvToKeysFile *)
| RSAEncryptOAEP (hash : hashAlg) (key : rsa_PublicKey) (msg : string)
                 (label : option string)
    (* rsa.EncryptOAEP *)
| RSAEncryptPKCS1v15 (key : rsa_PublicKey) (msg : string)
    (* rsa.EncryptPKCS1v15 *)
| DirEnsured (path : string)
    (* utils.CreateDirIfNotExist *)
| PropertiesWritten (path : string) (props : gmap string string)
    (* props.Write into the file created at the path *)
| ConfigFileWritten (path : string) (doc : k8sSecretConfig)
    (* utils.WriteConfigFile *)
| FileCreated (path : string).
    (* os.Create: the file at the path exists and is empty, whatever it
       held before *)

(** ** State and outcomes *)

Record state := {
  trace : list event;
    (* events so far, oldest first *)
  keysFiles : gmap string (gmap string EnvKeys);
    (* credential files: path, then environment name *)
  clock : nat
    (* number of answers taken so far from the outside world: map
       iteration orders, random bytes, terminal input, HTTP responses *)
}.

Inductive outcome (A : Type) :=
| Returned (a : A)         (* the function returned [a] *)
| Exited (code : Z)        (* os.Exit(code) *)
| Panicked (msg : string). (* a run-time panic *)
Arguments Returned {A} a.
Arguments Exited {A} code.
Arguments Panicked {A} msg.

Definition M (A : Type) : Type := state -> outcome A * state.

Definition ret {A} (a : A) : M A := fun st => (Returned a, st).

Definition bind {A B} (m : M A) (k : A -> M B) : M B :=
  fun st =>
    match m st with
    | (Returned a, st') => k a st'
    | (Exited c, st') => (Exited c, st')
    | (Panicked p, st') => (Panicked p, st')
    end.

Declare Scope go_scope.
Delimit Scope go_scope with go.
Notation "x <- m ;; k" := (bind m (fun x => k))
  (at level 100, m at next level, right associativity) : go_scope.
Notation "m ;; k" := (bind m (fun _ => k))
  (at level 100, right associativity) : go_scope.
Open Scope go_scope.

Definition emit (e : event) : M unit :=
  fun st => (Returned tt,
             {| trace := trace st ++ [e]; keysFiles := keysFiles st;
                clock := clock st |}).

(** Takes the next answer of the outside world: returns its index. *)
Definition tick : M nat :=
  fun st => (Returned (clock st),
             {| trace := trace st; keysFiles := keysFiles st;
                clock := S (clock st) |}).

(** [os.Exit] *)
Definition os_Exit {A} (code : Z) : M A := fun st => (Exited code, st).

(** [panic] *)
Definition panic {A} (msg : string) : M A := fun st => (Panicked msg, st).

(** [fmt.Println] of one already joined line. *)
Definition fmt_Println (line : string) : M unit := emit (Println line).

(** The events a computation adds to the trace of [st]. *)
Definition emitted {A} (m : M A) (st : state) : list event :=
  drop (length (trace st)) (trace (m st).2).

(** The events that are output of the secret pipeline: console lines and
    files or directories on disk. *)
Definition isOutput (e : event) : bool :=
  match e with
  | Println _ | DirEnsured _ | FileCreated _ | PropertiesWritten _ _
  | ConfigFileWritten _ _ => true
  | _ => false
  end.

Definition isCryptoCall (e : event) : bool :=
  match e with
  | RSAEncryptOAEP _ _ _ _ | RSAEncryptPKCS1v15 _ _ => true
  | _ => false
  end.

Definition isNetworkCall (e : event) : bool :=
  match e with
  | POST _ _ _ => true
  | _ => false
  end.

Definition isKeysFileWrite (e : event) : bool :=
  match e with
  | KeysFilePut _ _ _ => true
  | _ => false
  end.

Definition newline : string := String (ascii_of_nat 10) EmptyString.
Definition quote : string := String (ascii_of_nat 34) EmptyString.

(* ===================================================================== *)
(** * Package [mi/utils]: the secret encryption pipeline ([utils.go]) *)
(* ===================================================================== *)

Module MiUtils.

(** [type PrivateKeyEntry struct] of the keystore package, as far as the
    code reads it. *)
Record PrivateKeyEntry := { PrivateKey : string }.

(** What lies outside the repository: the disk, the keystore, properties,
    x509 and rsa packages, the randomness of [rand.Reader] and the order
    in which Go ranges over a map.  The [nat] arguments are the index of
    the answer (see [clock]). *)
Record Host := {
  unicode : GoStrings.Unicode;
  (** [base64.StdEncoding.DecodeString]; the callers drop its error *)
  base64_DecodeString : string -> string;
  (** [filepath.Join] of two elements *)
  filepath_Join : string -> string -> string;
  (** [os.Getwd]; the caller drops its error *)
  os_Getwd : string;
  (** [properties.MustLoadFile(name, properties.UTF8).Map()];
      [None] when the load fails, where [MustLoadFile] hands the error
      to [properties.ErrorHandler] *)
  properties_MustLoadFile : string -> option (gmap string string);
  (** [os.Open]: the bytes of the file *)
  os_Open : string -> result string;
  (** a loaded [keystore.KeyStore] *)
  KeyStore : Type;
  (** [keystore.New()] followed by [Load(f, password)] *)
  keystore_Load : string -> string -> result KeyStore;
  (** the method [GetPrivateKeyEntry(alias, password)] of the key store *)
  GetPrivateKeyEntry : KeyStore -> string -> string -> result PrivateKeyEntry;
  (** [x509.ParsePKCS8PrivateKey]: the pair [(key any, err error)] *)
  x509_ParsePKCS8PrivateKey : string -> option privateKey * error;
  (** [rsa.EncryptOAEP(hash, rand.Reader, key, msg, label)] *)
  rsa_EncryptOAEP :
    hashAlg -> nat -> rsa_PublicKey -> string -> option string -> result string;
  (** [rsa.EncryptPKCS1v15(rand.Reader, key, msg)] *)
  rsa_EncryptPKCS1v15 : nat -> rsa_PublicKey -> string -> result string;
  (** the error of [os.Create(fileName)] *)
  os_Create : string -> error;
  (** the error of [props.Write(writer, properties.UTF8)] on the file
      created at the path *)
  properties_Write : string -> gmap string string -> error;
  (** the order of one [for k, v := range m] *)
  rangeOrder : nat -> gmap string string -> list (string * string);
  rangeOrder_perm : forall n m, rangeOrder n m ≡ₚ map_to_list m
}.

Definition encryptFunc : Type := rsa_PublicKey -> string -> M (string * error).

(** Reading a missing key of a Go map gives the zero value. *)
Definition index (m : gmap string string) (k : string) : string :=
  default "" (m !! k).

Section WithHost.
Variable H : Host.

(** [for key, value := range m]: the entries in the order Go picks. *)
Definition range (m : gmap string string) : M (list (string * string)) :=
  n <- tick ;; ret (rangeOrder H n m).

(** Modelled from the spec: [utils.HandleErrorAndExit], which is outside
    the given sources; unrecoverable failures terminate the process with a
    non-zero status after printing a human-readable diagnostic. *)
Definition HandleErrorAndExit {A} (msg : string) (err : error) : M A :=
  emit (Fatal msg err) ;; os_Exit 1.

(** Modelled from the spec: [utils.CreateDirIfNotExist], which is outside
    the given sources; the [security] subdirectory is created if absent. *)
Definition CreateDirIfNotExist (path : string) : M unit :=
  emit (DirEnsured path).

(** Modelled from the spec: [utils.WriteConfigFile], which is outside the
    given sources; the document is serialized to the file at the given
    path. *)
Definition WriteConfigFile (doc : k8sSecretConfig) (path : string) : M unit :=
  emit (ConfigFileWritten path doc).

(** The body of the loop of [IsMapWithNonEmptyValues]. *)
Fixpoint IsMapWithNonEmptyValues_loop (entries : list (string * string)) : M bool :=
  match entries with
  | [] => ret true
  | (key, input) :: rest =>
      if (String.length (GoStrings.TrimSpace (unicode H) input) =? 0)%nat
      then fmt_Println ("Invalid input for " +:+ key) ;; ret false
      else IsMapWithNonEmptyValues_loop rest
  end.

(** [IsMapWithNonEmptyValues] *)
Definition IsMapWithNonEmptyValues (inputs : gmap string string) : M bool :=
  entries <- range inputs ;;
  IsMapWithNonEmptyValues_loop entries.

(** [IsConsole], [IsFile], [IsK8], [IsPKCS1Encryption],
    [IsOAEPEncryption] *)
Definition IsConsole (outputType : string) : bool :=
  GoStrings.EqualFold (unicode H) outputType "console".
Definition IsFile (outputType : string) : bool :=
  GoStrings.EqualFold (unicode H) outputType "file".
Definition IsK8 (outputType : string) : bool :=
  GoStrings.EqualFold (unicode H) outputType "k8".
Definition IsPKCS1Encryption (algorithm : string) : bool :=
  GoStrings.EqualFold (unicode H) algorithm "RSA/ECB/PKCS1Padding".
Definition IsOAEPEncryption (algorithm : string) : bool :=
  GoStrings.EqualFold (unicode H) algorithm "RSA/ECB/OAEPWithSHA1AndMGF1Padding".

(** [properties.ErrorHandler], to which the [Must] functions of the
    properties package hand their error.  No code of the given sources
    assigns it, so it is the default of the package, [LogFatalHandler]:
    [log.Fatal(err)], which logs the error and ends the process with
    status 1.  The text of the library's error is not modelled. *)
Definition properties_ErrorHandler {A} (fileName : string) : M A :=
  emit (Fatal ("properties: cannot load " +:+ fileName) None) ;; os_Exit 1.

(** [readPropertiesFromFile] *)
Definition readPropertiesFromFile (fileName : string) : M (gmap string string) :=
  match properties_MustLoadFile H fileName with
  | Some props => ret props
  | None => properties_ErrorHandler fileName
  end.

(** [WritePropertiesToFile] *)
Definition WritePropertiesToFile (variables : gmap string string)
    (fileName : string) : M unit :=
  match os_Create H fileName with
  | Some e => HandleErrorAndExit "Unable to create file." (Some e)
  | None =>
      emit (FileCreated fileName) ;;
      match properties_Write H fileName variables with
      | Some e => HandleErrorAndExit "Unable to write properties to file." (Some e)
      | None => emit (PropertiesWritten fileName variables)
      end
  end.

(** [readKeyStore] *)
Definition readKeyStore (filename password : string) : result (KeyStore H) :=
  match os_Open H filename with
  | Err e => Err e
  | Ok f =>
      match keystore_Load H f password with
      | Err e => Err e
      | Ok keyStore => Ok keyStore
      end
  end.

(** The type assertion of [key] to a pointer to [rsa.PrivateKey], in its
    one-result form:
    it panics unless that is the dynamic type of [key]; a nil interface
    has no dynamic type. *)
Definition assertRSAPrivateKey (key : option privateKey) : M rsa_PrivateKey :=
  match key with
  | Some (RSAPrivateKey k) => ret k
  | Some ECDSAPrivateKey =>
      panic "interface conversion: interface {} is *ecdsa.PrivateKey, not *rsa.PrivateKey"
  | Some Ed25519PrivateKey =>
      panic "interface conversion: interface {} is ed25519.PrivateKey, not *rsa.PrivateKey"
  | Some ECDHPrivateKey =>
      panic "interface conversion: interface {} is *ecdh.PrivateKey, not *rsa.PrivateKey"
  | None =>
      panic "interface conversion: interface {} is nil, not *rsa.PrivateKey"
  end.

(** [getEncryptionKey]; the returned pointer is [None] for [nil]. *)
Definition getEncryptionKey (keyStoreConfigMap : gmap string string)
    : M (option rsa_PublicKey * error) :=
  let keyStorePath := index keyStoreConfigMap "secret.keystore.location" in
  let keyStorePassword :=
    base64_DecodeString H (index keyStoreConfigMap "secret.keystore.password") in
  match readKeyStore keyStorePath keyStorePassword with
  | Err e => ret (None, errors_New ("Reading Key Store: " +:+ e))
  | Ok keyStore =>
      let keyAlias := index keyStoreConfigMap "secret.keystore.key.alias" in
      let keyPassword :=
        base64_DecodeString H (index keyStoreConfigMap "secret.keystore.key.password") in
      match GetPrivateKeyEntry H keyStore keyAlias keyPassword with
      | Err e => ret (None, errors_New ("Reading Key Entry: " +:+ e))
      | Ok pke =>
          let (key, err) := x509_ParsePKCS8PrivateKey H (PrivateKey pke) in
          rsaKey <- assertRSAPrivateKey key ;;
          match err with
          | Some e => ret (None, errors_New ("Parsing Key Entry: " +:+ e))
          | None => ret (Some (PublicKey rsaKey), None)
          end
      end
  end.

(** [encryptOAEP] *)
Definition encryptOAEP : encryptFunc := fun key plainText =>
  seed <- tick ;;
  emit (RSAEncryptOAEP SHA1 key plainText None) ;;
  match rsa_EncryptOAEP H SHA1 seed key plainText None with
  | Err e => ret ("", Some e)
  | Ok encryptedBytes => ret (GoStrings.EncodeToString encryptedBytes, None)
  end.

(** [encryptPKCS1v15] *)
Definition encryptPKCS1v15 : encryptFunc := fun key plainText =>
  seed <- tick ;;
  emit (RSAEncryptPKCS1v15 key plainText) ;;
  match rsa_EncryptPKCS1v15 H seed key plainText with
  | Err e => ret ("", Some e)
  | Ok encryptedBytes => ret (GoStrings.EncodeToString encryptedBytes, None)
  end.

(** The body of the loop of [encrypt]; a nil map is the empty map. *)
Fixpoint encrypt_loop (encryptionKey : rsa_PublicKey)
    (entries : list (string * string)) (encryptFunction : encryptFunc)
    (encryptedSecrets : gmap string string) : M (gmap string string * error) :=
  match entries with
  | [] => ret (encryptedSecrets, None)
  | (alias, plainText) :: rest =>
      r <- encryptFunction encryptionKey plainText ;;
      let (encryptedSecret, err) := r in
      match err with
      | Some e => ret (∅, Some e)
      | None =>
          encrypt_loop encryptionKey rest encryptFunction
                       (<[alias := encryptedSecret]> encryptedSecrets)
      end
  end.

(** [encrypt] *)
Definition encrypt (encryptionKey : rsa_PublicKey)
    (plainTextSecrets : gmap string string) (encryptFunction : encryptFunc)
    : M (gmap string string * error) :=
  entries <- range plainTextSecrets ;;
  encrypt_loop encryptionKey entries encryptFunction ∅.

(** [getPlainTextSecrets] *)
Definition getPlainTextSecrets (secretConfig : SecretConfig) : M (gmap string string) :=
  if IsFile (InputType secretConfig)
  then readPropertiesFromFile (InputFile secretConfig)
  else ret (<[PlainTextAlias secretConfig := PlainTextSecretText secretConfig]> ∅).

Fixpoint printSecretsToConsole_loop (entries : list (string * string)) : M unit :=
  match entries with
  | [] => ret tt
  | (alias, secret) :: rest =>
      fmt_Println (alias +:+ " : " +:+ secret) ;;
      printSecretsToConsole_loop rest
  end.

(** [printSecretsToConsole] *)
Definition printSecretsToConsole (secrets : gmap string string) : M unit :=
  entries <- range secrets ;;
  printSecretsToConsole_loop entries.

(** [getSecretFilePath] *)
Definition getSecretFilePath (fileName : string) : M string :=
  let currentDir := os_Getwd H in
  let secretDirPath := filepath_Join H currentDir "security" in
  CreateDirIfNotExist secretDirPath ;;
  ret (filepath_Join H secretDirPath fileName).

(** [printSecretsToPropertiesFile] *)
Definition printSecretsToPropertiesFile (secrets : gmap string string) : M unit :=
  secretFilePath <- getSecretFilePath "wso2mi-secrets.properties" ;;
  WritePropertiesToFile secrets secretFilePath ;;
  fmt_Println ("Secret properties file created in " +:+ secretFilePath).

(** [printSecretsToYamlFile] *)
Definition printSecretsToYamlFile (secrets : gmap string string) : M unit :=
  let secretConfig :=
    {| APIVerion := "v1";
       Kind := "Secret";
       StringData := secrets;
       Type_ := "Opaque";
       MetaData := {| Name := "wso2misecret"; Namespace := "default" |} |} in
  secretFilePath <- getSecretFilePath "wso2mi-secrets.yaml" ;;
  WriteConfigFile secretConfig secretFilePath ;;
  fmt_Println ("Kubernetes secret file created in " +:+ secretFilePath
               +:+ " with default name and namespace") ;;
  fmt_Println "You can change the default values as required before applying.".

(** [EncryptSecrets] *)
Definition EncryptSecrets (keyStorePropertiesFile : string)
    (secretConfig : SecretConfig) : M error :=
  keyStoreConfigMap <- readPropertiesFromFile keyStorePropertiesFile ;;
  r <- getEncryptionKey keyStoreConfigMap ;;
  let (encryptionKey, err) := r in
  match err with
  | Some e => ret (Some e)
  | None =>
      plainTextSecrets <- getPlainTextSecrets secretConfig ;;
      r <- (match encryptionKey with
            | None => panic "invalid memory address or nil pointer dereference"
            | Some encryptionKey =>
                if IsPKCS1Encryption (Algorithm secretConfig)
                then encrypt encryptionKey plainTextSecrets encryptPKCS1v15
                else encrypt encryptionKey plainTextSecrets encryptOAEP
            end) ;;
      let (encryptedSecrets, err) := r in
      match err with
      | Some e => ret (Some e)
      | None =>
          (if IsK8 (OutputType secretConfig)
           then printSecretsToYamlFile encryptedSecrets
           else if IsFile (OutputType secretConfig)
           then printSecretsToPropertiesFile encryptedSecrets
           else printSecretsToConsole encryptedSecrets) ;;
          ret None
      end
  end.

End WithHost.
End MiUtils.

(* ===================================================================== *)
(** * Package [utils]: the pre-command credential resolver *)
(* ===================================================================== *)

Module Auth.

(** What the resolver uses and the given sources do not contain: the
    constants of the package, the readers of the main configuration file
    (which this code never writes), the symmetric cipher and hash of the
    package, the operator at the terminal, the HTTP transport and the
    JSON decoder.  The [nat] arguments are the index of the answer (see
    [clock]). *)
Record Host := {
  unicode : GoStrings.Unicode;
  MainConfigFilePath : string;
  MainConfigFileName : string;
  EnvKeysAllFilePath : string;
  ProjectName : string;
  LogPrefixInfo : string;
  LogPrefixWarning : string;
  LogPrefixError : string;
  HeaderContentType : string;
  HeaderAuthorization : string;
  HeaderAccept : string;
  HeaderValueApplicationJSON : string;
  HeaderValueAuthBasicPrefix : string;
  HeaderValueAuthBearerPrefix : string;
  HeaderValueXWWWFormUrlEncoded : string;
  DefaultTokenValidityPeriod : string;
  EnvExistsInMainConfigFile : string -> string -> bool;
  GetAPIMEndpointOfEnv : string -> string -> string;
  GetRegistrationEndpointOfEnv : string -> string -> string;
  GetTokenEndpointOfEnv : string -> string -> string;
  GetMD5Hash : string -> string;
  Encrypt : string -> string -> string;
  Decrypt : string -> string -> string;
  typedUsername : nat -> string;
  typedPassword : nat -> string;
  (** [InvokePOSTRequest(url, headers, body)]: a response or a transport
      error *)
  transport : nat -> string -> gmap string string -> string -> result Response;
  (** [json.Unmarshal] into a [RegistrationResponse] and into a
      [map[string]string] *)
  json_Unmarshal_RegistrationResponse : string -> RegistrationResponse * error;
  json_Unmarshal_map : string -> gmap string string;
  (** [dedent.Dedent] *)
  dedent_Dedent : string -> string
}.

(** [http.StatusOK], [http.StatusCreated], [http.StatusUnauthorized] *)
Definition StatusOK : Z := 200.
Definition StatusCreated : Z := 201.
Definition StatusUnauthorized : Z := 401.

Definition isEmpty (s : string) : bool := String.eqb s "".

(** The raw string literal passed to [dedent.Dedent] in
    [GetClientIDSecret]. *)
Definition registrationBodyLiteral : string :=
  let tab := String (ascii_of_nat 9) EmptyString in
  let indent := newline +:+ tab +:+ tab +:+ tab +:+ tab +:+ tab +:+ tab +:+ tab in
  let q s := quote +:+ s +:+ quote in
  "{" +:+ q "clientName" +:+ ": " +:+ q "rest_api_publisher" +:+ ","
  +:+ indent +:+ tab +:+ "  " +:+ q "callbackUrl" +:+ ": " +:+ q "www.google.lk" +:+ ","
  +:+ indent +:+ tab +:+ "  " +:+ q "grantType" +:+ ":" +:+ q "password refresh_token" +:+ ","
  +:+ indent +:+ tab +:+ "  " +:+ q "saasApp" +:+ ": true,"
  +:+ indent +:+ tab +:+ "  " +:+ q "owner" +:+ ": " +:+ q "admin" +:+ ","
  +:+ indent +:+ tab +:+ "  " +:+ q "tokenScope" +:+ ": " +:+ q "Production"
  +:+ indent +:+ "     }".

Section WithHost.
Variable H : Host.

(** ** Helpers of the package that are outside the given sources *)

(** Modelled from the spec: [utils.Logln], general logging; it writes
    one line and returns. *)
Definition Logln (line : string) : M unit := emit (Logged line).

(** Modelled from the spec: [utils.HandleErrorAndExit]; unrecoverable
    failures terminate the process with a non-zero status after printing
    a human-readable diagnostic. *)
Definition HandleErrorAndExit {A} (msg : string) (err : error) : M A :=
  emit (Fatal msg err) ;; os_Exit 1.

(** Modelled from the spec: [PromptForUsername] and [PromptForPassword],
    blocking reads from the controlling terminal. *)
Definition PromptForUsername : M string :=
  n <- tick ;; emit PromptedUsername ;; ret (typedUsername H n).
Definition PromptForPassword : M string :=
  n <- tick ;; emit PromptedPassword ;; ret (typedPassword H n).

(** Modelled from the spec: [InvokePOSTRequest], the external collaborator
    [POST(url, headers, body) -> (status, body, error)]; the request is
    observable, the answer is the transport's. *)
Definition InvokePOSTRequest (url : string) (headers : gmap string string)
    (body : string) : M (result Response) :=
  n <- tick ;; emit (POST url headers body) ;; ret (transport H n url headers body).

(** The record of an environment in the credential file at [path]. *)
Definition keysOfEnv (st : state) (env path : string) : option EnvKeys :=
  keysFiles st !! path ≫= fun file => file !! env.

(** Modelled from the spec: the credential store of section 4.5,
    [Exists(environment, filePath)]. *)
Definition EnvExistsInKeysFile (env path : string) : M bool :=
  fun st => (Returned (bool_decide (is_Some (keysOfEnv st env path))), st).

(** Modelled from the spec: the credential store of section 4.5, [Get],
    read field by field; the stored client secret is decrypted with the
    key derived from the supplied password (section 4.6). *)
Definition GetUsernameOfEnv (env path : string) : M string :=
  fun st => (Returned (from_option Username "" (keysOfEnv st env path)), st).
Definition GetClientIDOfEnv (env path : string) : M string :=
  fun st => (Returned (from_option ClientID "" (keysOfEnv st env path)), st).
Definition GetClientSecretOfEnv (env password path : string) : M string :=
  fun st =>
    (Returned (Decrypt H (GetMD5Hash H password)
                 (from_option ClientSecret "" (keysOfEnv st env path))), st).

(** Modelled from the spec: the credential store of section 4.5,
    [Put(environment, record, filePath)], which appends or replaces the
    record for that environment key in the backing file. *)
Definition AddNewEnvToKeysFile (env : string) (envKeys : EnvKeys)
    (path : string) : M unit :=
  fun st =>
    (Returned tt,
     {| trace := trace st ++ [KeysFilePut path env envKeys];
        keysFiles :=
          <[path := <[env := envKeys]> (default ∅ (keysFiles st !! path))]>
            (keysFiles st);
        clock := clock st |}).

(** ** The given sources *)

(** [GetBase64EncodedCredentials] *)
Definition GetBase64EncodedCredentials (key secret : string) : string :=
  let line := key +:+ ":" +:+ secret in
  let encoded := GoStrings.EncodeToString line in
  encoded.

(** [GetClientIDSecret] *)
Definition GetClientIDSecret (username password url : string)
    : M (string * string * error) :=
  let body := dedent_Dedent H registrationBodyLiteral in
  let headers : gmap string string := ∅ in
  let headers := <[HeaderContentType H := HeaderValueApplicationJSON H]> headers in
  let headers :=
    <[HeaderAuthorization H :=
        HeaderValueAuthBasicPrefix H +:+ " "
        +:+ GetBase64EncodedCredentials username password]> headers in
  r <- InvokePOSTRequest url headers body ;;
  resp <- (match r with
           | Err e => HandleErrorAndExit "Error in connecting." (Some e)
           | Ok resp => ret resp
           end) ;;
  Logln ("Getting ClientID, ClientSecret: Status - " +:+ Status resp) ;;
  if (StatusCode resp =? StatusOK) || (StatusCode resp =? StatusCreated)
  then
    let (registrationResponse, err) :=
      json_Unmarshal_RegistrationResponse H (Body resp) in
    let clientID := reg_ClientID registrationResponse in
    let clientSecret := reg_ClientSecret registrationResponse in
    ret (clientID, clientSecret, err)
  else
    fmt_Println ("Error: " +:+ Error resp) ;;
    fmt_Println ("Body: " +:+ Body resp) ;;
    (if StatusCode resp =? StatusUnauthorized
     then HandleErrorAndExit "Incorrect Username/Password combination."
                             (errors_New "401 Unauthorized")
     else ret tt) ;;
    ret ("", "", errors_New ("Request didn't respond 200 OK: " +:+ Status resp)).

(** [GetOAuthTokens] *)
Definition GetOAuthTokens (username password b64EncodedClientIDClientSecret
    url : string) : M (gmap string string * error) :=
  let validityPeriod := DefaultTokenValidityPeriod H in
  let body := "grant_type=password&username=" +:+ username +:+ "&password="
              +:+ password +:+ "&validity_period=" +:+ validityPeriod
              +:+ "&scope=apim:api_view" in
  let headers : gmap string string := ∅ in
  let headers := <[HeaderContentType H := HeaderValueXWWWFormUrlEncoded H]> headers in
  let headers :=
    <[HeaderAuthorization H :=
        HeaderValueAuthBearerPrefix H +:+ " " +:+ b64EncodedClientIDClientSecret]>
      headers in
  let headers := <[HeaderAccept H := HeaderValueApplicationJSON H]> headers in
  Logln (LogPrefixError H +:+ "connecting to " +:+ url) ;;
  r <- InvokePOSTRequest url headers body ;;
  resp <- (match r with
           | Err e => HandleErrorAndExit "Unable to Connect." (Some e)
           | Ok resp => ret resp
           end) ;;
  if negb (StatusCode resp =? StatusOK)
  then
    HandleErrorAndExit (A := unit) "Unable to connect."
                       (errors_New ("Status: " +:+ Status resp)) ;;
    ret (∅, None)
  else
    let responseDataMap := json_Unmarshal_map H (Body resp) in
    ret (responseDataMap, None).

(** The two lines printed before [os.Exit(1)] when the user name given
    with the flag is not the cached one. *)
Definition usernameMismatch {A} (environment : string) : M A :=
  fmt_Println (LogPrefixWarning H +:+ "Username entered with flag -u for the environment '"
               +:+ environment +:+ "' is not the same as username found in file '"
               +:+ EnvKeysAllFilePath H +:+ "'") ;;
  fmt_Println ("Execute '" +:+ ProjectName H +:+ " reset-user -e " +:+ environment
               +:+ "' to clear user data") ;;
  os_Exit 1.

(** The password when a credential record is cached: the branch on
    [flagUsername] and [flagPassword] that both resolvers share. *)
Definition passwordForCachedUser (environment flagUsername flagPassword
    username : string) : M string :=
  if negb (isEmpty flagUsername)
  then
    if negb (String.eqb flagUsername username)
    then usernameMismatch environment
    else
      if isEmpty flagPassword
      then fmt_Println ("For Username: " +:+ username) ;; PromptForPassword
      else ret flagPassword
  else
    if negb (isEmpty flagPassword)
    then ret flagPassword
    else fmt_Println ("For username: " +:+ username) ;; PromptForPassword.

(** User name and password on the first use of an environment: the
    branch both resolvers share. *)
Definition freshCredentials (flagUsername flagPassword : string)
    : M (string * string) :=
  if negb (isEmpty flagUsername)
  then
    let username := flagUsername in
    password <- (if isEmpty flagPassword
                 then fmt_Println ("For Username: " +:+ username) ;; PromptForPassword
                 else ret flagPassword) ;;
    ret (username, password)
  else
    typed <- PromptForUsername ;;
    let username := GoStrings.TrimSpace (unicode H) typed in
    password <- PromptForPassword ;;
    ret (username, password).

(** The error both resolvers return for an environment that the main
    configuration file does not have. *)
Definition unknownEnvironment (environment mainConfigFilePath : string) : error :=
  if isEmpty environment
  then errors_New ("no environment specified. Either specify it using the -e flag or name one of "
                   +:+ "the environments in '" +:+ MainConfigFileName H +:+ "' to 'default'")
  else errors_New ("Details incorrect/unavailable for environment '" +:+ environment
                   +:+ "' in " +:+ mainConfigFilePath).

(** [ExecutePreCommandWithBasicAuth] *)
Definition ExecutePreCommandWithBasicAuth (environment flagUsername flagPassword
    mainConfigFilePath envKeysAllFilePath : string) : M (string * string * error) :=
  if EnvExistsInMainConfigFile H environment (MainConfigFilePath H)
  then
    let apiManagerEndpoint := GetAPIMEndpointOfEnv H environment mainConfigFilePath in
    Logln (LogPrefixInfo H +:+ "Environment: '" +:+ environment +:+ "'") ;;
    let err : error := None in
    cached <- EnvExistsInKeysFile environment envKeysAllFilePath ;;
    up <- (if cached : bool
           then
             username <- GetUsernameOfEnv environment envKeysAllFilePath ;;
             password <- passwordForCachedUser environment flagUsername
                                               flagPassword username ;;
             ret (username, password)
           else
             up <- freshCredentials flagUsername flagPassword ;;
             fmt_Println (newline +:+ "Username: " +:+ up.1 +:+ newline) ;;
             match err with
             | Some e => fmt_Println ("Error: " +:+ e)
             | None => ret tt
             end ;;
             ret up) ;;
    let (username, password) := up in
    let b64encodedCredentials := GetBase64EncodedCredentials username password in
    Logln (LogPrefixInfo H +:+ "[Remove in Production] Base64EncodedCredentials: "
           +:+ b64encodedCredentials) ;;
    ret (b64encodedCredentials, apiManagerEndpoint, None)
  else
    ret ("", "", unknownEnvironment environment mainConfigFilePath).

(** [ExecutePreCommandWithOAuth] *)
Definition ExecutePreCommandWithOAuth (environment flagUsername flagPassword
    mainConfigFilePath envKeysAllFilePath : string) : M (string * string * error) :=
  if EnvExistsInMainConfigFile H environment (MainConfigFilePath H)
  then
    let registrationEndpoint :=
      GetRegistrationEndpointOfEnv H environment (MainConfigFilePath H) in
    let apiManagerEndpoint := GetAPIMEndpointOfEnv H environment mainConfigFilePath in
    let tokenEndpoint := GetTokenEndpointOfEnv H environment mainConfigFilePath in
    Logln (LogPrefixInfo H +:+ "Environment: '" +:+ environment +:+ "'") ;;
    Logln (LogPrefixInfo H +:+ "Reg Endpoint read: " +:+ registrationEndpoint) ;;
    cached <- EnvExistsInKeysFile environment envKeysAllFilePath ;;
    creds <- (if cached : bool
              then
                username <- GetUsernameOfEnv environment envKeysAllFilePath ;;
                password <- passwordForCachedUser environment flagUsername
                                                  flagPassword username ;;
                clientID <- GetClientIDOfEnv environment envKeysAllFilePath ;;
                clientSecret <- GetClientSecretOfEnv environment password
                                                     envKeysAllFilePath ;;
                Logln (LogPrefixInfo H +:+ "Username: " +:+ username) ;;
                Logln (LogPrefixInfo H +:+ "ClientID: " +:+ clientID) ;;
                ret (username, password, clientID, clientSecret)
              else
                up <- freshCredentials flagUsername flagPassword ;;
                let (username, password) := up in
                fmt_Println (newline +:+ "Username: " +:+ username +:+ newline) ;;
                r <- GetClientIDSecret username password registrationEndpoint ;;
                let '(clientID, clientSecret, err) := r in
                match err with
                | Some e => fmt_Println ("Error: " +:+ e)
                | None => ret tt
                end ;;
                fmt_Println ("ClientID: " +:+ clientID) ;;
                fmt_Println ("ClientSecret: " +:+ clientSecret) ;;
                let encryptedClientSecret :=
                  Encrypt H (GetMD5Hash H password) clientSecret in
                let envKeys := {| ClientID := clientID;
                                  ClientSecret := encryptedClientSecret;
                                  Username := username |} in
                AddNewEnvToKeysFile environment envKeys envKeysAllFilePath ;;
                ret (username, password, clientID, clientSecret)) ;;
    let '(username, password, clientID, clientSecret) := creds in
    r <- GetOAuthTokens username password
                        (GetBase64EncodedCredentials clientID clientSecret)
                        tokenEndpoint ;;
    let (responseDataMap, _) := r in
    let accessToken := default "" (responseDataMap !! "access_token") in
    Logln (LogPrefixInfo H +:+ "[Remove in Production] AccessToken: " +:+ accessToken) ;;
    ret (accessToken, apiManagerEndpoint, None)
  else
    ret ("", "", unknownEnvironment environment mainConfigFilePath).

End WithHost.
End Auth.

(* ===================================================================== *)
(** * Concrete hosts, for running the embedding on explicit inputs *)
(* ===================================================================== *)

Module Demo.

(** A host whose strings are plain ASCII: the Unicode slow paths are
    never asked anything they could fold or trim. *)
Definition asciiOnly : GoStrings.Unicode :=
  {| GoStrings.TrimFunc_IsSpace := fun s => s;
     GoStrings.TrimRightFunc_IsSpace := fun s => s;
     GoStrings.EqualFold_hasUnicode := fun _ _ => false |}.

Definition demoKey : rsa_PrivateKey :=
  {| PublicKey := {| N := 3233; E := 17 |}; D := 2753 |}.

(** Three key stores on disk: one with an RSA key, one with an elliptic
    curve key, one whose entry is not PKCS#8 at all. *)
Definition keystoreProperties (location : string) : gmap string string :=
  <["secret.keystore.location" := location]>
  (<["secret.keystore.password" := "c3RvcmU="]>
   (<["secret.keystore.key.alias" := "wso2carbon"]>
    (<["secret.keystore.key.password" := "a2V5"]> ∅))).

Definition loadProperties (name : string) : option (gmap string string) :=
  if String.eqb name "rsa.properties" then Some (keystoreProperties "rsa.jks")
  else if String.eqb name "ec.properties" then Some (keystoreProperties "ec.jks")
  else if String.eqb name "garbled.properties" then Some (keystoreProperties "garbled.jks")
  else if String.eqb name "secrets.properties"
  then Some (<["db" := "s3cr3t"]> (<["queue" := "  "]> ∅))
  else None.

Definition openFile (name : string) : result string :=
  if String.eqb name "rsa.jks" then Ok "rsa"
  else if String.eqb name "ec.jks" then Ok "ec"
  else if String.eqb name "garbled.jks" then Ok "garbled"
  else Err ("open " +:+ name +:+ ": no such file or directory").

Definition parsePKCS8 (der : string) : option privateKey * error :=
  if String.eqb der "rsa" then (Some (RSAPrivateKey demoKey), None)
  else if String.eqb der "ec" then (Some ECDSAPrivateKey, None)
  else (None, Some "x509: failed to parse private key").

(** A stand-in cipher: it refuses messages of more than eight bytes, as
    RSA refuses a message longer than the key allows. *)
Definition toyCipher (tag : string) (seed : nat) (msg : string) : result string :=
  if (8 <? String.length msg)%nat
  then Err "crypto/rsa: message too long for RSA key size"
  else Ok (tag +:+ msg).

Definition miHost : MiUtils.Host :=
  {| MiUtils.unicode := asciiOnly;
     MiUtils.base64_DecodeString := fun s => s;
     MiUtils.filepath_Join := fun a b => a +:+ "/" +:+ b;
     MiUtils.os_Getwd := "/work";
     MiUtils.properties_MustLoadFile := loadProperties;
     MiUtils.os_Open := openFile;
     MiUtils.KeyStore := string;
     MiUtils.keystore_Load := fun f _ => Ok f;
     MiUtils.GetPrivateKeyEntry := fun ks _ _ => Ok {| MiUtils.PrivateKey := ks |};
     MiUtils.x509_ParsePKCS8PrivateKey := parsePKCS8;
     MiUtils.rsa_EncryptOAEP := fun _ seed _ msg _ => toyCipher "oaep:" seed msg;
     MiUtils.rsa_EncryptPKCS1v15 := fun seed _ msg => toyCipher "pkcs1:" seed msg;
     MiUtils.os_Create := fun _ => None;
     MiUtils.properties_Write := fun _ _ => None;
     MiUtils.rangeOrder := fun _ m => map_to_list m;
     MiUtils.rangeOrder_perm := fun _ _ => reflexivity _ |}.

Definition emptyState : state := {| trace := []; keysFiles := ∅; clock := 0 |}.

(** One alias whose value is blank. *)
Definition blankSecret : SecretConfig :=
  {| OutputType := "console"; Algorithm := "RSA/ECB/OAEPWithSHA1AndMGF1Padding";
     InputType := "console"; InputFile := "";
     PlainTextAlias := "db"; PlainTextSecretText := "   " |}.

(** The secrets [{db: s3cr3t}] for the manifest output. *)
Definition dbSecret (outputType algorithm : string) : SecretConfig :=
  {| OutputType := outputType; Algorithm := algorithm;
     InputType := "console"; InputFile := "";
     PlainTextAlias := "db"; PlainTextSecretText := "s3cr3t" |}.

(** A secret too long for the key. *)
Definition longSecret (outputType : string) : SecretConfig :=
  {| OutputType := outputType; Algorithm := "RSA/ECB/PKCS1Padding";
     InputType := "console"; InputFile := "";
     PlainTextAlias := "db"; PlainTextSecretText := "far too long a secret" |}.

(** An authorization server: the registration endpoint of environment
    [dev] answers 200, that of [staging] 500, that of [locked] 401; the
    token endpoint answers 200. *)
Definition answer (code : Z) (status body : string) : Response :=
  {| StatusCode := code; Status := status; Body := body; Error := "" |}.

Definition server (n : nat) (url : string) (headers : gmap string string)
    (body : string) : result Response :=
  if String.eqb url "https://dev/register" then Ok (answer 200 "200 OK" "registered")
  else if String.eqb url "https://staging/register"
  then Ok (answer 500 "500 Internal Server Error" "")
  else if String.eqb url "https://locked/register" then Ok (answer 401 "401 Unauthorized" "")
  else if String.eqb url "https://token" then Ok (answer 200 "200 OK" "token")
  else Err "no route to host".

Definition authHost : Auth.Host :=
  {| Auth.unicode := asciiOnly;
     Auth.MainConfigFilePath := "main_config.yaml";
     Auth.MainConfigFileName := "main_config.yaml";
     Auth.EnvKeysAllFilePath := "env_keys_all.yaml";
     Auth.ProjectName := "apimcli";
     Auth.LogPrefixInfo := "[INFO]: ";
     Auth.LogPrefixWarning := "[WARN]: ";
     Auth.LogPrefixError := "[ERROR]: ";
     Auth.HeaderContentType := "Content-Type";
     Auth.HeaderAuthorization := "Authorization";
     Auth.HeaderAccept := "Accept";
     Auth.HeaderValueApplicationJSON := "application/json";
     Auth.HeaderValueAuthBasicPrefix := "Basic";
     Auth.HeaderValueAuthBearerPrefix := "Bearer";
     Auth.HeaderValueXWWWFormUrlEncoded := "application/x-www-form-urlencoded";
     Auth.DefaultTokenValidityPeriod := "3600";
     Auth.EnvExistsInMainConfigFile := fun env _ =>
       String.eqb env "dev" || String.eqb env "staging" || String.eqb env "locked";
     Auth.GetAPIMEndpointOfEnv := fun env _ => "https://" +:+ env +:+ "/api";
     Auth.GetRegistrationEndpointOfEnv := fun env _ => "https://" +:+ env +:+ "/register";
     Auth.GetTokenEndpointOfEnv := fun _ _ => "https://token";
     Auth.GetMD5Hash := fun s => "md5(" +:+ s +:+ ")";
     Auth.Encrypt := fun key text => "enc[" +:+ key +:+ "](" +:+ text +:+ ")";
     Auth.Decrypt := fun key text => "dec[" +:+ key +:+ "](" +:+ text +:+ ")";
     Auth.typedUsername := fun _ => "admin";
     Auth.typedPassword := fun _ => "typed-password";
     Auth.transport := server;
     Auth.json_Unmarshal_RegistrationResponse := fun _ =>
       ({| reg_ClientID := "client-1"; reg_ClientSecret := "secret-1" |}, None);
     Auth.json_Unmarshal_map := fun _ => <["access_token" := "token-1"]> ∅;
     Auth.dedent_Dedent := fun s => s |}.

(** A credential file that already has a record of [dev] for user
    [admin]. *)
Definition cachedState : state :=
  {| trace := [];
     keysFiles :=
       <["env_keys_all.yaml" :=
           <["dev" := {| ClientID := "client-0"; ClientSecret := "sealed";
                         Username := "admin" |}]> ∅]> ∅;
     clock := 0 |}.

End Demo.

(* ===================================================================== *)
(** * Vocabulary of the properties *)
(* ===================================================================== *)

(** The diagnostic of a credential mismatch: the warning and the
    instruction to reset the cached credentials. *)
Definition mismatchDiagnostic (H : Auth.Host) (environment : string) : list event :=
  [ Println (Auth.LogPrefixWarning H +:+ "Username entered with flag -u for the environment '"
             +:+ environment +:+ "' is not the same as username found in file '"
             +:+ Auth.EnvKeysAllFilePath H +:+ "'");
    Println ("Execute '" +:+ Auth.ProjectName H +:+ " reset-user -e " +:+ environment
             +:+ "' to clear user data") ].

(** The diagnostic of a rejected registration. *)
Definition authenticationFailed : event :=
  Fatal "Incorrect Username/Password combination." (Some "401 Unauthorized").

(** The two padding schemes, and the library call that each stands for. *)
Inductive scheme := PKCS1v15 | OAEP.

Definition schemeOfCall (e : event) : option scheme :=
  match e with
  | RSAEncryptPKCS1v15 _ _ => Some PKCS1v15
  | RSAEncryptOAEP SHA1 _ _ None => Some OAEP
  | _ => None
  end.

(** The scheme [EncryptSecrets] is said to select for a label. *)
Definition selected (H : MiUtils.Host) (algorithm : string) : scheme :=
  if MiUtils.IsPKCS1Encryption H algorithm then PKCS1v15 else OAEP.

(** The library call behind a scheme, on the randomness of index [seed]. *)
Definition cipher (H : MiUtils.Host) (s : scheme) (seed : nat)
    (key : rsa_PublicKey) (plainText : string) : result string :=
  match s with
  | PKCS1v15 => MiUtils.rsa_EncryptPKCS1v15 H seed key plainText
  | OAEP => MiUtils.rsa_EncryptOAEP H SHA1 seed key plainText None
  end.

(** The function of the source behind a scheme. *)
Definition encryptWith (H : MiUtils.Host) (s : scheme) : MiUtils.encryptFunc :=
  match s with
  | PKCS1v15 => MiUtils.encryptPKCS1v15 H
  | OAEP => MiUtils.encryptOAEP H
  end.

(** The fixed shape of the secret manifest around its string data. *)
Definition manifest (stringData : gmap string string) : k8sSecretConfig :=
  {| APIVerion := "v1";
     Kind := "Secret";
     MetaData := {| Name := "wso2misecret"; Namespace := "default" |};
     StringData := stringData;
     Type_ := "Opaque" |}.

(** Every event that a computation adds to the trace satisfies [P],
    whatever the state it starts from and however it ends. *)
Definition emits {A} (P : event -> Prop) (m : M A) : Prop :=
  forall st, exists evs, trace (m st).2 = trace st ++ evs /\ Forall P evs.

(** One step of the byte loop of [EqualFold] on two ASCII bytes agrees with
    the comparison of their lower-case letters. *)
Definition foldStepAgrees (a b : ascii) : bool :=
  let sr := GoStrings.byte_of a in
  let tr := GoStrings.byte_of b in
  let lo := Z.min sr tr in
  let hi := Z.max sr tr in
  implb ((sr <? GoStrings.RuneSelf) && (tr <? GoStrings.RuneSelf))
        (negb (GoStrings.RuneSelf <=? Z.lor sr tr)
         && Bool.eqb ((tr =? sr) || ((65 <=? lo) && (lo <=? 90) && (hi =? lo + 97 - 65)))
                     (Ascii.eqb (GoStrings.lowerByte a) (GoStrings.lowerByte b))).

Definition allBytes : list ascii := List.map ascii_of_nat (seq 0 256).

(** The event of one call of the library for a scheme. *)
Definition callOf (s : scheme) (key : rsa_PublicKey) (plainText : string) : event :=
  match s with
  | PKCS1v15 => RSAEncryptPKCS1v15 key plainText
  | OAEP => RSAEncryptOAEP SHA1 key plainText None
  end.

(** What [encryptOAEP] and [encryptPKCS1v15] make of the library's answer. *)
Definition encoded (r : result string) : string * error :=
  match r with
  | Ok encryptedBytes => (GoStrings.EncodeToString encryptedBytes, None)
  | Err e => ("", Some e)
  end.

(* ===================================================================== *)
(** * Package [mi/utils]: command literals *)
(* ===================================================================== *)

Module CmdLiteral.

(** The ASCII path of [strings.Fields]: [field] is the text of the field
    being read, [s[fieldStart:i]], empty while spaces are skipped; a field
    is closed by a space or by the end of the string. *)
Fixpoint asciiFields (s field : string) : list string :=
  match s with
  | EmptyString =>
      match field with
      | EmptyString => []
      | _ => [field]
      end
  | String c s' =>
      if GoStrings.asciiSpace c
      then match field with
           | EmptyString => asciiFields s' EmptyString
           | _ => field :: asciiFields s' EmptyString
           end
      else asciiFields s' (field +:+ String c EmptyString)
  end.

Section WithFieldsFunc.
(** [strings.FieldsFunc(s, unicode.IsSpace)], where [strings.Fields] hands
    over a string that has a byte [>= utf8.RuneSelf]. *)
Variable FieldsFunc_IsSpace : string -> list string.

(** [strings.Fields] *)
Definition Fields (s : string) : list string :=
  if GoStrings.isASCII s then asciiFields s EmptyString else FieldsFunc_IsSpace s.

(** [GetTrimmedCmdLiteral]; indexing an empty slice panics. *)
Definition GetTrimmedCmdLiteral (cmd : string) : M string :=
  let cmdParts := Fields cmd in
  match cmdParts with
  | [] => panic "runtime error: index out of range [0] with length 0"
  | part :: _ => ret part
  end.

End WithFieldsFunc.
End CmdLiteral.

(* ===================================================================== *)
(** * Further vocabulary and concrete hosts *)
(* ===================================================================== *)

(** Every byte of [s] satisfies [P]. *)
Fixpoint everyByte (P : ascii -> bool) (s : string) : bool :=
  match s with
  | EmptyString => true
  | String c s' => P c && everyByte P s'
  end.

(** A byte of the base64 alphabet, or the padding byte. *)
Definition isBase64Byte (c : ascii) : bool :=
  existsb (Ascii.eqb c) (list_ascii_of_string GoStrings.encodeStd)
  || Ascii.eqb c GoStrings.padChar.

(** The line [printSecretsToConsole] prints for one entry. *)
Definition consoleLine (entry : string * string) : string :=
  entry.1 +:+ " : " +:+ entry.2.

(** The call of the cipher for one entry of the plain secrets. *)
Definition callFor (s : scheme) (key : rsa_PublicKey) (entry : string * string) : event :=
  callOf s key entry.2.

(** [s] starts with [p]. *)
Fixpoint hasPrefix (p s : string) : bool :=
  match p, s with
  | EmptyString, _ => true
  | String a p', String b s' => Ascii.eqb a b && hasPrefix p' s'
  | String _ _, EmptyString => false
  end.

(** The three messages [getEncryptionKey] builds its errors from. *)
Definition isKeyStoreError (e : string) : bool :=
  hasPrefix "Reading Key Store: " e
  || hasPrefix "Reading Key Entry: " e
  || hasPrefix "Parsing Key Entry: " e.

Module Demo2.

(** [Demo.miHost] on another disk: [load] loads the properties files,
    [create] answers [os.Create] and [write] answers [props.Write]. *)
Definition miHostOn (load : string -> option (gmap string string))
    (create : string -> error) (write : string -> gmap string string -> error)
    : MiUtils.Host :=
  {| MiUtils.unicode := Demo.asciiOnly;
     MiUtils.base64_DecodeString := fun s => s;
     MiUtils.filepath_Join := fun a b => a +:+ "/" +:+ b;
     MiUtils.os_Getwd := "/work";
     MiUtils.properties_MustLoadFile := load;
     MiUtils.os_Open := Demo.openFile;
     MiUtils.KeyStore := string;
     MiUtils.keystore_Load := fun f _ => Ok f;
     MiUtils.GetPrivateKeyEntry := fun ks alias _ =>
       if String.eqb alias "wso2carbon" then Ok {| MiUtils.PrivateKey := ks |}
       else Err ("no such entry: " +:+ alias);
     MiUtils.x509_ParsePKCS8PrivateKey := Demo.parsePKCS8;
     MiUtils.rsa_EncryptOAEP := fun _ seed _ msg _ => Demo.toyCipher "oaep:" seed msg;
     MiUtils.rsa_EncryptPKCS1v15 := fun seed _ msg => Demo.toyCipher "pkcs1:" seed msg;
     MiUtils.os_Create := create;
     MiUtils.properties_Write := write;
     MiUtils.rangeOrder := fun _ m => map_to_list m;
     MiUtils.rangeOrder_perm := fun _ _ => reflexivity _ |}.

(** Three secrets, of which the cipher of [Demo.miHost] refuses the one of
    [queue]; Go's iteration is modelled on these hosts by the order of
    [map_to_list], which is [cache], [queue], [db]. *)
Definition mixedSecrets : gmap string string :=
  <["db" := "s3cr3t"]>
  (<["queue" := "far too long a secret"]>
   (<["cache" := "redis"]> ∅)).

(** A disk that also has a properties file naming a key store that does
    not exist, and the file of the three secrets. *)
Definition loadMore (name : string) : option (gmap string string) :=
  if String.eqb name "lost.properties" then Some (Demo.keystoreProperties "lost.jks")
  else if String.eqb name "mixed.properties" then Some mixedSecrets
  else Demo.loadProperties name.

(** A disk on which no file can be created. *)
Definition readOnly (name : string) : error :=
  Some ("open " +:+ name +:+ ": read-only file system").


Definition miHost : MiUtils.Host := miHostOn loadMore (fun _ => None) (fun _ _ => None).
Definition miHostReadOnly : MiUtils.Host := miHostOn loadMore readOnly (fun _ _ => None).

(** Secrets read from a properties file. *)
Definition fileSecrets (inputFile outputType : string) : SecretConfig :=
  {| OutputType := outputType; Algorithm := "RSA/ECB/OAEPWithSHA1AndMGF1Padding";
     InputType := "file"; InputFile := inputFile;
     PlainTextAlias := ""; PlainTextSecretText := "" |}.

(** [Demo.authHost] with a cipher that [Decrypt] undoes: the key is written
    in front of the text. *)
Definition sealWith (key text : string) : string := key +:+ "|" +:+ text.
Definition unsealWith (key text : string) : string :=
  String.substring (S (String.length key))
                   (String.length text - S (String.length key)) text.

Definition authHost : Auth.Host :=
  {| Auth.unicode := Demo.asciiOnly;
     Auth.MainConfigFilePath := "main_config.yaml";
     Auth.MainConfigFileName := "main_config.yaml";
     Auth.EnvKeysAllFilePath := "env_keys_all.yaml";
     Auth.ProjectName := "apimcli";
     Auth.LogPrefixInfo := "[INFO]: ";
     Auth.LogPrefixWarning := "[WARN]: ";
     Auth.LogPrefixError := "[ERROR]: ";
     Auth.HeaderContentType := "Content-Type";
     Auth.HeaderAuthorization := "Authorization";
     Auth.HeaderAccept := "Accept";
     Auth.HeaderValueApplicationJSON := "application/json";
     Auth.HeaderValueAuthBasicPrefix := "Basic";
     Auth.HeaderValueAuthBearerPrefix := "Bearer";
     Auth.HeaderValueXWWWFormUrlEncoded := "application/x-www-form-urlencoded";
     Auth.DefaultTokenValidityPeriod := "3600";
     Auth.EnvExistsInMainConfigFile := fun env _ =>
       String.eqb env "dev" || String.eqb env "staging" || String.eqb env "locked";
     Auth.GetAPIMEndpointOfEnv := fun env _ => "https://" +:+ env +:+ "/api";
     Auth.GetRegistrationEndpointOfEnv := fun env _ => "https://" +:+ env +:+ "/register";
     Auth.GetTokenEndpointOfEnv := fun _ _ => "https://token";
     Auth.GetMD5Hash := fun s => "md5(" +:+ s +:+ ")";
     Auth.Encrypt := sealWith;
     Auth.Decrypt := unsealWith;
     Auth.typedUsername := fun n => if (n =? 0)%nat then "  admin " else "operator";
     Auth.typedPassword := fun _ => "typed-password";
     Auth.transport := Demo.server;
     Auth.json_Unmarshal_RegistrationResponse := fun _ =>
       ({| reg_ClientID := "client-1"; reg_ClientSecret := "secret-1" |}, None);
     Auth.json_Unmarshal_map := fun _ => <["access_token" := "token-1"]> ∅;
     Auth.dedent_Dedent := fun s => s |}.

End Demo2.

(** A read from the terminal. *)
Definition isPrompt (e : event) : bool :=
  match e with
  | PromptedUsername | PromptedPassword => true
  | _ => false
  end.

(** The headers and the body of the request [GetOAuthTokens] sends: the
    password grant, with the client credentials in the [Authorization]
    header. *)
Definition tokenHeaders (H : Auth.Host) (b64EncodedClientIDClientSecret : string)
    : gmap string string :=
  <[Auth.HeaderAccept H := Auth.HeaderValueApplicationJSON H]>
    (<[Auth.HeaderAuthorization H :=
         Auth.HeaderValueAuthBearerPrefix H +:+ " " +:+ b64EncodedClientIDClientSecret]>
       (<[Auth.HeaderContentType H := Auth.HeaderValueXWWWFormUrlEncoded H]> ∅)).

Definition tokenBody (H : Auth.Host) (username password : string) : string :=
  "grant_type=password&username=" +:+ username +:+ "&password=" +:+ password
  +:+ "&validity_period=" +:+ Auth.DefaultTokenValidityPeriod H
  +:+ "&scope=apim:api_view".

Definition tokenRequest (H : Auth.Host) (username password
    b64EncodedClientIDClientSecret url : string) : event :=
  POST url (tokenHeaders H b64EncodedClientIDClientSecret) (tokenBody H username password).

(* ===================================================================== *)
(** * Properties *)
(* ===================================================================== *)

(** ** Running the monad *)

Lemma emitted_of_trace {A} (m : M A) (st : state) (evs : list event) :
  trace (m st).2 = trace st ++ evs -> emitted m st = evs.
Proof. intros Ht. unfold emitted. rewrite Ht. apply drop_app_length. Qed.

Lemma isEmpty_false (s : string) : s <> "" -> Auth.isEmpty s = false.
Proof. intros Hs. unfold Auth.isEmpty. by apply String.eqb_neq. Qed.

Ltac run :=
  unfold fmt_Println; unfold bind, ret, emit, tick, os_Exit, panic; simpl.

Ltac auth_unfold :=
  unfold Auth.ExecutePreCommandWithOAuth, Auth.ExecutePreCommandWithBasicAuth,
    Auth.GetClientIDSecret, Auth.GetOAuthTokens, Auth.freshCredentials,
    Auth.passwordForCachedUser, Auth.usernameMismatch, Auth.InvokePOSTRequest,
    Auth.HandleErrorAndExit, Auth.PromptForUsername, Auth.PromptForPassword,
    Auth.AddNewEnvToKeysFile, Auth.GetClientSecretOfEnv, Auth.GetClientIDOfEnv,
    Auth.GetUsernameOfEnv, Auth.EnvExistsInKeysFile, Auth.Logln, Auth.keysOfEnv in *.

(** Brings a trace [((t ++ [a]) ++ [b]) ++ ...] to [t ++ [a; b; ...]]. *)
Ltac flatten_trace := rewrite <- ?app_assoc; simpl.

(** ** The credential resolver *)

(** C2.  For an environment of the main configuration that has a cached
    credential record, a non-empty user name given with the flag that
    differs from the cached user name makes both resolvers print the
    mismatch diagnostic and exit with status 1; neither sends a request
    over the network, and the credential file is left as it was. *)
Theorem flag_username_mismatch_aborts (H : Auth.Host)
    (environment flagUsername flagPassword mainConfigFilePath envKeysAllFilePath : string)
    (st : state) (cached : EnvKeys) :
  Auth.EnvExistsInMainConfigFile H environment (Auth.MainConfigFilePath H) = true ->
  Auth.keysOfEnv st environment envKeysAllFilePath = Some cached ->
  flagUsername <> "" ->
  flagUsername <> Username cached ->
  let basic := Auth.ExecutePreCommandWithBasicAuth H environment flagUsername
                 flagPassword mainConfigFilePath envKeysAllFilePath in
  let oauth := Auth.ExecutePreCommandWithOAuth H environment flagUsername
                 flagPassword mainConfigFilePath envKeysAllFilePath in
  ((basic st).1 = Exited 1 /\ (oauth st).1 = Exited 1) /\
  (exists logs, emitted basic st = logs ++ mismatchDiagnostic H environment) /\
  (exists logs, emitted oauth st = logs ++ mismatchDiagnostic H environment) /\
  (List.filter isNetworkCall (emitted basic st) = [] /\
   List.filter isNetworkCall (emitted oauth st) = []) /\
  (keysFiles (basic st).2 = keysFiles st /\ keysFiles (oauth st).2 = keysFiles st).
Proof.
  intros Hknown Hcached Hflag Hdiff basic oauth.
  apply String.eqb_neq in Hdiff. pose proof (isEmpty_false _ Hflag) as Hflag'.
  assert (Hb : basic st =
    (Exited 1,
     {| trace := trace st
          ++ Logged (Auth.LogPrefixInfo H +:+ "Environment: '" +:+ environment +:+ "'")
             :: mismatchDiagnostic H environment;
        keysFiles := keysFiles st; clock := clock st |})).
  { unfold basic. auth_unfold. rewrite Hknown. simpl in Hcached.
    run. repeat (progress (rewrite ?Hcached, ?Hflag', ?Hdiff; simpl)).
    flatten_trace. reflexivity. }
  assert (Ho : oauth st =
    (Exited 1,
     {| trace := trace st
          ++ Logged (Auth.LogPrefixInfo H +:+ "Environment: '" +:+ environment +:+ "'")
             :: Logged (Auth.LogPrefixInfo H +:+ "Reg Endpoint read: "
                        +:+ Auth.GetRegistrationEndpointOfEnv H environment
                              (Auth.MainConfigFilePath H))
             :: mismatchDiagnostic H environment;
        keysFiles := keysFiles st; clock := clock st |})).
  { unfold oauth. auth_unfold. rewrite Hknown. simpl in Hcached.
    run. repeat (progress (rewrite ?Hcached, ?Hflag', ?Hdiff; simpl)).
    flatten_trace. reflexivity. }
  rewrite (emitted_of_trace basic st _ (f_equal (fun r => trace r.2) Hb)).
  rewrite (emitted_of_trace oauth st _ (f_equal (fun r => trace r.2) Ho)).
  rewrite Hb, Ho. simpl. repeat split.
  - by exists [Logged (Auth.LogPrefixInfo H +:+ "Environment: '" +:+ environment +:+ "'")].
  - by exists [Logged (Auth.LogPrefixInfo H +:+ "Environment: '" +:+ environment +:+ "'");
               Logged (Auth.LogPrefixInfo H +:+ "Reg Endpoint read: "
                       +:+ Auth.GetRegistrationEndpointOfEnv H environment
                             (Auth.MainConfigFilePath H))].
Qed.

Lemma flag_username_mismatch_witness :
  let basic := Auth.ExecutePreCommandWithBasicAuth Demo.authHost "dev" "bob" "pw"
                 "main_config.yaml" "env_keys_all.yaml" in
  let oauth := Auth.ExecutePreCommandWithOAuth Demo.authHost "dev" "bob" "pw"
                 "main_config.yaml" "env_keys_all.yaml" in
  ((basic Demo.cachedState).1 = Exited 1 /\ (oauth Demo.cachedState).1 = Exited 1) /\
  (exists logs, emitted basic Demo.cachedState = logs ++ mismatchDiagnostic Demo.authHost "dev") /\
  (exists logs, emitted oauth Demo.cachedState = logs ++ mismatchDiagnostic Demo.authHost "dev") /\
  (List.filter isNetworkCall (emitted basic Demo.cachedState) = [] /\
   List.filter isNetworkCall (emitted oauth Demo.cachedState) = []) /\
  (keysFiles (basic Demo.cachedState).2 = keysFiles Demo.cachedState /\
   keysFiles (oauth Demo.cachedState).2 = keysFiles Demo.cachedState).
Proof.
  apply (flag_username_mismatch_aborts Demo.authHost "dev" "bob" "pw"
           "main_config.yaml" "env_keys_all.yaml" Demo.cachedState
           {| ClientID := "client-0"; ClientSecret := "sealed"; Username := "admin" |}).
  - reflexivity.
  - vm_compute. reflexivity.
  - discriminate.
  - simpl. discriminate.
Defined.

(** C5.  On the first use of an environment of the main configuration, a
    registration endpoint that answers 401 makes the OAuth resolver print
    the authentication failure and exit with status 1.  The registration
    request is the only request sent: no token request follows, and nothing
    is written to the credential file. *)
Theorem registration_401_aborts (H : Auth.Host)
    (environment flagUsername flagPassword mainConfigFilePath envKeysAllFilePath : string)
    (st : state) (resp : Response) :
  Auth.EnvExistsInMainConfigFile H environment (Auth.MainConfigFilePath H) = true ->
  Auth.keysOfEnv st environment envKeysAllFilePath = None ->
  (forall n headers body,
     Auth.transport H n
       (Auth.GetRegistrationEndpointOfEnv H environment (Auth.MainConfigFilePath H))
       headers body = Ok resp) ->
  StatusCode resp = Auth.StatusUnauthorized ->
  let oauth := Auth.ExecutePreCommandWithOAuth H environment flagUsername
                 flagPassword mainConfigFilePath envKeysAllFilePath in
  (oauth st).1 = Exited 1 /\
  last (emitted oauth st) = Some authenticationFailed /\
  (exists headers,
     List.filter isNetworkCall (emitted oauth st) =
       [POST (Auth.GetRegistrationEndpointOfEnv H environment (Auth.MainConfigFilePath H))
             headers (Auth.dedent_Dedent H Auth.registrationBodyLiteral)]) /\
  List.filter isKeysFileWrite (emitted oauth st) = [] /\
  keysFiles (oauth st).2 = keysFiles st.
Proof.
  intros Hknown Hfresh Hreg Hstatus oauth.
  assert (Hrun : exists evs headers c,
    oauth st = (Exited 1, {| trace := trace st ++ evs; keysFiles := keysFiles st; clock := c |})
    /\ last evs = Some authenticationFailed
    /\ List.filter isNetworkCall evs =
         [POST (Auth.GetRegistrationEndpointOfEnv H environment (Auth.MainConfigFilePath H))
               headers (Auth.dedent_Dedent H Auth.registrationBodyLiteral)]
    /\ List.filter isKeysFileWrite evs = []).
  { unfold oauth. auth_unfold. rewrite Hknown. simpl in Hfresh.
    unfold Auth.StatusUnauthorized in Hstatus.
    destruct (Auth.isEmpty flagUsername) eqn:Hu;
      [| destruct (Auth.isEmpty flagPassword) eqn:Hp ];
      run; repeat (progress (rewrite ?Hfresh, ?Hu, ?Hp, ?Hreg, ?Hstatus; simpl));
      flatten_trace; eexists _, _, _; (split; [reflexivity |]); simpl; auto. }
  destruct Hrun as (evs & headers & c & Hrun & Hlast & Hnet & Hkeys).
  rewrite (emitted_of_trace oauth st evs) by (by rewrite Hrun).
  rewrite Hrun. simpl. repeat split; eauto.
Qed.

Lemma registration_401_witness :
  let oauth := Auth.ExecutePreCommandWithOAuth Demo.authHost "locked" "admin" "pw"
                 "main_config.yaml" "env_keys_all.yaml" in
  (oauth Demo.emptyState).1 = Exited 1 /\
  last (emitted oauth Demo.emptyState) = Some authenticationFailed /\
  (exists headers,
     List.filter isNetworkCall (emitted oauth Demo.emptyState) =
       [POST "https://locked/register" headers Auth.registrationBodyLiteral]) /\
  List.filter isKeysFileWrite (emitted oauth Demo.emptyState) = [] /\
  keysFiles (oauth Demo.emptyState).2 = keysFiles Demo.emptyState.
Proof.
  apply (registration_401_aborts Demo.authHost "locked" "admin" "pw"
           "main_config.yaml" "env_keys_all.yaml" Demo.emptyState
           (Demo.answer 401 "401 Unauthorized" "")).
  - reflexivity.
  - reflexivity.
  - reflexivity.
  - reflexivity.
Defined.

(** C3.  What the code does when the registration endpoint answers with a
    status other than 200, 201 and 401: the error is printed and the flow
    goes on.  After the registration request the resolver writes a record
    with an empty client identifier to the credential file and sends the
    token request. *)
Theorem registration_error_is_not_fatal (H : Auth.Host)
    (environment flagUsername flagPassword mainConfigFilePath envKeysAllFilePath : string)
    (st : state) (resp : Response) :
  Auth.EnvExistsInMainConfigFile H environment (Auth.MainConfigFilePath H) = true ->
  Auth.keysOfEnv st environment envKeysAllFilePath = None ->
  (forall n headers body,
     Auth.transport H n
       (Auth.GetRegistrationEndpointOfEnv H environment (Auth.MainConfigFilePath H))
       headers body = Ok resp) ->
  StatusCode resp <> Auth.StatusOK ->
  StatusCode resp <> Auth.StatusCreated ->
  StatusCode resp <> Auth.StatusUnauthorized ->
  let oauth := Auth.ExecutePreCommandWithOAuth H environment flagUsername
                 flagPassword mainConfigFilePath envKeysAllFilePath in
  exists registrationHeaders record tokenHeaders tokenBody,
    List.filter (fun e => isNetworkCall e || isKeysFileWrite e) (emitted oauth st) =
      [ POST (Auth.GetRegistrationEndpointOfEnv H environment (Auth.MainConfigFilePath H))
             registrationHeaders (Auth.dedent_Dedent H Auth.registrationBodyLiteral);
        KeysFilePut envKeysAllFilePath environment record;
        POST (Auth.GetTokenEndpointOfEnv H environment mainConfigFilePath)
             tokenHeaders tokenBody ] /\
    ClientID record = "".
Proof.
  intros Hknown Hfresh Hreg H200 H201 H401 oauth.
  apply Z.eqb_neq in H200, H201, H401.
  assert (Hrun : exists evs registrationHeaders record tokenHeaders tokenBody,
    trace (oauth st).2 = trace st ++ evs /\
    List.filter (fun e => isNetworkCall e || isKeysFileWrite e) evs =
      [ POST (Auth.GetRegistrationEndpointOfEnv H environment (Auth.MainConfigFilePath H))
             registrationHeaders (Auth.dedent_Dedent H Auth.registrationBodyLiteral);
        KeysFilePut envKeysAllFilePath environment record;
        POST (Auth.GetTokenEndpointOfEnv H environment mainConfigFilePath)
             tokenHeaders tokenBody ] /\
    ClientID record = "").
  { unfold oauth. auth_unfold. rewrite Hknown. simpl in Hfresh.
    unfold Auth.StatusOK, Auth.StatusCreated, Auth.StatusUnauthorized in *.
    destruct (Auth.isEmpty flagUsername) eqn:Hu;
      [| destruct (Auth.isEmpty flagPassword) eqn:Hp ];
      run; repeat (progress (rewrite ?Hfresh, ?Hu, ?Hp, ?Hreg, ?H200, ?H201, ?H401; simpl));
      (destruct (Auth.transport H _ (Auth.GetTokenEndpointOfEnv H environment mainConfigFilePath) _ _)
         as [tokenResp | e] eqn:Htoken;
       [ destruct (StatusCode tokenResp =? 200) eqn:Htok200 | ]);
      simpl; flatten_trace;
      eexists _, _, _, _, _; (split; [reflexivity |]); simpl; split; reflexivity. }
  destruct Hrun as (evs & rh & record & th & tb & Htrace & Hevs & Hid).
  rewrite (emitted_of_trace oauth st evs Htrace).
  exists rh, record, th, tb. by split.
Qed.

Lemma registration_error_is_not_fatal_witness :
  let oauth := Auth.ExecutePreCommandWithOAuth Demo.authHost "staging" "admin" "pw"
                 "main_config.yaml" "env_keys_all.yaml" in
  exists registrationHeaders record tokenHeaders tokenBody,
    List.filter (fun e => isNetworkCall e || isKeysFileWrite e)
                (emitted oauth Demo.emptyState) =
      [ POST "https://staging/register" registrationHeaders Auth.registrationBodyLiteral;
        KeysFilePut "env_keys_all.yaml" "staging" record;
        POST "https://token" tokenHeaders tokenBody ] /\
    ClientID record = "".
Proof.
  apply (registration_error_is_not_fatal Demo.authHost "staging" "admin" "pw"
           "main_config.yaml" "env_keys_all.yaml" Demo.emptyState
           (Demo.answer 500 "500 Internal Server Error" "")).
  - reflexivity.
  - reflexivity.
  - reflexivity.
  - vm_compute. discriminate.
  - vm_compute. discriminate.
  - vm_compute. discriminate.
Defined.

(** C4.  Registration of environment [staging] answers 500, so
    [GetClientIDSecret] returns an error; the resolver still leaves a record
    of [staging] in the credential file, with an empty client identifier. *)
Theorem failed_registration_is_persisted :
  let oauth := Auth.ExecutePreCommandWithOAuth Demo.authHost "staging" "admin" "pw"
                 "main_config.yaml" "env_keys_all.yaml" in
  Auth.keysOfEnv Demo.emptyState "staging" "env_keys_all.yaml" = None /\
  (Auth.GetClientIDSecret Demo.authHost "admin" "pw" "https://staging/register"
     Demo.emptyState).1 =
    Returned ("", "", Some "Request didn't respond 200 OK: 500 Internal Server Error") /\
  Auth.keysOfEnv (oauth Demo.emptyState).2 "staging" "env_keys_all.yaml" =
    Some {| ClientID := ""; ClientSecret := "enc[md5(pw)]()"; Username := "admin" |}.
Proof. vm_compute. repeat split; reflexivity. Qed.



(* --------------------------------------------------------------------- *)
(** ** Case-insensitive comparison of ASCII labels *)

Lemma forall_bytes (P : ascii -> bool) :
  forallb P allBytes = true -> forall c, P c = true.
Proof.
  intros HP c. rewrite forallb_forall in HP. apply HP.
  rewrite <- (ascii_nat_embedding c). unfold allBytes.
  apply in_map, in_seq. pose proof (nat_ascii_bounded c). lia.
Qed.

Lemma foldStepAgrees_all (a b : ascii) : foldStepAgrees a b = true.
Proof.
  revert b. pattern a. revert a.
  assert (Hall : forallb (fun a => forallb (foldStepAgrees a) allBytes) allBytes = true)
    by (vm_compute; reflexivity).
  intros a b.
  pose proof (forall_bytes _ Hall a) as Ha. simpl in Ha.
  exact (forall_bytes _ Ha b).
Qed.

Lemma EqualFold_ascii (U : GoStrings.Unicode) (s t : string) :
  GoStrings.isASCII s = true -> GoStrings.isASCII t = true ->
  GoStrings.EqualFold U s t = GoStrings.equalIgnoringCase s t.
Proof.
  revert t. induction s as [| a s IH]; intros [| b t] Hs Ht; try reflexivity.
  simpl in Hs, Ht. apply andb_prop in Hs as [Ha Hs]. apply andb_prop in Ht as [Hb Ht].
  pose proof (foldStepAgrees_all a b) as Hstep. unfold foldStepAgrees in Hstep.
  rewrite Ha, Hb in Hstep. simpl in Hstep.
  apply andb_prop in Hstep as [Hlor Hcmp].
  apply negb_true_iff in Hlor. apply Bool.eqb_prop in Hcmp.
  unfold GoStrings.equalIgnoringCase. simpl.
  rewrite Hlor, <- Hcmp. specialize (IH t Hs Ht).
  unfold GoStrings.equalIgnoringCase in IH. rewrite <- IH.
  destruct (GoStrings.byte_of b =? GoStrings.byte_of a); simpl; [reflexivity |].
  match goal with |- (if ?c then _ else _) = _ => destruct c end; reflexivity.
Qed.

(* --------------------------------------------------------------------- *)
(** ** Events of a computation *)

Lemma emits_ret {A} (P : event -> Prop) (a : A) : emits P (ret a).
Proof. intros st. exists []. by rewrite app_nil_r. Qed.

Lemma emits_panic {A} (P : event -> Prop) (msg : string) : emits P (panic (A := A) msg).
Proof. intros st. exists []. by rewrite app_nil_r. Qed.

Lemma emits_exit {A} (P : event -> Prop) (code : Z) : emits P (os_Exit (A := A) code).
Proof. intros st. exists []. by rewrite app_nil_r. Qed.

Lemma emits_tick (P : event -> Prop) : emits P tick.
Proof. intros st. exists []. by rewrite app_nil_r. Qed.

Lemma emits_emit (P : event -> Prop) (e : event) : P e -> emits P (emit e).
Proof. intros He st. exists [e]. split; [reflexivity | by constructor]. Qed.

Lemma emits_bind {A B} (P : event -> Prop) (m : M A) (k : A -> M B) :
  emits P m -> (forall a, emits P (k a)) -> emits P (bind m k).
Proof.
  intros Hm Hk st. destruct (Hm st) as (evs & Ht & HP). unfold bind.
  destruct (m st) as [[a | c | p] st1]; simpl in Ht.
  - destruct (Hk a st1) as (evs' & Ht' & HP'). exists (evs ++ evs'). split.
    + by rewrite Ht', Ht, app_assoc.
    + by apply Forall_app.
  - by exists evs.
  - by exists evs.
Qed.

Lemma emits_emitted {A} (P : event -> Prop) (m : M A) (st : state) :
  emits P m -> Forall P (emitted m st).
Proof.
  intros Hm. destruct (Hm st) as (evs & Ht & HP).
  by rewrite (emitted_of_trace m st evs Ht).
Qed.


(* --------------------------------------------------------------------- *)
(** ** The secret encryption pipeline *)

Ltac mi_unfold :=
  unfold MiUtils.getEncryptionKey, MiUtils.readPropertiesFromFile,
    MiUtils.getPlainTextSecrets, MiUtils.assertRSAPrivateKey,
    MiUtils.printSecretsToYamlFile, MiUtils.printSecretsToPropertiesFile,
    MiUtils.getSecretFilePath, MiUtils.WritePropertiesToFile,
    MiUtils.WriteConfigFile, MiUtils.CreateDirIfNotExist,
    MiUtils.HandleErrorAndExit, MiUtils.properties_ErrorHandler,
    MiUtils.range in *.

Lemma encryptWith_run (H : MiUtils.Host) (s : scheme) (key : rsa_PublicKey)
    (plainText : string) (st : state) :
  encryptWith H s key plainText st =
    (Returned (encoded (cipher H s (clock st) key plainText)),
     {| trace := trace st ++ [callOf s key plainText];
        keysFiles := keysFiles st; clock := S (clock st) |}).
Proof.
  destruct s; unfold encryptWith, MiUtils.encryptPKCS1v15, MiUtils.encryptOAEP; run;
    match goal with |- context [match ?r with Ok _ => _ | Err _ => _ end] => destruct r end;
    reflexivity.
Qed.

Lemma schemeOfCall_callOf (s : scheme) (key : rsa_PublicKey) (plainText : string) :
  schemeOfCall (callOf s key plainText) = Some s.
Proof. by destruct s. Qed.

Lemma encrypt_loop_cons (H : MiUtils.Host) (s : scheme) (key : rsa_PublicKey)
    (alias plainText : string) (rest : list (string * string))
    (acc : gmap string string) (st : state) :
  MiUtils.encrypt_loop key ((alias, plainText) :: rest) (encryptWith H s) acc st =
    let st1 := {| trace := trace st ++ [callOf s key plainText];
                  keysFiles := keysFiles st; clock := S (clock st) |} in
    match cipher H s (clock st) key plainText with
    | Ok ct =>
        MiUtils.encrypt_loop key rest (encryptWith H s)
          (<[alias := GoStrings.EncodeToString ct]> acc) st1
    | Err e => (Returned (∅, Some e), st1)
    end.
Proof.
  simpl. unfold bind at 1. rewrite encryptWith_run.
  by destruct (cipher H s (clock st) key plainText).
Qed.

(** The loop of [encrypt]: it only calls the library for the scheme it was
    given; it either stops at the first entry the library refuses and
    returns that error, or it returns a map that holds, for every entry, the
    base64 text of a ciphertext of its value. *)
Lemma encrypt_loop_spec (H : MiUtils.Host) (s : scheme) (key : rsa_PublicKey) :
  forall (entries : list (string * string)) (acc : gmap string string) (st : state),
  exists evs c,
    let r := MiUtils.encrypt_loop key entries (encryptWith H s) acc st in
    r.2 = {| trace := trace st ++ evs; keysFiles := keysFiles st; clock := c |} /\
    Forall (fun e => schemeOfCall e = Some s) evs /\
    ((exists enc, r.1 = Returned (enc, None) /\
        (forall a v, enc !! a = Some v ->
           acc !! a = Some v \/
           exists p seed ct, (a, p) ∈ entries /\ cipher H s seed key p = Ok ct /\
                             v = GoStrings.EncodeToString ct) /\
        (forall a p, (a, p) ∈ entries ->
           is_Some (enc !! a) /\ exists seed ct, cipher H s seed key p = Ok ct) /\
        (forall a, is_Some (acc !! a) -> is_Some (enc !! a)))
     \/
     (exists a p seed e, r.1 = Returned (∅, Some e) /\
        (a, p) ∈ entries /\ cipher H s seed key p = Err e)).
Proof.
  induction entries as [| [alias plainText] rest IH]; intros acc st.
  - exists [], (clock st). simpl. rewrite app_nil_r. split; [by destruct st |].
    split; [constructor |]. left. exists acc. split; [reflexivity |].
    split; [auto |]. split; [| auto]. intros a p Hin. by apply elem_of_nil in Hin.
  - rewrite encrypt_loop_cons.
    destruct (cipher H s (clock st) key plainText) as [ct | e] eqn:Hct; cbv zeta.
    + destruct (IH (<[alias := GoStrings.EncodeToString ct]> acc)
                  {| trace := trace st ++ [callOf s key plainText];
                     keysFiles := keysFiles st; clock := S (clock st) |})
        as (evs & c & Hst & Hevs & Hres).
      cbv zeta in Hres. simpl in Hst. exists (callOf s key plainText :: evs), c.
      split; [by rewrite Hst, <- app_assoc |].
      split; [constructor; [apply schemeOfCall_callOf | exact Hevs] |].
      destruct Hres as [(enc & Hr & Hvals & Hdom & Hacc) | (a & p & seed & e & Hr & Hin & He)].
      * left. exists enc. split; [exact Hr |]. split; [| split].
        -- intros a v Hav. destruct (Hvals a v Hav) as [Hins | (p & seed & ct' & Hin & Hc & Hv)].
           ++ destruct (decide (alias = a)) as [<- | Hne].
              ** rewrite lookup_insert_eq in Hins. injection Hins as <-.
                 right. exists plainText, (clock st), ct. split; [left | by split].
              ** rewrite lookup_insert_ne in Hins by done. by left.
           ++ right. exists p, seed, ct'. split; [by right | by split].
        -- intros a p Hin. apply elem_of_cons in Hin as [[= -> ->] | Hin].
           ++ split; [apply Hacc; rewrite lookup_insert_eq; eauto | eauto].
           ++ by apply Hdom.
        -- intros a Ha. apply Hacc. destruct (decide (alias = a)) as [<- | Hne].
           ++ rewrite lookup_insert_eq. eauto.
           ++ by rewrite lookup_insert_ne.
      * right. exists a, p, seed, e. split; [exact Hr |]. split; [by right | exact He].
    + exists [callOf s key plainText], (S (clock st)).
      split; [reflexivity |].
      split; [constructor; [apply schemeOfCall_callOf | constructor] |].
      right. exists alias, plainText, (clock st), e. split; [reflexivity |].
      split; [left | exact Hct].
Qed.

Lemma elem_of_rangeOrder (H : MiUtils.Host) (n : nat) (m : gmap string string)
    (k v : string) :
  (k, v) ∈ MiUtils.rangeOrder H n m <-> m !! k = Some v.
Proof. rewrite (MiUtils.rangeOrder_perm H n m). apply elem_of_map_to_list. Qed.

(** [encrypt] on a map, for either scheme. *)
Lemma encrypt_spec (H : MiUtils.Host) (s : scheme) (key : rsa_PublicKey)
    (plain : gmap string string) (st : state) :
  exists evs c,
    let r := MiUtils.encrypt H key plain (encryptWith H s) st in
    r.2 = {| trace := trace st ++ evs; keysFiles := keysFiles st; clock := c |} /\
    Forall (fun e => schemeOfCall e = Some s) evs /\
    ((exists enc, r.1 = Returned (enc, None) /\
        (forall a v, enc !! a = Some v ->
           exists p seed ct, plain !! a = Some p /\ cipher H s seed key p = Ok ct /\
                             v = GoStrings.EncodeToString ct) /\
        (forall a p, plain !! a = Some p ->
           is_Some (enc !! a) /\ exists seed ct, cipher H s seed key p = Ok ct))
     \/
     (exists a p seed e, r.1 = Returned (∅, Some e) /\
        plain !! a = Some p /\ cipher H s seed key p = Err e)).
Proof.
  unfold MiUtils.encrypt, MiUtils.range. run.
  destruct (encrypt_loop_spec H s key (MiUtils.rangeOrder H (clock st) plain) ∅
              {| trace := trace st; keysFiles := keysFiles st; clock := S (clock st) |})
    as (evs & c & Hst & Hevs & Hres).
  simpl in Hst, Hres. exists evs, c. split; [exact Hst |]. split; [exact Hevs |].
  destruct Hres as [(enc & Hr & Hvals & Hdom & _) | (a & p & seed & e & Hr & Hin & He)].
  - left. exists enc. split; [exact Hr |]. split.
    + intros a v Hav. destruct (Hvals a v Hav) as [Hemp | (p & seed & ct & Hin & Hc & Hv)].
      * by rewrite lookup_empty in Hemp.
      * exists p, seed, ct. by rewrite <- (elem_of_rangeOrder H (clock st)).
    + intros a p Hap. apply Hdom. by apply elem_of_rangeOrder.
  - right. exists a, p, seed, e. by rewrite <- (elem_of_rangeOrder H (clock st)).
Qed.

Lemma filter_none (f : event -> bool) (evs : list event) :
  Forall (fun e => f e = false) evs -> List.filter f evs = [].
Proof.
  induction 1 as [| e evs He _ IH]; [reflexivity |]. simpl. by rewrite He.
Qed.

(** The loop of [encrypt] when it comes to its end: one call of the cipher
    per entry, in the order of the entries. *)
Lemma encrypt_loop_calls (H : MiUtils.Host) (s : scheme) (key : rsa_PublicKey) :
  forall (entries : list (string * string)) (acc : gmap string string)
         (st st1 : state) (enc : gmap string string),
  MiUtils.encrypt_loop key entries (encryptWith H s) acc st = (Returned (enc, None), st1) ->
  st1 = {| trace := trace st ++ (callFor s key <$> entries);
           keysFiles := keysFiles st;
           clock := (clock st + length entries)%nat |}.
Proof.
  induction entries as [| [alias plainText] rest IH]; intros acc st st1 enc.
  - simpl. unfold ret. intros [= _ <-]. destruct st; simpl.
    by rewrite app_nil_r, Nat.add_0_r.
  - rewrite encrypt_loop_cons.
    destruct (cipher H s (clock st) key plainText) as [ct | e]; cbv zeta; [| discriminate].
    intros Hrest. apply IH in Hrest. rewrite Hrest. simpl.
    rewrite <- app_assoc. simpl. f_equal. lia.
Qed.

(** The loop of [encrypt] when the cipher refuses an entry. *)
Lemma encrypt_loop_failure (H : MiUtils.Host) (s : scheme) (key : rsa_PublicKey) :
  forall (entries : list (string * string)) (acc m : gmap string string)
         (st st1 : state) (e : string),
  MiUtils.encrypt_loop key entries (encryptWith H s) acc st = (Returned (m, Some e), st1) ->
  m = ∅ /\
  exists done refused later,
    entries = done ++ refused :: later /\
    cipher H s (clock st + length done)%nat key refused.2 = Err e /\
    st1 = {| trace := trace st ++ (callFor s key <$> (done ++ [refused]));
             keysFiles := keysFiles st;
             clock := S (clock st + length done) |}.
Proof.
  induction entries as [| [alias plainText] rest IH]; intros acc m st st1 e.
  - simpl. unfold ret. discriminate.
  - rewrite encrypt_loop_cons.
    destruct (cipher H s (clock st) key plainText) as [ct | e'] eqn:Hct; cbv zeta.
    + intros Hrest. apply IH in Hrest as (-> & done & refused & later & -> & He & ->).
      split; [reflexivity |]. exists ((alias, plainText) :: done), refused, later.
      split; [reflexivity |]. simpl in *. split.
      * by rewrite <- He, Nat.add_succ_r.
      * rewrite <- app_assoc. simpl. f_equal. lia.
    + intros [= <- <- <-]. split; [reflexivity |].
      exists [], (alias, plainText), rest. split; [reflexivity |]. simpl.
      rewrite Nat.add_0_r. by split.
Qed.

(** What [encrypt] does, in full: it goes through the entries in the order
    of the iteration, and either encrypts every one of them or stops at the
    first that the cipher refuses. *)
Lemma encrypt_outcome (H : MiUtils.Host) (s : scheme) (key : rsa_PublicKey)
    (plain : gmap string string) (st : state) :
  (exists enc,
     MiUtils.encrypt H key plain (encryptWith H s) st =
       (Returned (enc, None),
        {| trace := trace st ++ (callFor s key <$> MiUtils.rangeOrder H (clock st) plain);
           keysFiles := keysFiles st;
           clock := (S (clock st) + length (MiUtils.rangeOrder H (clock st) plain))%nat |})) \/
  (exists e done refused later,
     MiUtils.rangeOrder H (clock st) plain = done ++ refused :: later /\
     cipher H s (S (clock st) + length done)%nat key refused.2 = Err e /\
     MiUtils.encrypt H key plain (encryptWith H s) st =
       (Returned (∅, Some e),
        {| trace := trace st ++ (callFor s key <$> (done ++ [refused]));
           keysFiles := keysFiles st;
           clock := S (S (clock st) + length done) |})).
Proof.
  destruct (encrypt_spec H s key plain st) as (evs & c & _ & _ & Hres). cbv zeta in Hres.
  destruct (MiUtils.encrypt H key plain (encryptWith H s) st) as [o st1] eqn:Hrun.
  simpl in Hres. pose proof Hrun as Hloop.
  unfold MiUtils.encrypt, MiUtils.range in Hloop.
  unfold bind, tick, ret in Hloop. simpl in Hloop.
  destruct Hres as [(enc & -> & _) | (a & p & seed & e & -> & _)].
  - left. exists enc. apply encrypt_loop_calls in Hloop. by rewrite Hloop.
  - right. apply encrypt_loop_failure in Hloop
      as (_ & done & refused & later & Hentries & He & ->).
    exists e, done, refused, later. by repeat split.
Qed.

Lemma filter_callFor (s : scheme) (key : rsa_PublicKey) (entries : list (string * string)) :
  List.filter isCryptoCall (callFor s key <$> entries) = callFor s key <$> entries.
Proof.
  induction entries as [| entry rest IH]; [reflexivity |].
  cbn [fmap list_fmap List.filter]. fold (callFor s key <$> rest).
  assert (Hcall : isCryptoCall (callFor s key entry) = true) by (by destruct s).
  by rewrite Hcall, IH.
Qed.

(** A properties file that is read leaves the state as it was. *)
Lemma readPropertiesFromFile_returns (H : MiUtils.Host) (fileName : string) (st : state)
    (props : gmap string string) :
  (MiUtils.readPropertiesFromFile H fileName st).1 = Returned props ->
  MiUtils.readPropertiesFromFile H fileName st = (Returned props, st).
Proof.
  mi_unfold. destruct (MiUtils.properties_MustLoadFile H fileName); [| discriminate].
  unfold ret. simpl. by intros [= ->].
Qed.

Lemma getEncryptionKey_pure (H : MiUtils.Host) (m : gmap string string) (st : state) :
  (MiUtils.getEncryptionKey H m st).2 = st.
Proof.
  mi_unfold. destruct (MiUtils.readKeyStore H _ _) as [ks | e]; [| reflexivity].
  destruct (MiUtils.GetPrivateKeyEntry H ks _ _) as [pke | e]; [| reflexivity].
  destruct (MiUtils.x509_ParsePKCS8PrivateKey H (MiUtils.PrivateKey pke)) as [[[k | | |] |] [e |]];
    reflexivity.
Qed.

Lemma getPlainTextSecrets_returns (H : MiUtils.Host) (cfg : SecretConfig) (st : state)
    (plain : gmap string string) :
  (MiUtils.getPlainTextSecrets H cfg st).1 = Returned plain ->
  MiUtils.getPlainTextSecrets H cfg st = (Returned plain, st).
Proof.
  unfold MiUtils.getPlainTextSecrets.
  destruct (MiUtils.IsFile H (InputType cfg)); [apply readPropertiesFromFile_returns |].
  unfold ret. simpl. by intros [= ->].
Qed.

Lemma run_pure {A} (m : M A) (st : state) (a : A) :
  (m st).2 = st -> (m st).1 = Returned a -> m st = (Returned a, st).
Proof. destruct (m st) as [o st']. simpl. by intros -> ->. Qed.

(** C6.  What the code does when the key entry of the key store is not an
    RSA key, or is not a PKCS#8 key at all (the parser then returns a nil
    key with its error): the type assertion runs before the error is looked
    at and panics, so no error is returned to the caller. *)
Theorem non_rsa_key_panics (H : MiUtils.Host) (keyStoreConfigMap : gmap string string)
    (st : state) (keyStore : MiUtils.KeyStore H) (pke : MiUtils.PrivateKeyEntry)
    (key : option privateKey) (err : error) :
  MiUtils.readKeyStore H
    (MiUtils.index keyStoreConfigMap "secret.keystore.location")
    (MiUtils.base64_DecodeString H
       (MiUtils.index keyStoreConfigMap "secret.keystore.password")) = Ok keyStore ->
  MiUtils.GetPrivateKeyEntry H keyStore
    (MiUtils.index keyStoreConfigMap "secret.keystore.key.alias")
    (MiUtils.base64_DecodeString H
       (MiUtils.index keyStoreConfigMap "secret.keystore.key.password")) = Ok pke ->
  MiUtils.x509_ParsePKCS8PrivateKey H (MiUtils.PrivateKey pke) = (key, err) ->
  (forall k, key <> Some (RSAPrivateKey k)) ->
  exists msg, MiUtils.getEncryptionKey H keyStoreConfigMap st = (Panicked msg, st).
Proof.
  intros Hstore Hentry Hparse Hkey. unfold MiUtils.getEncryptionKey.
  rewrite Hstore, Hentry, Hparse.
  destruct key as [[k | | |] |]; [by destruct (Hkey k) | | | |];
    unfold MiUtils.assertRSAPrivateKey; run; eauto.
Qed.

Lemma non_rsa_key_panics_witness :
  exists msg,
    MiUtils.getEncryptionKey Demo.miHost (Demo.keystoreProperties "garbled.jks")
      Demo.emptyState = (Panicked msg, Demo.emptyState).
Proof.
  apply (non_rsa_key_panics Demo.miHost (Demo.keystoreProperties "garbled.jks")
           Demo.emptyState "garbled" {| MiUtils.PrivateKey := "garbled" |}
           None (Some "x509: failed to parse private key")).
  - vm_compute. reflexivity.
  - vm_compute. reflexivity.
  - vm_compute. reflexivity.
  - intros k. discriminate.
Defined.

(** The loop of the validator stops at the first blank value it meets. *)
Lemma IsMapWithNonEmptyValues_loop_blank (H : MiUtils.Host) :
  forall (entries : list (string * string)) (st : state),
  (exists k v, (k, v) ∈ entries /\
     String.length (GoStrings.TrimSpace (MiUtils.unicode H) v) = 0%nat) ->
  exists key value,
    (key, value) ∈ entries /\
    String.length (GoStrings.TrimSpace (MiUtils.unicode H) value) = 0%nat /\
    MiUtils.IsMapWithNonEmptyValues_loop H entries st =
      (Returned false,
       {| trace := trace st ++ [Println ("Invalid input for " +:+ key)];
          keysFiles := keysFiles st; clock := clock st |}).
Proof.
  induction entries as [| [k0 v0] rest IH]; intros st (k & v & Hin & Hblank).
  - by apply elem_of_nil in Hin.
  - simpl.
    destruct (String.length (GoStrings.TrimSpace (MiUtils.unicode H) v0) =? 0)%nat eqn:Hv0.
    + exists k0, v0. split; [left |]. split; [by apply Nat.eqb_eq |]. reflexivity.
    + apply elem_of_cons in Hin as [[= -> ->] | Hin].
      * apply Nat.eqb_neq in Hv0. contradiction.
      * destruct (IH st) as (key & value & Hin' & Hblank' & Hrun);
          [by exists k, v |].
        exists key, value. split; [by right | by split].
Qed.

Lemma IsMapWithNonEmptyValues_loop_filled (H : MiUtils.Host) :
  forall (entries : list (string * string)) (st : state),
  (forall k v, (k, v) ∈ entries ->
     String.length (GoStrings.TrimSpace (MiUtils.unicode H) v) <> 0%nat) ->
  MiUtils.IsMapWithNonEmptyValues_loop H entries st = (Returned true, st).
Proof.
  induction entries as [| [k0 v0] rest IH]; intros st Hall; [reflexivity |].
  simpl. rewrite (proj2 (Nat.eqb_neq _ _) (Hall k0 v0 ltac:(left))).
  apply IH. intros k v Hin. apply (Hall k v). by right.
Qed.

(** The validator accepts a map without blank values, silently. *)
Lemma IsMapWithNonEmptyValues_accepts (H : MiUtils.Host) (inputs : gmap string string)
    (st : state) :
  (forall k v, inputs !! k = Some v ->
     String.length (GoStrings.TrimSpace (MiUtils.unicode H) v) <> 0%nat) ->
  MiUtils.IsMapWithNonEmptyValues H inputs st =
    (Returned true,
     {| trace := trace st; keysFiles := keysFiles st; clock := S (clock st) |}).
Proof.
  intros Hall. unfold MiUtils.IsMapWithNonEmptyValues, MiUtils.range. run.
  apply IsMapWithNonEmptyValues_loop_filled.
  intros k v Hin. apply (Hall k v). by apply elem_of_rangeOrder in Hin.
Qed.

(** C1, as amended.  For every map with at least one value that is empty
    after trimming, the validator [IsMapWithNonEmptyValues] prints the
    diagnostic for one such key and returns false; that line is all it adds
    to the trace, so it makes no call of the cipher. *)
Theorem validator_rejects_blank_values (H : MiUtils.Host) (inputs : gmap string string)
    (st : state) :
  (exists k v, inputs !! k = Some v /\
     String.length (GoStrings.TrimSpace (MiUtils.unicode H) v) = 0%nat) ->
  exists key value,
    inputs !! key = Some value /\
    String.length (GoStrings.TrimSpace (MiUtils.unicode H) value) = 0%nat /\
    MiUtils.IsMapWithNonEmptyValues H inputs st =
      (Returned false,
       {| trace := trace st ++ [Println ("Invalid input for " +:+ key)];
          keysFiles := keysFiles st; clock := S (clock st) |}).
Proof.
  intros (k & v & Hkv & Hblank).
  unfold MiUtils.IsMapWithNonEmptyValues, MiUtils.range. run.
  destruct (IsMapWithNonEmptyValues_loop_blank H
              (MiUtils.rangeOrder H (clock st) inputs)
              {| trace := trace st; keysFiles := keysFiles st; clock := S (clock st) |})
    as (key & value & Hin & Hblank' & Hrun).
  { exists k, v. split; [by apply elem_of_rangeOrder | exact Hblank]. }
  exists key, value. split; [by apply elem_of_rangeOrder in Hin |]. by split.
Qed.

Lemma validator_rejects_blank_values_witness :
  exists key value,
    (<["db" := "s3cr3t"]> (<["queue" := "  "]> ∅) : gmap string string) !! key = Some value /\
    String.length (GoStrings.TrimSpace Demo.asciiOnly value) = 0%nat /\
    MiUtils.IsMapWithNonEmptyValues Demo.miHost
        (<["db" := "s3cr3t"]> (<["queue" := "  "]> ∅)) Demo.emptyState =
      (Returned false,
       {| trace := [] ++ [Println ("Invalid input for " +:+ key)];
          keysFiles := ∅; clock := 1 |}).
Proof.
  apply (validator_rejects_blank_values Demo.miHost
           (<["db" := "s3cr3t"]> (<["queue" := "  "]> ∅)) Demo.emptyState).
  exists "queue", "  ". split; vm_compute; reflexivity.
Defined.

(** C1, as stated, fails: [EncryptSecrets] does not run the validator.
    With the single secret [db] whose value is three spaces, it calls the
    cipher on the blank value, prints the result and returns no error. *)
Lemma EncryptSecrets_encrypts_blank_value :
  let run := MiUtils.EncryptSecrets Demo.miHost "rsa.properties" Demo.blankSecret in
  (MiUtils.getPlainTextSecrets Demo.miHost Demo.blankSecret Demo.emptyState).1 =
    Returned (<["db" := "   "]> ∅) /\
  String.length (GoStrings.TrimSpace Demo.asciiOnly "   ") = 0%nat /\
  (run Demo.emptyState).1 = Returned None /\
  List.filter isCryptoCall (emitted run Demo.emptyState) =
    [RSAEncryptOAEP SHA1 {| N := 3233; E := 17 |} "   " None] /\
  List.filter isOutput (emitted run Demo.emptyState) = [Println "db : b2FlcDogICA="].
Proof. vm_compute. repeat split; reflexivity. Qed.

(* --------------------------------------------------------------------- *)
(** ** Selection of the scheme and of the output form *)

Lemma emits_pure {A} (P : event -> Prop) (m : M A) :
  (forall st, (m st).2 = st) -> emits P m.
Proof. intros Hm st. exists []. by rewrite Hm, app_nil_r. Qed.

Lemma emits_impl {A} (P Q : event -> Prop) (m : M A) :
  (forall e, P e -> Q e) -> emits P m -> emits Q m.
Proof.
  intros HPQ Hm st. destruct (Hm st) as (evs & Ht & HP).
  exists evs. split; [exact Ht | by eapply Forall_impl].
Qed.

Lemma emits_encrypt (H : MiUtils.Host) (s : scheme) (key : rsa_PublicKey)
    (plain : gmap string string) :
  emits (fun e => schemeOfCall e = Some s) (MiUtils.encrypt H key plain (encryptWith H s)).
Proof.
  intros st. destruct (encrypt_spec H s key plain st) as (evs & c & Hst & Hevs & _).
  cbv zeta in Hst. exists evs. by rewrite Hst.
Qed.

(** [EncryptSecrets] hands [encrypt] the function of the selected scheme. *)
Lemma selected_encrypt (H : MiUtils.Host) (algorithm : string) (key : rsa_PublicKey)
    (plain : gmap string string) :
  (if MiUtils.IsPKCS1Encryption H algorithm
   then MiUtils.encrypt H key plain (MiUtils.encryptPKCS1v15 H)
   else MiUtils.encrypt H key plain (MiUtils.encryptOAEP H)) =
  MiUtils.encrypt H key plain (encryptWith H (selected H algorithm)).
Proof. unfold selected. by destruct (MiUtils.IsPKCS1Encryption H algorithm). Qed.

(** Steps through a computation whose events are all emitted in place. *)
Ltac emits_steps :=
  repeat first
    [ apply emits_ret | apply emits_panic | apply emits_exit | apply emits_tick
    | apply emits_emit; simpl; (reflexivity || (intros; discriminate))
    | apply emits_bind; [| intros ?]
    | match goal with
      | |- emits _ (match ?x with _ => _ end) => destruct x
      end ].

Lemma emits_printSecretsToConsole_loop (P : event -> Prop) :
  (forall line, P (Println line)) ->
  forall entries, emits P (MiUtils.printSecretsToConsole_loop entries).
Proof.
  intros HP. induction entries as [| [alias secret] rest IH]; simpl.
  - apply emits_ret.
  - apply emits_bind; [apply emits_emit, HP | intros _; exact IH].
Qed.

(** No sink calls the cipher. *)
Lemma emits_sinks (H : MiUtils.Host) (outputType : string) (secrets : gmap string string) :
  emits (fun e => isCryptoCall e = false)
    (if MiUtils.IsK8 H outputType then MiUtils.printSecretsToYamlFile H secrets
     else if MiUtils.IsFile H outputType then MiUtils.printSecretsToPropertiesFile H secrets
     else MiUtils.printSecretsToConsole H secrets).
Proof.
  destruct (MiUtils.IsK8 H outputType); [| destruct (MiUtils.IsFile H outputType)].
  - mi_unfold. unfold fmt_Println. emits_steps.
  - mi_unfold. unfold fmt_Println. emits_steps.
  - unfold MiUtils.printSecretsToConsole, MiUtils.range. emits_steps.
    by apply emits_printSecretsToConsole_loop.
Qed.

Lemma emits_readPropertiesFromFile (H : MiUtils.Host) (P : event -> Prop)
    (fileName : string) :
  (forall msg err, P (Fatal msg err)) ->
  emits P (MiUtils.readPropertiesFromFile H fileName).
Proof.
  intros HP. unfold MiUtils.readPropertiesFromFile, MiUtils.properties_ErrorHandler.
  destruct (MiUtils.properties_MustLoadFile H fileName); [apply emits_ret |].
  apply emits_bind; [apply emits_emit, HP | intros _; apply emits_exit].
Qed.

Lemma emits_EncryptSecrets (H : MiUtils.Host) (keyStorePropertiesFile : string)
    (secretConfig : SecretConfig) :
  emits (fun e => isCryptoCall e = true ->
                  schemeOfCall e = Some (selected H (Algorithm secretConfig)))
        (MiUtils.EncryptSecrets H keyStorePropertiesFile secretConfig).
Proof.
  unfold MiUtils.EncryptSecrets.
  apply emits_bind; [apply emits_readPropertiesFromFile; discriminate | intros ksm].
  apply emits_bind; [apply emits_pure, getEncryptionKey_pure | intros [key [e |]]].
  { apply emits_ret. }
  apply emits_bind.
  { unfold MiUtils.getPlainTextSecrets.
    destruct (MiUtils.IsFile H (InputType secretConfig)); [| apply emits_ret].
    apply emits_readPropertiesFromFile; discriminate. }
  intros plain.
  apply emits_bind.
  { destruct key as [key |]; [| apply emits_panic].
    rewrite selected_encrypt.
    eapply emits_impl; [| apply emits_encrypt]. by intros e He _. }
  intros [enc [e |]]; [apply emits_ret |].
  apply emits_bind; [| intros _; apply emits_ret].
  eapply emits_impl; [| apply emits_sinks]. intros e He Hc. congruence.
Qed.


Lemma IsK8_ascii (H : MiUtils.Host) (outputType : string) :
  GoStrings.isASCII outputType = true ->
  MiUtils.IsK8 H outputType = GoStrings.equalIgnoringCase outputType "k8".
Proof. intros Hascii. unfold MiUtils.IsK8. by apply EqualFold_ascii. Qed.

(** [printSecretsToYamlFile]: the directory, the manifest, two lines. *)
Lemma printSecretsToYamlFile_run (H : MiUtils.Host) (secrets : gmap string string)
    (st : state) :
  let dir := MiUtils.filepath_Join H (MiUtils.os_Getwd H) "security" in
  let path := MiUtils.filepath_Join H dir "wso2mi-secrets.yaml" in
  MiUtils.printSecretsToYamlFile H secrets st =
    (Returned tt,
     {| trace := trace st ++
          [ DirEnsured dir;
            ConfigFileWritten path (manifest secrets);
            Println ("Kubernetes secret file created in " +:+ path
                     +:+ " with default name and namespace");
            Println "You can change the default values as required before applying." ];
        keysFiles := keysFiles st; clock := clock st |}).
Proof. mi_unfold. run. flatten_trace. reflexivity. Qed.

(** The part of [EncryptSecrets] before the output: a run in which the key
    store gives a key and the plain secrets are read hands them to
    [encrypt] with the function of the selected scheme. *)
Lemma EncryptSecrets_run (H : MiUtils.Host) (keyStorePropertiesFile : string)
    (secretConfig : SecretConfig) (st : state) (keyStoreConfigMap : gmap string string)
    (key : rsa_PublicKey) (plain : gmap string string) :
  MiUtils.properties_MustLoadFile H keyStorePropertiesFile = Some keyStoreConfigMap ->
  (MiUtils.getEncryptionKey H keyStoreConfigMap st).1 = Returned (Some key, None) ->
  (MiUtils.getPlainTextSecrets H secretConfig st).1 = Returned plain ->
  MiUtils.EncryptSecrets H keyStorePropertiesFile secretConfig st =
    bind (MiUtils.encrypt H key plain (encryptWith H (selected H (Algorithm secretConfig))))
      (fun r =>
         match r.2 with
         | Some e => ret (Some e)
         | None =>
             bind (if MiUtils.IsK8 H (OutputType secretConfig)
                   then MiUtils.printSecretsToYamlFile H r.1
                   else if MiUtils.IsFile H (OutputType secretConfig)
                   then MiUtils.printSecretsToPropertiesFile H r.1
                   else MiUtils.printSecretsToConsole H r.1)
                  (fun _ => ret None)
         end) st.
Proof.
  intros Hload Hkey Hplain.
  apply run_pure in Hkey; [| apply getEncryptionKey_pure].
  apply getPlainTextSecrets_returns in Hplain.
  unfold MiUtils.EncryptSecrets, MiUtils.readPropertiesFromFile.
  rewrite Hload. unfold bind at 1. unfold ret at 1.
  unfold bind at 1. rewrite Hkey.
  unfold bind at 1. rewrite Hplain.
  rewrite selected_encrypt. unfold bind at 1 3.
  destruct (MiUtils.encrypt H key plain _ st) as [[[enc err] | c | p] st1]; reflexivity.
Qed.

(** C8.  For every algorithm label, [EncryptSecrets] encrypts under
    PKCS1v15 exactly when [strings.EqualFold] equates the label with
    [RSA/ECB/PKCS1Padding], which for an ASCII label is equality after
    lower-casing, and under OAEP for every other label.  In a run that has
    the key and the plain secrets, the calls of the cipher are
    [rsa.EncryptPKCS1v15] in the first case and [rsa.EncryptOAEP] with
    SHA-1 and no label in the second, on the values of the plain secrets in
    the order of the iteration: at least one when there is a secret, and
    all of them unless the run returns an error.  The ciphertext of the
    OAEP call is what [encryptOAEP] returns in base64. *)
Theorem scheme_selection (H : MiUtils.Host) (keyStorePropertiesFile : string)
    (secretConfig : SecretConfig) (st : state) :
  let label := Algorithm secretConfig in
  let run := MiUtils.EncryptSecrets H keyStorePropertiesFile secretConfig in
  (selected H label = PKCS1v15 <->
   GoStrings.EqualFold (MiUtils.unicode H) label "RSA/ECB/PKCS1Padding" = true) /\
  (GoStrings.isASCII label = true ->
   (selected H label = PKCS1v15 <->
    GoStrings.equalIgnoringCase label "RSA/ECB/PKCS1Padding" = true)) /\
  (selected H label <> PKCS1v15 -> selected H label = OAEP) /\
  Forall (fun e => isCryptoCall e = true -> schemeOfCall e = Some (selected H label))
         (emitted run st) /\
  (forall (keyStoreConfigMap : gmap string string) (key : rsa_PublicKey)
          (plain : gmap string string),
     MiUtils.properties_MustLoadFile H keyStorePropertiesFile = Some keyStoreConfigMap ->
     (MiUtils.getEncryptionKey H keyStoreConfigMap st).1 = Returned (Some key, None) ->
     (MiUtils.getPlainTextSecrets H secretConfig st).1 = Returned plain ->
     exists done later,
       done ++ later ≡ₚ map_to_list plain /\
       List.filter isCryptoCall (emitted run st) =
         (fun entry : string * string =>
            if GoStrings.EqualFold (MiUtils.unicode H) label "RSA/ECB/PKCS1Padding"
            then RSAEncryptPKCS1v15 key entry.2
            else RSAEncryptOAEP SHA1 key entry.2 None) <$> done /\
       (plain <> ∅ -> done <> []) /\
       (later <> [] -> exists e, (run st).1 = Returned (Some e))) /\
  (forall key plainText st1,
     MiUtils.encryptOAEP H key plainText st1 =
       (Returned (encoded (MiUtils.rsa_EncryptOAEP H SHA1 (clock st1) key plainText None)),
        {| trace := trace st1 ++ [RSAEncryptOAEP SHA1 key plainText None];
           keysFiles := keysFiles st1; clock := S (clock st1) |})).
Proof.
  intros label run.
  assert (Hsel : selected H label = PKCS1v15 <->
                 GoStrings.EqualFold (MiUtils.unicode H) label "RSA/ECB/PKCS1Padding" = true).
  { unfold selected, MiUtils.IsPKCS1Encryption.
    destruct (GoStrings.EqualFold _ label _); split; (done || discriminate). }
  split; [exact Hsel |]. split; [| split; [| split; [| split]]].
  - intros Hascii. rewrite Hsel. by rewrite EqualFold_ascii.
  - by destruct (selected H label).
  - apply emits_emitted, emits_EncryptSecrets.
  - intros keyStoreConfigMap key plain Hload Hkey Hplain.
    assert (Hcall : forall entries : list (string * string),
              (fun entry : string * string =>
                 if GoStrings.EqualFold (MiUtils.unicode H) label "RSA/ECB/PKCS1Padding"
                 then RSAEncryptPKCS1v15 key entry.2
                 else RSAEncryptOAEP SHA1 key entry.2 None) <$> entries
              = callFor (selected H label) key <$> entries).
    { intros entries. apply list_fmap_ext. intros _ entry _.
      unfold callFor, selected, MiUtils.IsPKCS1Encryption.
      by destruct (GoStrings.EqualFold _ label _). }
    pose proof (MiUtils.rangeOrder_perm H (clock st) plain) as Hperm.
    pose proof (EncryptSecrets_run H _ _ st keyStoreConfigMap key plain Hload Hkey Hplain)
      as Hrun.
    fold label in Hrun. fold run in Hrun. unfold bind at 1 in Hrun.
    destruct (encrypt_outcome H (selected H label) key plain st)
      as [(enc & Henc) | (e & done & refused & later & Hentries & He & Henc)];
      rewrite Henc in Hrun; cbn [fst snd] in Hrun.
    + destruct (emits_bind (fun e => isCryptoCall e = false)
                  (if MiUtils.IsK8 H (OutputType secretConfig)
                   then MiUtils.printSecretsToYamlFile H enc
                   else if MiUtils.IsFile H (OutputType secretConfig)
                   then MiUtils.printSecretsToPropertiesFile H enc
                   else MiUtils.printSecretsToConsole H enc)
                  (fun _ => ret (None : error))
                  (emits_sinks H (OutputType secretConfig) enc)
                  (fun _ => emits_ret _ None)
                  {| trace := trace st
                       ++ (callFor (selected H label) key
                             <$> MiUtils.rangeOrder H (clock st) plain);
                     keysFiles := keysFiles st;
                     clock := (S (clock st)
                               + length (MiUtils.rangeOrder H (clock st) plain))%nat |})
        as (evs & Ht & Hevs).
      exists (MiUtils.rangeOrder H (clock st) plain), [].
      split; [by rewrite app_nil_r |]. split; [| split].
      * rewrite (emitted_of_trace run st
                   ((callFor (selected H label) key
                       <$> MiUtils.rangeOrder H (clock st) plain) ++ evs)).
        -- by rewrite List.filter_app, filter_callFor, (filter_none _ _ Hevs),
             app_nil_r, Hcall.
        -- rewrite Hrun. etransitivity; [exact Ht |]. simpl. by rewrite <- app_assoc.
      * intros Hne Hnil. apply Hne. rewrite Hnil in Hperm.
        apply Permutation_nil in Hperm. by apply map_to_list_empty_iff.
      * done.
    + exists (done ++ [refused]), later.
      split; [by rewrite <- app_assoc, <- Hperm, Hentries |]. split; [| split].
      * rewrite (emitted_of_trace run st
                   (callFor (selected H label) key <$> (done ++ [refused]))).
        -- by rewrite filter_callFor, Hcall.
        -- by rewrite Hrun.
      * by destruct done.
      * intros _. exists e. by rewrite Hrun.
  - intros key plainText st1. exact (encryptWith_run H OAEP key plainText st1).
Qed.

Lemma scheme_selection_witness :
  let run label := MiUtils.EncryptSecrets Demo.miHost "rsa.properties"
                     (Demo.dbSecret "console" label) in
  List.filter isCryptoCall (emitted (run "rsa/ecb/pkcs1padding") Demo.emptyState) =
    [RSAEncryptPKCS1v15 (PublicKey Demo.demoKey) "s3cr3t"] /\
  List.filter isCryptoCall (emitted (run "AES") Demo.emptyState) =
    [RSAEncryptOAEP SHA1 (PublicKey Demo.demoKey) "s3cr3t" None] /\
  selected Demo.miHost "rsa/ecb/pkcs1padding" = PKCS1v15 /\
  selected Demo.miHost "AES" = OAEP.
Proof.
  intros run.
  assert (Hone : forall done later : list (string * string),
            done ++ later ≡ₚ map_to_list (<["db" := "s3cr3t"]> ∅ : gmap string string) ->
            ((<["db" := "s3cr3t"]> ∅ : gmap string string) <> ∅ -> done <> []) ->
            done = [("db", "s3cr3t")]).
  { intros done later Hperm Hne.
    rewrite insert_empty, map_to_list_singleton in Hperm.
    apply Permutation_singleton_r in Hperm.
    destruct done as [| entry done]; [exfalso; by apply Hne |].
    injection Hperm as -> Hrest. by destruct done. }
  pose proof (scheme_selection Demo.miHost "rsa.properties"
                (Demo.dbSecret "console" "rsa/ecb/pkcs1padding") Demo.emptyState)
    as (_ & Hlower & _ & _ & Hcalls & _).
  pose proof (scheme_selection Demo.miHost "rsa.properties"
                (Demo.dbSecret "console" "AES") Demo.emptyState)
    as (_ & _ & Hother & _ & Hcalls' & _).
  destruct (Hcalls (Demo.keystoreProperties "rsa.jks") (PublicKey Demo.demoKey)
              (<["db" := "s3cr3t"]> ∅) eq_refl eq_refl eq_refl)
    as (done & later & Hperm & Hfilter & Hne & _).
  destruct (Hcalls' (Demo.keystoreProperties "rsa.jks") (PublicKey Demo.demoKey)
              (<["db" := "s3cr3t"]> ∅) eq_refl eq_refl eq_refl)
    as (done' & later' & Hperm' & Hfilter' & Hne' & _).
  rewrite (Hone done later Hperm Hne) in Hfilter.
  rewrite (Hone done' later' Hperm' Hne') in Hfilter'.
  split; [exact Hfilter |]. split; [exact Hfilter' |].
  split; [apply Hlower; reflexivity |].
  apply Hother. vm_compute. discriminate.
Defined.

(** C9.  When the key store gives a key, the plain secrets are read and
    every one of them is encrypted, an output form that [IsK8] accepts makes
    [EncryptSecrets] ensure the [security] directory of the working
    directory and write there, to [wso2mi-secrets.yaml], the manifest with
    [apiVersion] v1, [kind] Secret, [type] Opaque, name [wso2misecret],
    namespace [default] and the encrypted map as string data.  The encrypted
    map has the aliases of the plain secrets, each with the base64 text of a
    ciphertext of its value. *)
Theorem k8_output_is_the_secret_manifest (H : MiUtils.Host) (keyStorePropertiesFile : string)
    (secretConfig : SecretConfig) (st st1 : state) (keyStoreConfigMap : gmap string string)
    (key : rsa_PublicKey) (plain enc : gmap string string) :
  MiUtils.properties_MustLoadFile H keyStorePropertiesFile = Some keyStoreConfigMap ->
  (MiUtils.getEncryptionKey H keyStoreConfigMap st).1 = Returned (Some key, None) ->
  (MiUtils.getPlainTextSecrets H secretConfig st).1 = Returned plain ->
  MiUtils.encrypt H key plain (encryptWith H (selected H (Algorithm secretConfig))) st =
    (Returned (enc, None), st1) ->
  MiUtils.IsK8 H (OutputType secretConfig) = true ->
  let dir := MiUtils.filepath_Join H (MiUtils.os_Getwd H) "security" in
  let path := MiUtils.filepath_Join H dir "wso2mi-secrets.yaml" in
  let doc := {| APIVerion := "v1"; Kind := "Secret";
                MetaData := {| Name := "wso2misecret"; Namespace := "default" |};
                StringData := enc; Type_ := "Opaque" |} in
  MiUtils.EncryptSecrets H keyStorePropertiesFile secretConfig st =
    (Returned None,
     {| trace := trace st1 ++
          [ DirEnsured dir;
            ConfigFileWritten path doc;
            Println ("Kubernetes secret file created in " +:+ path
                     +:+ " with default name and namespace");
            Println "You can change the default values as required before applying." ];
        keysFiles := keysFiles st1; clock := clock st1 |}) /\
  (forall alias, is_Some (enc !! alias) <-> is_Some (plain !! alias)) /\
  (forall alias value, enc !! alias = Some value ->
     exists plainText seed ciphertext,
       plain !! alias = Some plainText /\
       cipher H (selected H (Algorithm secretConfig)) seed key plainText = Ok ciphertext /\
       value = GoStrings.EncodeToString ciphertext).
Proof.
  intros Hload Hkey Hplain Henc Hk8 dir path doc.
  split; [| split].
  - rewrite (EncryptSecrets_run H _ _ st keyStoreConfigMap key plain Hload Hkey Hplain).
    unfold bind at 1. rewrite Henc. simpl. rewrite Hk8.
    unfold bind at 1. rewrite printSecretsToYamlFile_run. reflexivity.
  - destruct (encrypt_spec H (selected H (Algorithm secretConfig)) key plain st)
      as (evs & c & _ & _ & Hres).
    cbv zeta in Hres. rewrite Henc in Hres. simpl in Hres.
    destruct Hres as [(enc' & [= <-] & Hvals & Hdom) | (a & p & seed & e & [=] & _)].
    intros alias. split.
    + intros [value Hv]. destruct (Hvals alias value Hv) as (p & _ & _ & Hp & _). eauto.
    + intros [p Hp]. by apply (Hdom alias p).
  - destruct (encrypt_spec H (selected H (Algorithm secretConfig)) key plain st)
      as (evs & c & _ & _ & Hres).
    cbv zeta in Hres. rewrite Henc in Hres. simpl in Hres.
    destruct Hres as [(enc' & [= <-] & Hvals & Hdom) | (a & p & seed & e & [=] & _)].
    exact Hvals.
Qed.

Lemma k8_output_witness :
  let run := MiUtils.EncryptSecrets Demo.miHost "rsa.properties"
               (Demo.dbSecret "K8" "RSA/ECB/OAEPWithSHA1AndMGF1Padding") in
  let enc : gmap string string := <["db" := "b2FlcDpzM2NyM3Q="]> ∅ in
  run Demo.emptyState =
    (Returned None,
     {| trace :=
          [RSAEncryptOAEP SHA1 {| N := 3233; E := 17 |} "s3cr3t" None] ++
          [ DirEnsured "/work/security";
            ConfigFileWritten "/work/security/wso2mi-secrets.yaml" (manifest enc);
            Println ("Kubernetes secret file created in /work/security/wso2mi-secrets.yaml"
                     +:+ " with default name and namespace");
            Println "You can change the default values as required before applying." ];
        keysFiles := ∅; clock := 2 |}).
Proof.
  refine (proj1 (k8_output_is_the_secret_manifest Demo.miHost "rsa.properties"
           (Demo.dbSecret "K8" "RSA/ECB/OAEPWithSHA1AndMGF1Padding")
           Demo.emptyState
           {| trace := [RSAEncryptOAEP SHA1 {| N := 3233; E := 17 |} "s3cr3t" None];
              keysFiles := ∅; clock := 2 |}
           (Demo.keystoreProperties "rsa.jks") {| N := 3233; E := 17 |}
           (<["db" := "s3cr3t"]> ∅) (<["db" := "b2FlcDpzM2NyM3Q="]> ∅) _ _ _ _ _)).
  - reflexivity.
  - vm_compute. reflexivity.
  - vm_compute. reflexivity.
  - vm_compute. reflexivity.
  - reflexivity.
Defined.


(** C10.  When the key store gives a key, the plain secrets are read and
    [encrypt] returns an error, [EncryptSecrets] returns that error and
    stops in the state [encrypt] left.  The error is the one the cipher of
    the selected scheme gave for the secret it was handed last; every event
    of the run is a call of the cipher, so that nothing is printed and no
    directory, properties file or manifest is written, also when secrets
    were encrypted before the refused one. *)
Theorem encryption_failure_leaves_no_output (H : MiUtils.Host)
    (keyStorePropertiesFile : string) (secretConfig : SecretConfig) (st st1 : state)
    (keyStoreConfigMap : gmap string string) (key : rsa_PublicKey)
    (plain m : gmap string string) (e : string) :
  MiUtils.properties_MustLoadFile H keyStorePropertiesFile = Some keyStoreConfigMap ->
  (MiUtils.getEncryptionKey H keyStoreConfigMap st).1 = Returned (Some key, None) ->
  (MiUtils.getPlainTextSecrets H secretConfig st).1 = Returned plain ->
  MiUtils.encrypt H key plain (encryptWith H (selected H (Algorithm secretConfig))) st =
    (Returned (m, Some e), st1) ->
  let run := MiUtils.EncryptSecrets H keyStorePropertiesFile secretConfig in
  run st = (Returned (Some e), st1) /\
  (exists done refused later,
     done ++ refused :: later ≡ₚ map_to_list plain /\
     cipher H (selected H (Algorithm secretConfig)) (S (clock st + length done)) key refused.2
       = Err e /\
     emitted run st =
       callFor (selected H (Algorithm secretConfig)) key <$> (done ++ [refused])) /\
  Forall (fun ev => isCryptoCall ev = true) (emitted run st) /\
  List.filter isOutput (emitted run st) = [].
Proof.
  intros Hload Hkey Hplain Henc run.
  assert (Hrun : run st = (Returned (Some e), st1)).
  { unfold run.
    rewrite (EncryptSecrets_run H _ _ st keyStoreConfigMap key plain Hload Hkey Hplain).
    unfold bind at 1. by rewrite Henc. }
  pose proof Henc as Hloop.
  unfold MiUtils.encrypt, MiUtils.range in Hloop.
  unfold bind, tick, ret in Hloop. simpl in Hloop.
  apply encrypt_loop_failure in Hloop as (_ & done & refused & later & Hentries & He & Hst1).
  simpl in He, Hst1.
  assert (Hemitted : emitted run st =
            callFor (selected H (Algorithm secretConfig)) key <$> (done ++ [refused])).
  { apply emitted_of_trace. by rewrite Hrun, Hst1. }
  split; [exact Hrun |]. split; [| split].
  - exists done, refused, later.
    split; [by rewrite <- Hentries, (MiUtils.rangeOrder_perm H) |]. by split.
  - rewrite Hemitted. apply Forall_fmap, Forall_forall. intros entry _.
    unfold callFor. simpl. by destruct (selected H (Algorithm secretConfig)).
  - rewrite Hemitted. apply filter_none, Forall_fmap, Forall_forall. intros entry _.
    unfold callFor. simpl. by destruct (selected H (Algorithm secretConfig)).
Qed.

Lemma encryption_failure_witness :
  let run := MiUtils.EncryptSecrets Demo2.miHost "rsa.properties"
               (Demo2.fileSecrets "mixed.properties" "file") in
  let key := PublicKey Demo.demoKey in
  run Demo.emptyState =
    (Returned (Some "crypto/rsa: message too long for RSA key size"),
     {| trace := [ RSAEncryptOAEP SHA1 key "redis" None;
                   RSAEncryptOAEP SHA1 key "far too long a secret" None ];
        keysFiles := ∅; clock := 3 |}) /\
  List.filter isOutput (emitted run Demo.emptyState) = [] /\
  exists done refused later,
    done ++ refused :: later ≡ₚ map_to_list Demo2.mixedSecrets /\
    length done = 1%nat /\ length later = 1%nat /\
    emitted run Demo.emptyState = callFor OAEP key <$> (done ++ [refused]).
Proof.
  intros run key.
  destruct (encryption_failure_leaves_no_output Demo2.miHost "rsa.properties"
              (Demo2.fileSecrets "mixed.properties" "file") Demo.emptyState
              {| trace := [ RSAEncryptOAEP SHA1 key "redis" None;
                            RSAEncryptOAEP SHA1 key "far too long a secret" None ];
                 keysFiles := ∅; clock := 3 |}
              (Demo.keystoreProperties "rsa.jks") key Demo2.mixedSecrets ∅
              "crypto/rsa: message too long for RSA key size")
    as (Hrun & (done & refused & later & Hperm & _ & Hemitted) & _ & Hout).
  - reflexivity.
  - vm_compute. reflexivity.
  - vm_compute. reflexivity.
  - vm_compute. reflexivity.
  - split; [exact Hrun |]. split; [exact Hout |].
    exists done, refused, later. split; [exact Hperm |].
    unfold run, key in *.
    assert (Hcalls : length (emitted (MiUtils.EncryptSecrets Demo2.miHost "rsa.properties"
                                        (Demo2.fileSecrets "mixed.properties" "file"))
                               Demo.emptyState) = 2%nat)
      by (vm_compute; reflexivity).
    assert (Hsize : length (map_to_list Demo2.mixedSecrets) = 3%nat)
      by (vm_compute; reflexivity).
    apply Permutation_length in Hperm.
    rewrite Hsize, length_app in Hperm. simpl in Hperm.
    pose proof Hemitted as Hlen. apply (f_equal length) in Hlen.
    rewrite Hcalls, length_fmap, length_app in Hlen. simpl in Hlen.
    repeat split; [lia | lia | exact Hemitted].
Defined.

(* --------------------------------------------------------------------- *)
(** ** Runs on explicit inputs *)

Example base64_of_credentials :
  Auth.GetBase64EncodedCredentials "admin" "admin" = "YWRtaW46YWRtaW4=".
Proof. reflexivity. Qed.

Example label_in_lower_case :
  MiUtils.IsPKCS1Encryption Demo.miHost "rsa/ecb/pkcs1padding" = true /\
  MiUtils.IsPKCS1Encryption Demo.miHost "RSA/ECB/PKCS1Padding" = true /\
  MiUtils.IsPKCS1Encryption Demo.miHost "RSA/ECB/PKCS1Paddin" = false /\
  MiUtils.IsOAEPEncryption Demo.miHost "rsa/ecb/oaepwithsha1andmgf1padding" = true.
Proof. repeat split; reflexivity. Qed.

Example trimmed :
  GoStrings.TrimSpace Demo.asciiOnly "  s3cr3t  " = "s3cr3t" /\
  GoStrings.TrimSpace Demo.asciiOnly "   " = "".
Proof. split; reflexivity. Qed.

Example elliptic_curve_key_panics :
  MiUtils.EncryptSecrets Demo.miHost "ec.properties"
      (Demo.dbSecret "console" "RSA/ECB/PKCS1Padding") Demo.emptyState =
    (Panicked "interface conversion: interface {} is *ecdsa.PrivateKey, not *rsa.PrivateKey",
     Demo.emptyState).
Proof. vm_compute. reflexivity. Qed.

(* ===================================================================== *)
(** * Further properties of the secret encryption pipeline *)
(* ===================================================================== *)

Lemma state_eta (st : state) :
  {| trace := trace st ++ []; keysFiles := keysFiles st; clock := clock st |} = st.
Proof. destruct st. simpl. by rewrite app_nil_r. Qed.

(** The loop of the validator: what it returns and how much it prints. *)
Lemma IsMapWithNonEmptyValues_loop_verdict (H : MiUtils.Host) :
  forall (entries : list (string * string)) (st : state),
  exists b evs,
    MiUtils.IsMapWithNonEmptyValues_loop H entries st =
      (Returned b,
       {| trace := trace st ++ evs; keysFiles := keysFiles st; clock := clock st |}) /\
    (b = true <->
     forall k v, (k, v) ∈ entries ->
       String.length (GoStrings.TrimSpace (MiUtils.unicode H) v) <> 0%nat) /\
    (b = true -> evs = []) /\
    (b = false -> exists key, evs = [Println ("Invalid input for " +:+ key)]).
Proof.
  induction entries as [| [k0 v0] rest IH]; intros st.
  - exists true, []. rewrite state_eta. split; [reflexivity |].
    split; [| split; done].
    split; [| done]. intros _ k v Hin. by apply elem_of_nil in Hin.
  - simpl.
    destruct (String.length (GoStrings.TrimSpace (MiUtils.unicode H) v0) =? 0)%nat eqn:Hv0.
    + exists false, [Println ("Invalid input for " +:+ k0)].
      split; [reflexivity |]. split; [| split; [done | by exists k0]].
      split; [done |]. intros Hall. apply Nat.eqb_eq in Hv0.
      destruct (Hall k0 v0); [left | exact Hv0].
    + destruct (IH st) as (b & evs & Hrun & Hb & Hquiet & Hloud).
      exists b, evs. split; [exact Hrun |]. split; [| by split].
      rewrite Hb. apply Nat.eqb_neq in Hv0. split.
      * intros Hall k v Hin. apply elem_of_cons in Hin as [[= -> ->] | Hin];
          [exact Hv0 | by apply (Hall k v)].
      * intros Hall k v Hin. apply (Hall k v). by right.
Qed.

(** X1.  [IsMapWithNonEmptyValues] always returns: true exactly when no
    value of the map is empty after trimming, and then it prints nothing;
    otherwise it prints a single line, however many values are blank. *)
Theorem validator_verdict (H : MiUtils.Host) (inputs : gmap string string) (st : state) :
  exists b,
    (MiUtils.IsMapWithNonEmptyValues H inputs st).1 = Returned b /\
    (b = true <->
     forall k v, inputs !! k = Some v ->
       String.length (GoStrings.TrimSpace (MiUtils.unicode H) v) <> 0%nat) /\
    (b = true -> emitted (MiUtils.IsMapWithNonEmptyValues H inputs) st = []) /\
    (b = false -> exists key,
        emitted (MiUtils.IsMapWithNonEmptyValues H inputs) st =
          [Println ("Invalid input for " +:+ key)]).
Proof.
  destruct (IsMapWithNonEmptyValues_loop_verdict H
              (MiUtils.rangeOrder H (clock st) inputs)
              {| trace := trace st; keysFiles := keysFiles st; clock := S (clock st) |})
    as (b & evs & Hrun & Hb & Hquiet & Hloud).
  assert (Hfull : MiUtils.IsMapWithNonEmptyValues H inputs st =
            (Returned b, {| trace := trace st ++ evs; keysFiles := keysFiles st;
                            clock := S (clock st) |})).
  { unfold MiUtils.IsMapWithNonEmptyValues, MiUtils.range. run. exact Hrun. }
  exists b. rewrite (emitted_of_trace _ st evs) by (by rewrite Hfull).
  rewrite Hfull. split; [reflexivity |]. split; [| by split].
  rewrite Hb. split; intros Hall k v Hkv.
  - apply (Hall k v). by apply elem_of_rangeOrder.
  - apply (Hall k v). by apply elem_of_rangeOrder in Hkv.
Qed.

(** X2.  Whenever [getEncryptionKey] returns, it returns either a key with
    a nil error or a nil key with an error, never both and never neither.
    The key is the public half of the RSA key that the PKCS#8 parser found
    in the entry read from the key store of the configuration, under the
    alias and with the passwords of the configuration.  The error is the
    error of the step that failed behind [Reading Key Store: ],
    [Reading Key Entry: ] or [Parsing Key Entry: ]. *)
Theorem getEncryptionKey_key_or_error (H : MiUtils.Host)
    (keyStoreConfigMap : gmap string string) (st : state)
    (key : option rsa_PublicKey) (err : error) :
  (MiUtils.getEncryptionKey H keyStoreConfigMap st).1 = Returned (key, err) ->
  let store :=
    MiUtils.readKeyStore H
      (MiUtils.index keyStoreConfigMap "secret.keystore.location")
      (MiUtils.base64_DecodeString H
         (MiUtils.index keyStoreConfigMap "secret.keystore.password")) in
  let entryOf keyStore :=
    MiUtils.GetPrivateKeyEntry H keyStore
      (MiUtils.index keyStoreConfigMap "secret.keystore.key.alias")
      (MiUtils.base64_DecodeString H
         (MiUtils.index keyStoreConfigMap "secret.keystore.key.password")) in
  (exists keyStore pke rsaKey,
     store = Ok keyStore /\
     entryOf keyStore = Ok pke /\
     MiUtils.x509_ParsePKCS8PrivateKey H (MiUtils.PrivateKey pke)
       = (Some (RSAPrivateKey rsaKey), None) /\
     key = Some (PublicKey rsaKey) /\ err = None) \/
  (exists e cause,
     key = None /\ err = Some e /\ isKeyStoreError e = true /\
     ((store = Err cause /\ e = "Reading Key Store: " +:+ cause) \/
      (exists keyStore,
         store = Ok keyStore /\ entryOf keyStore = Err cause /\
         e = "Reading Key Entry: " +:+ cause) \/
      (exists keyStore pke rsaKey,
         store = Ok keyStore /\ entryOf keyStore = Ok pke /\
         MiUtils.x509_ParsePKCS8PrivateKey H (MiUtils.PrivateKey pke)
           = (Some (RSAPrivateKey rsaKey), Some cause) /\
         e = "Parsing Key Entry: " +:+ cause))).
Proof.
  intros Hrun store entryOf. revert Hrun. unfold MiUtils.getEncryptionKey.
  fold store. destruct store as [keyStore | cause] eqn:Hstore.
  - fold (entryOf keyStore). destruct (entryOf keyStore) as [pke | cause] eqn:Hentry.
    + destruct (MiUtils.x509_ParsePKCS8PrivateKey H (MiUtils.PrivateKey pke))
        as [[[rsaKey | | |] |] [cause |]] eqn:Hparse;
        unfold MiUtils.assertRSAPrivateKey; run; intros [= <- <-].
      * right. exists ("Parsing Key Entry: " +:+ cause), cause.
        repeat split. right. right. by exists keyStore, pke, rsaKey.
      * left. by exists keyStore, pke, rsaKey.
    + run. intros [= <- <-]. right. exists ("Reading Key Entry: " +:+ cause), cause.
      repeat split. right. left. by exists keyStore.
  - run. intros [= <- <-]. right. exists ("Reading Key Store: " +:+ cause), cause.
    repeat split. by left.
Qed.

Lemma getEncryptionKey_witness :
  let ksm := Demo.keystoreProperties "rsa.jks" in
  let store := MiUtils.readKeyStore Demo2.miHost "rsa.jks" "c3RvcmU=" in
  let entryOf keyStore :=
    MiUtils.GetPrivateKeyEntry Demo2.miHost keyStore "wso2carbon" "a2V5" in
  (exists keyStore pke rsaKey,
     store = Ok keyStore /\
     entryOf keyStore = Ok pke /\
     Demo.parsePKCS8 (MiUtils.PrivateKey pke) = (Some (RSAPrivateKey rsaKey), None) /\
     Some (PublicKey Demo.demoKey) = Some (PublicKey rsaKey) /\ (None : error) = None) \/
  (exists e cause,
     Some (PublicKey Demo.demoKey) = None /\ (None : error) = Some e /\
     isKeyStoreError e = true /\
     ((store = Err cause /\ e = "Reading Key Store: " +:+ cause) \/
      (exists keyStore,
         store = Ok keyStore /\ entryOf keyStore = Err cause /\
         e = "Reading Key Entry: " +:+ cause) \/
      (exists keyStore pke rsaKey,
         store = Ok keyStore /\ entryOf keyStore = Ok pke /\
         Demo.parsePKCS8 (MiUtils.PrivateKey pke)
           = (Some (RSAPrivateKey rsaKey), Some cause) /\
         e = "Parsing Key Entry: " +:+ cause))).
Proof.
  apply (getEncryptionKey_key_or_error Demo2.miHost (Demo.keystoreProperties "rsa.jks")
           Demo.emptyState (Some (PublicKey Demo.demoKey)) None).
  vm_compute. reflexivity.
Defined.

(** X3.  An error of [getEncryptionKey] is what [EncryptSecrets] returns,
    with nothing done in between: the plain secrets are not read, the
    cipher is not called and nothing is printed or written. *)
Theorem key_error_ends_EncryptSecrets (H : MiUtils.Host) (keyStorePropertiesFile : string)
    (secretConfig : SecretConfig) (st : state) (keyStoreConfigMap : gmap string string)
    (key : option rsa_PublicKey) (e : string) :
  MiUtils.properties_MustLoadFile H keyStorePropertiesFile = Some keyStoreConfigMap ->
  (MiUtils.getEncryptionKey H keyStoreConfigMap st).1 = Returned (key, Some e) ->
  MiUtils.EncryptSecrets H keyStorePropertiesFile secretConfig st = (Returned (Some e), st).
Proof.
  intros Hload Hkey. apply run_pure in Hkey; [| apply getEncryptionKey_pure].
  unfold MiUtils.EncryptSecrets, MiUtils.readPropertiesFromFile. rewrite Hload.
  unfold bind at 1. unfold ret at 1. unfold bind at 1. rewrite Hkey. reflexivity.
Qed.

Lemma key_error_witness :
  MiUtils.EncryptSecrets Demo2.miHost "lost.properties"
      (Demo2.fileSecrets "nowhere.properties" "k8") Demo.emptyState =
    (Returned (Some "Reading Key Store: open lost.jks: no such file or directory"),
     Demo.emptyState).
Proof.
  apply (key_error_ends_EncryptSecrets Demo2.miHost "lost.properties"
           (Demo2.fileSecrets "nowhere.properties" "k8") Demo.emptyState
           (Demo.keystoreProperties "lost.jks") None).
  - reflexivity.
  - vm_compute. reflexivity.
Defined.

(** X4.  A properties file that cannot be loaded ends the run inside
    [readPropertiesFromFile], be it the key store properties file or, with
    input form [file] and the key in hand, the file of the secrets:
    [properties.MustLoadFile] hands the error to the error handler of the
    library, which logs it and exits with status 1.  [EncryptSecrets]
    returns nothing to its caller, and the diagnostic is the only event of
    the run: the cipher is not called and nothing is printed or written. *)
Theorem unloadable_properties_exit (H : MiUtils.Host) (keyStorePropertiesFile : string)
    (secretConfig : SecretConfig) (st : state) :
  MiUtils.properties_MustLoadFile H keyStorePropertiesFile = None \/
  (exists keyStoreConfigMap key,
     MiUtils.properties_MustLoadFile H keyStorePropertiesFile = Some keyStoreConfigMap /\
     (MiUtils.getEncryptionKey H keyStoreConfigMap st).1 = Returned (Some key, None) /\
     MiUtils.IsFile H (InputType secretConfig) = true /\
     MiUtils.properties_MustLoadFile H (InputFile secretConfig) = None) ->
  exists msg,
    MiUtils.EncryptSecrets H keyStorePropertiesFile secretConfig st =
      (Exited 1,
       {| trace := trace st ++ [Fatal msg None];
          keysFiles := keysFiles st; clock := clock st |}).
Proof.
  intros [Hload | (ksm & key & Hload & Hkey & Hfile & Hinput)];
    unfold MiUtils.EncryptSecrets, MiUtils.readPropertiesFromFile,
      MiUtils.properties_ErrorHandler; rewrite Hload.
  - run. eauto.
  - apply run_pure in Hkey; [| apply getEncryptionKey_pure].
    unfold bind at 1. unfold ret at 1. unfold bind at 1. rewrite Hkey.
    unfold MiUtils.getPlainTextSecrets, MiUtils.readPropertiesFromFile,
      MiUtils.properties_ErrorHandler.
    rewrite Hfile, Hinput. run. eauto.
Qed.

Lemma unloadable_properties_witness :
  exists msg,
    MiUtils.EncryptSecrets Demo2.miHost "rsa.properties"
        (Demo2.fileSecrets "nowhere.properties" "console") Demo.emptyState =
      (Exited 1, {| trace := [] ++ [Fatal msg None]; keysFiles := ∅; clock := 0 |}).
Proof.
  apply (unloadable_properties_exit Demo2.miHost "rsa.properties"
           (Demo2.fileSecrets "nowhere.properties" "console") Demo.emptyState).
  right. exists (Demo.keystoreProperties "rsa.jks"), (PublicKey Demo.demoKey).
  repeat split; vm_compute; reflexivity.
Defined.


(** X5.  When [encrypt] returns without error it has called the cipher
    exactly once for every entry of the plain map, each time with the given
    key, and has done nothing else; the encrypted map has the aliases of the
    plain map. *)
Theorem every_secret_is_encrypted_once (H : MiUtils.Host) (s : scheme)
    (key : rsa_PublicKey) (plain enc : gmap string string) (st st1 : state) :
  MiUtils.encrypt H key plain (encryptWith H s) st = (Returned (enc, None), st1) ->
  emitted (MiUtils.encrypt H key plain (encryptWith H s)) st
    ≡ₚ callFor s key <$> map_to_list plain /\
  dom enc = dom plain /\
  clock st1 = S (clock st + size plain).
Proof.
  intros Hrun.
  assert (Hst1 : st1 = {| trace := trace st
                            ++ (callFor s key <$> MiUtils.rangeOrder H (clock st) plain);
                          keysFiles := keysFiles st;
                          clock := S (clock st + size plain) |}).
  { revert Hrun. unfold MiUtils.encrypt, MiUtils.range. run. intros Hloop.
    apply encrypt_loop_calls in Hloop. rewrite Hloop. simpl. f_equal.
    by rewrite (MiUtils.rangeOrder_perm H (clock st) plain), length_map_to_list. }
  split; [| split].
  - rewrite (emitted_of_trace _ st (callFor s key <$> MiUtils.rangeOrder H (clock st) plain))
      by (by rewrite Hrun, Hst1).
    by rewrite (MiUtils.rangeOrder_perm H (clock st) plain).
  - destruct (encrypt_spec H s key plain st) as (evs & c & _ & _ & Hres).
    cbv zeta in Hres. rewrite Hrun in Hres. simpl in Hres.
    destruct Hres as [(enc' & [= <-] & Hvals & Hdom) | (a & p & seed & e & [=] & _)].
    apply set_eq. intros a. rewrite !elem_of_dom. split.
    + intros [v Hv]. destruct (Hvals a v Hv) as (p & _ & _ & Hp & _). eauto.
    + intros [p Hp]. by apply (Hdom a p).
  - by rewrite Hst1.
Qed.

Lemma every_secret_is_encrypted_once_witness :
  let plain : gmap string string := <["db" := "s3cr3t"]> (<["queue" := "rabbit"]> ∅) in
  let enc : gmap string string :=
    <["db" := "b2FlcDpzM2NyM3Q="]> (<["queue" := "b2FlcDpyYWJiaXQ="]> ∅) in
  let run := MiUtils.encrypt Demo.miHost (PublicKey Demo.demoKey) plain
               (encryptWith Demo.miHost OAEP) in
  emitted run Demo.emptyState ≡ₚ callFor OAEP (PublicKey Demo.demoKey) <$> map_to_list plain /\
  dom enc = dom plain /\
  clock (run Demo.emptyState).2 = S (clock Demo.emptyState + size plain).
Proof.
  intros plain enc run.
  apply (every_secret_is_encrypted_once Demo.miHost OAEP (PublicKey Demo.demoKey)
           plain enc Demo.emptyState (run Demo.emptyState).2).
  vm_compute. reflexivity.
Defined.

Lemma printSecretsToConsole_loop_run :
  forall (entries : list (string * string)) (st : state),
  MiUtils.printSecretsToConsole_loop entries st =
    (Returned tt,
     {| trace := trace st ++ (Println <$> (consoleLine <$> entries));
        keysFiles := keysFiles st; clock := clock st |}).
Proof.
  induction entries as [| [alias secret] rest IH]; intros st.
  - simpl. unfold ret. by rewrite state_eta.
  - simpl. run. rewrite IH. simpl. by rewrite <- app_assoc.
Qed.

Lemma printSecretsToConsole_run (H : MiUtils.Host) (secrets : gmap string string)
    (st : state) :
  MiUtils.printSecretsToConsole H secrets st =
    (Returned tt,
     {| trace := trace st
          ++ (Println <$> (consoleLine <$> MiUtils.rangeOrder H (clock st) secrets));
        keysFiles := keysFiles st; clock := S (clock st) |}).
Proof.
  unfold MiUtils.printSecretsToConsole, MiUtils.range. run.
  by rewrite printSecretsToConsole_loop_run.
Qed.

(** X6.  [printSecretsToConsole] prints one line [alias : value] for every
    entry of the map, in the order Go ranges over it, and does nothing
    else; for the empty map it prints nothing. *)
Theorem console_prints_every_secret (H : MiUtils.Host) (secrets : gmap string string)
    (st : state) :
  exists lines,
    lines ≡ₚ consoleLine <$> map_to_list secrets /\
    MiUtils.printSecretsToConsole H secrets st =
      (Returned tt,
       {| trace := trace st ++ (Println <$> lines);
          keysFiles := keysFiles st; clock := S (clock st) |}) /\
    (secrets = ∅ -> lines = []).
Proof.
  exists (consoleLine <$> MiUtils.rangeOrder H (clock st) secrets). split; [| split].
  - by rewrite (MiUtils.rangeOrder_perm H (clock st) secrets).
  - apply printSecretsToConsole_run.
  - intros ->. pose proof (MiUtils.rangeOrder_perm H (clock st) ∅) as Hperm.
    rewrite map_to_list_empty in Hperm. apply Permutation_nil_r in Hperm.
    by rewrite Hperm.
Qed.

(** The output step of [EncryptSecrets], once [encrypt] has returned the
    encrypted map. *)
Lemma EncryptSecrets_output (H : MiUtils.Host) (keyStorePropertiesFile : string)
    (secretConfig : SecretConfig) (st st1 : state) (keyStoreConfigMap : gmap string string)
    (key : rsa_PublicKey) (plain enc : gmap string string) :
  MiUtils.properties_MustLoadFile H keyStorePropertiesFile = Some keyStoreConfigMap ->
  (MiUtils.getEncryptionKey H keyStoreConfigMap st).1 = Returned (Some key, None) ->
  (MiUtils.getPlainTextSecrets H secretConfig st).1 = Returned plain ->
  MiUtils.encrypt H key plain (encryptWith H (selected H (Algorithm secretConfig))) st =
    (Returned (enc, None), st1) ->
  MiUtils.EncryptSecrets H keyStorePropertiesFile secretConfig st =
    bind (if MiUtils.IsK8 H (OutputType secretConfig)
          then MiUtils.printSecretsToYamlFile H enc
          else if MiUtils.IsFile H (OutputType secretConfig)
          then MiUtils.printSecretsToPropertiesFile H enc
          else MiUtils.printSecretsToConsole H enc)
         (fun _ => ret None) st1.
Proof.
  intros Hload Hkey Hplain Henc.
  rewrite (EncryptSecrets_run H _ _ st keyStoreConfigMap key plain Hload Hkey Hplain).
  unfold bind at 1. rewrite Henc. reflexivity.
Qed.

(** X7.  Every output form that is neither [k8] nor [file] is the console:
    when the secrets are encrypted, [EncryptSecrets] prints one line
    [alias : base64 text] per secret and returns nil; no directory is
    created and no file is written. *)
Theorem console_is_the_default_output (H : MiUtils.Host) (keyStorePropertiesFile : string)
    (secretConfig : SecretConfig) (st st1 : state) (keyStoreConfigMap : gmap string string)
    (key : rsa_PublicKey) (plain enc : gmap string string) :
  MiUtils.properties_MustLoadFile H keyStorePropertiesFile = Some keyStoreConfigMap ->
  (MiUtils.getEncryptionKey H keyStoreConfigMap st).1 = Returned (Some key, None) ->
  (MiUtils.getPlainTextSecrets H secretConfig st).1 = Returned plain ->
  MiUtils.encrypt H key plain (encryptWith H (selected H (Algorithm secretConfig))) st =
    (Returned (enc, None), st1) ->
  MiUtils.IsK8 H (OutputType secretConfig) = false ->
  MiUtils.IsFile H (OutputType secretConfig) = false ->
  exists lines,
    lines ≡ₚ consoleLine <$> map_to_list enc /\
    MiUtils.EncryptSecrets H keyStorePropertiesFile secretConfig st =
      (Returned None,
       {| trace := trace st1 ++ (Println <$> lines);
          keysFiles := keysFiles st1; clock := S (clock st1) |}).
Proof.
  intros Hload Hkey Hplain Henc Hk8 Hfile.
  exists (consoleLine <$> MiUtils.rangeOrder H (clock st1) enc). split.
  - by rewrite (MiUtils.rangeOrder_perm H (clock st1) enc).
  - rewrite (EncryptSecrets_output H _ _ st st1 keyStoreConfigMap key plain enc
               Hload Hkey Hplain Henc).
    rewrite Hk8, Hfile. unfold bind. by rewrite printSecretsToConsole_run.
Qed.

Lemma console_is_the_default_output_witness :
  exists lines,
    lines ≡ₚ consoleLine <$> map_to_list (<["db" := "b2FlcDpzM2NyM3Q="]> ∅ : gmap string string) /\
    MiUtils.EncryptSecrets Demo.miHost "rsa.properties"
        (Demo.dbSecret "yaml" "OAEP") Demo.emptyState =
      (Returned None,
       {| trace := [RSAEncryptOAEP SHA1 (PublicKey Demo.demoKey) "s3cr3t" None]
                   ++ (Println <$> lines);
          keysFiles := ∅; clock := 3 |}).
Proof.
  apply (console_is_the_default_output Demo.miHost "rsa.properties"
           (Demo.dbSecret "yaml" "OAEP") Demo.emptyState
           {| trace := [RSAEncryptOAEP SHA1 (PublicKey Demo.demoKey) "s3cr3t" None];
              keysFiles := ∅; clock := 2 |}
           (Demo.keystoreProperties "rsa.jks") (PublicKey Demo.demoKey)
           (<["db" := "s3cr3t"]> ∅) (<["db" := "b2FlcDpzM2NyM3Q="]> ∅)).
  - reflexivity.
  - vm_compute. reflexivity.
  - vm_compute. reflexivity.
  - vm_compute. reflexivity.
  - reflexivity.
  - reflexivity.
Defined.

(** X8.  With an output form that is [file] and not [k8], and a disk that
    takes the file, [EncryptSecrets] ensures the [security] directory of the
    working directory, creates [wso2mi-secrets.properties] in it, writes the
    encrypted map to it as properties, prints where the file is and returns
    nil. *)
Theorem file_output_is_the_properties_file (H : MiUtils.Host)
    (keyStorePropertiesFile : string) (secretConfig : SecretConfig) (st st1 : state)
    (keyStoreConfigMap : gmap string string) (key : rsa_PublicKey)
    (plain enc : gmap string string) :
  let dir := MiUtils.filepath_Join H (MiUtils.os_Getwd H) "security" in
  let path := MiUtils.filepath_Join H dir "wso2mi-secrets.properties" in
  MiUtils.properties_MustLoadFile H keyStorePropertiesFile = Some keyStoreConfigMap ->
  (MiUtils.getEncryptionKey H keyStoreConfigMap st).1 = Returned (Some key, None) ->
  (MiUtils.getPlainTextSecrets H secretConfig st).1 = Returned plain ->
  MiUtils.encrypt H key plain (encryptWith H (selected H (Algorithm secretConfig))) st =
    (Returned (enc, None), st1) ->
  MiUtils.IsK8 H (OutputType secretConfig) = false ->
  MiUtils.IsFile H (OutputType secretConfig) = true ->
  MiUtils.os_Create H path = None ->
  MiUtils.properties_Write H path enc = None ->
  MiUtils.EncryptSecrets H keyStorePropertiesFile secretConfig st =
    (Returned None,
     {| trace := trace st1 ++
          [ DirEnsured dir;
            FileCreated path;
            PropertiesWritten path enc;
            Println ("Secret properties file created in " +:+ path) ];
        keysFiles := keysFiles st1; clock := clock st1 |}).
Proof.
  intros dir path Hload Hkey Hplain Henc Hk8 Hfile Hcreate Hwrite.
  rewrite (EncryptSecrets_output H _ _ st st1 keyStoreConfigMap key plain enc
             Hload Hkey Hplain Henc).
  rewrite Hk8, Hfile. mi_unfold. fold dir. fold path. run.
  fold dir. fold path. rewrite Hcreate, Hwrite. run. flatten_trace. reflexivity.
Qed.

Lemma file_output_witness :
  MiUtils.EncryptSecrets Demo2.miHost "rsa.properties"
      (Demo.dbSecret "FILE" "OAEP") Demo.emptyState =
    (Returned None,
     {| trace := [RSAEncryptOAEP SHA1 (PublicKey Demo.demoKey) "s3cr3t" None] ++
          [ DirEnsured "/work/security";
            FileCreated "/work/security/wso2mi-secrets.properties";
            PropertiesWritten "/work/security/wso2mi-secrets.properties"
                              (<["db" := "b2FlcDpzM2NyM3Q="]> ∅);
            Println ("Secret properties file created in "
                     +:+ "/work/security/wso2mi-secrets.properties") ];
        keysFiles := ∅; clock := 2 |}).
Proof.
  apply (file_output_is_the_properties_file Demo2.miHost "rsa.properties"
           (Demo.dbSecret "FILE" "OAEP") Demo.emptyState
           {| trace := [RSAEncryptOAEP SHA1 (PublicKey Demo.demoKey) "s3cr3t" None];
              keysFiles := ∅; clock := 2 |}
           (Demo.keystoreProperties "rsa.jks") (PublicKey Demo.demoKey)
           (<["db" := "s3cr3t"]> ∅) (<["db" := "b2FlcDpzM2NyM3Q="]> ∅)).
  - reflexivity.
  - vm_compute. reflexivity.
  - vm_compute. reflexivity.
  - vm_compute. reflexivity.
  - reflexivity.
  - reflexivity.
  - reflexivity.
  - reflexivity.
Defined.

(** X9.  When the properties file cannot be created, the secrets having
    been encrypted, [EncryptSecrets] does not return an error: it prints
    [Unable to create file.] with the error of [os.Create] and exits with
    status 1, the directory ensured, no file created and nothing written. *)
Theorem file_output_failure_exits (H : MiUtils.Host)
    (keyStorePropertiesFile : string) (secretConfig : SecretConfig) (st st1 : state)
    (keyStoreConfigMap : gmap string string) (key : rsa_PublicKey)
    (plain enc : gmap string string) (e : string) :
  let dir := MiUtils.filepath_Join H (MiUtils.os_Getwd H) "security" in
  let path := MiUtils.filepath_Join H dir "wso2mi-secrets.properties" in
  MiUtils.properties_MustLoadFile H keyStorePropertiesFile = Some keyStoreConfigMap ->
  (MiUtils.getEncryptionKey H keyStoreConfigMap st).1 = Returned (Some key, None) ->
  (MiUtils.getPlainTextSecrets H secretConfig st).1 = Returned plain ->
  MiUtils.encrypt H key plain (encryptWith H (selected H (Algorithm secretConfig))) st =
    (Returned (enc, None), st1) ->
  MiUtils.IsK8 H (OutputType secretConfig) = false ->
  MiUtils.IsFile H (OutputType secretConfig) = true ->
  MiUtils.os_Create H path = Some e ->
  MiUtils.EncryptSecrets H keyStorePropertiesFile secretConfig st =
    (Exited 1,
     {| trace := trace st1 ++ [DirEnsured dir; Fatal "Unable to create file." (Some e)];
        keysFiles := keysFiles st1; clock := clock st1 |}).
Proof.
  intros dir path Hload Hkey Hplain Henc Hk8 Hfile Hcreate.
  rewrite (EncryptSecrets_output H _ _ st st1 keyStoreConfigMap key plain enc
             Hload Hkey Hplain Henc).
  rewrite Hk8, Hfile. mi_unfold. fold dir. fold path. run. fold dir. fold path.
  rewrite Hcreate. run. flatten_trace. reflexivity.
Qed.

Lemma file_output_failure_witness :
  MiUtils.EncryptSecrets Demo2.miHostReadOnly "rsa.properties"
      (Demo.dbSecret "file" "OAEP") Demo.emptyState =
    (Exited 1,
     {| trace := [RSAEncryptOAEP SHA1 (PublicKey Demo.demoKey) "s3cr3t" None] ++
          [ DirEnsured "/work/security";
            Fatal "Unable to create file."
                  (Some ("open /work/security/wso2mi-secrets.properties"
                         +:+ ": read-only file system")) ];
        keysFiles := ∅; clock := 2 |}).
Proof.
  apply (file_output_failure_exits Demo2.miHostReadOnly "rsa.properties"
           (Demo.dbSecret "file" "OAEP") Demo.emptyState
           {| trace := [RSAEncryptOAEP SHA1 (PublicKey Demo.demoKey) "s3cr3t" None];
              keysFiles := ∅; clock := 2 |}
           (Demo.keystoreProperties "rsa.jks") (PublicKey Demo.demoKey)
           (<["db" := "s3cr3t"]> ∅) (<["db" := "b2FlcDpzM2NyM3Q="]> ∅)).
  - reflexivity.
  - vm_compute. reflexivity.
  - vm_compute. reflexivity.
  - vm_compute. reflexivity.
  - reflexivity.
  - reflexivity.
  - reflexivity.
Defined.





(** [encrypt] on a map with a single entry. *)
Lemma encrypt_singleton (H : MiUtils.Host) (s : scheme) (key : rsa_PublicKey)
    (alias plainText : string) (st : state) :
  MiUtils.encrypt H key (<[alias := plainText]> ∅) (encryptWith H s) st =
    (Returned (match cipher H s (S (clock st)) key plainText with
               | Ok ct => (<[alias := GoStrings.EncodeToString ct]> ∅, None)
               | Err e => (∅, Some e)
               end),
     {| trace := trace st ++ [callOf s key plainText];
        keysFiles := keysFiles st; clock := S (S (clock st)) |}).
Proof.
  unfold MiUtils.encrypt, MiUtils.range. run.
  assert (Hentries : MiUtils.rangeOrder H (clock st) (<[alias := plainText]> ∅)
                     = [(alias, plainText)]).
  { apply Permutation_singleton_r.
    by rewrite (MiUtils.rangeOrder_perm H), insert_empty, map_to_list_singleton. }
  rewrite Hentries, encrypt_loop_cons. simpl.
  by destruct (cipher H s (S (clock st)) key plainText).
Qed.

(** X10.  With an input form other than [file], [EncryptSecrets] hands
    the cipher the text of the configuration and nothing else: whatever the
    outcome and the output form, the run has exactly one call of the cipher,
    on [PlainTextSecretText] under the selected scheme. *)
Theorem single_secret_is_the_only_plaintext (H : MiUtils.Host)
    (keyStorePropertiesFile : string) (secretConfig : SecretConfig) (st : state)
    (keyStoreConfigMap : gmap string string) (key : rsa_PublicKey) :
  MiUtils.properties_MustLoadFile H keyStorePropertiesFile = Some keyStoreConfigMap ->
  (MiUtils.getEncryptionKey H keyStoreConfigMap st).1 = Returned (Some key, None) ->
  MiUtils.IsFile H (InputType secretConfig) = false ->
  List.filter isCryptoCall
      (emitted (MiUtils.EncryptSecrets H keyStorePropertiesFile secretConfig) st) =
    [callOf (selected H (Algorithm secretConfig)) key (PlainTextSecretText secretConfig)].
Proof.
  intros Hload Hkey Hinput.
  assert (Hplain : (MiUtils.getPlainTextSecrets H secretConfig st).1 =
            Returned (<[PlainTextAlias secretConfig := PlainTextSecretText secretConfig]> ∅)).
  { unfold MiUtils.getPlainTextSecrets. by rewrite Hinput. }
  assert (Hrun : exists evs,
            trace (MiUtils.EncryptSecrets H keyStorePropertiesFile secretConfig st).2 =
              trace st ++ callOf (selected H (Algorithm secretConfig)) key
                                 (PlainTextSecretText secretConfig) :: evs /\
            Forall (fun e => isCryptoCall e = false) evs).
  { rewrite (EncryptSecrets_run H _ _ st keyStoreConfigMap key _ Hload Hkey Hplain).
    unfold bind at 1. rewrite encrypt_singleton.
    destruct (cipher H _ (S (clock st)) key (PlainTextSecretText secretConfig)) as [ct | e];
      cbn [fst snd].
    - match goal with |- context [bind ?sink ?k ?st1] =>
        destruct (emits_bind (fun e => isCryptoCall e = false) sink k
                    (emits_sinks H (OutputType secretConfig) _)
                    (fun _ => emits_ret _ None) st1) as (evs & Ht & Hevs)
      end.
      exists evs. split; [| exact Hevs].
      etransitivity; [exact Ht |]. simpl. by rewrite <- app_assoc.
    - exists []. by split. }
  destruct Hrun as (evs & Ht & Hevs).
  rewrite (emitted_of_trace _ st _ Ht). simpl.
  assert (Hcall : forall s k p, isCryptoCall (callOf s k p) = true) by (by intros []).
  by rewrite Hcall, (filter_none _ _ Hevs).
Qed.

Lemma single_secret_witness :
  List.filter isCryptoCall
      (emitted (MiUtils.EncryptSecrets Demo.miHost "rsa.properties"
                  (Demo.longSecret "k8")) Demo.emptyState) =
    [callOf PKCS1v15 (PublicKey Demo.demoKey) "far too long a secret"].
Proof.
  apply (single_secret_is_the_only_plaintext Demo.miHost "rsa.properties"
           (Demo.longSecret "k8") Demo.emptyState (Demo.keystoreProperties "rsa.jks")
           (PublicKey Demo.demoKey)).
  - reflexivity.
  - vm_compute. reflexivity.
  - reflexivity.
Defined.

(* --------------------------------------------------------------------- *)
(** ** Labels *)

(** X11.  For an ASCII label at most one output form matches and at most
    one algorithm name matches: [k8], [file] and [console] exclude each
    other, and so do the two algorithm names, so that the order in which
    [EncryptSecrets] tests them does not matter. *)
Theorem labels_exclude_each_other (H : MiUtils.Host) (label : string) :
  GoStrings.isASCII label = true ->
  MiUtils.IsK8 H label && MiUtils.IsFile H label = false /\
  MiUtils.IsK8 H label && MiUtils.IsConsole H label = false /\
  MiUtils.IsFile H label && MiUtils.IsConsole H label = false /\
  MiUtils.IsPKCS1Encryption H label && MiUtils.IsOAEPEncryption H label = false.
Proof.
  intros Hascii.
  unfold MiUtils.IsK8, MiUtils.IsFile, MiUtils.IsConsole, MiUtils.IsPKCS1Encryption,
    MiUtils.IsOAEPEncryption.
  rewrite !EqualFold_ascii by done. unfold GoStrings.equalIgnoringCase.
  repeat split;
    match goal with
    | |- String.eqb ?l ?a && String.eqb ?l ?b = false =>
        destruct (String.eqb_spec l a) as [-> | _]; [vm_compute; reflexivity | reflexivity]
    end.
Qed.

Lemma labels_exclude_each_other_witness :
  MiUtils.IsK8 Demo.miHost "File" && MiUtils.IsFile Demo.miHost "File" = false /\
  MiUtils.IsK8 Demo.miHost "File" && MiUtils.IsConsole Demo.miHost "File" = false /\
  MiUtils.IsFile Demo.miHost "File" && MiUtils.IsConsole Demo.miHost "File" = false /\
  MiUtils.IsPKCS1Encryption Demo.miHost "File" && MiUtils.IsOAEPEncryption Demo.miHost "File"
    = false.
Proof. apply (labels_exclude_each_other Demo.miHost "File"). reflexivity. Defined.

(** X12.  The five label tests do not see the case of ASCII letters: two
    ASCII labels that are equal after lower-casing get the same answer from
    each of them. *)
Theorem labels_ignore_case (H : MiUtils.Host) (a b : string) :
  GoStrings.isASCII a = true ->
  GoStrings.isASCII b = true ->
  GoStrings.toLower a = GoStrings.toLower b ->
  MiUtils.IsConsole H a = MiUtils.IsConsole H b /\
  MiUtils.IsFile H a = MiUtils.IsFile H b /\
  MiUtils.IsK8 H a = MiUtils.IsK8 H b /\
  MiUtils.IsPKCS1Encryption H a = MiUtils.IsPKCS1Encryption H b /\
  MiUtils.IsOAEPEncryption H a = MiUtils.IsOAEPEncryption H b.
Proof.
  intros Ha Hb Hab.
  unfold MiUtils.IsK8, MiUtils.IsFile, MiUtils.IsConsole, MiUtils.IsPKCS1Encryption,
    MiUtils.IsOAEPEncryption.
  rewrite !EqualFold_ascii by done. unfold GoStrings.equalIgnoringCase.
  by rewrite Hab.
Qed.

Lemma labels_ignore_case_witness :
  MiUtils.IsConsole Demo.miHost "CONSOLE" = MiUtils.IsConsole Demo.miHost "Console" /\
  MiUtils.IsFile Demo.miHost "CONSOLE" = MiUtils.IsFile Demo.miHost "Console" /\
  MiUtils.IsK8 Demo.miHost "CONSOLE" = MiUtils.IsK8 Demo.miHost "Console" /\
  MiUtils.IsPKCS1Encryption Demo.miHost "CONSOLE"
    = MiUtils.IsPKCS1Encryption Demo.miHost "Console" /\
  MiUtils.IsOAEPEncryption Demo.miHost "CONSOLE"
    = MiUtils.IsOAEPEncryption Demo.miHost "Console".
Proof.
  apply (labels_ignore_case Demo.miHost "CONSOLE" "Console"); reflexivity.
Defined.

(* --------------------------------------------------------------------- *)
(** ** Strings *)

Lemma append_cons (a : ascii) (s t : string) : String a s +:+ t = String a (s +:+ t).
Proof. reflexivity. Qed.

Lemma append_nil (t : string) : "" +:+ t = t.
Proof. reflexivity. Qed.

Lemma append_nil_r (s : string) : s +:+ "" = s.
Proof. induction s as [| a s IH]; [reflexivity |]. by rewrite append_cons, IH. Qed.

Lemma append_assoc (s t u : string) : (s +:+ t) +:+ u = s +:+ (t +:+ u).
Proof. induction s as [| a s IH]; [reflexivity |]. by rewrite !append_cons, IH. Qed.

Lemma append_length (s t : string) :
  String.length (s +:+ t) = (String.length s + String.length t)%nat.
Proof.
  induction s as [| a s IH]; [reflexivity |]. rewrite append_cons. simpl. by rewrite IH.
Qed.

Lemma sextet_isBase64Byte (v : Z) : isBase64Byte (GoStrings.sextet v) = true.
Proof.
  unfold GoStrings.sextet.
  assert (Hall : forallb (fun n => isBase64Byte
                    match String.get n GoStrings.encodeStd with
                    | Some c => c
                    | None => "="%char
                    end) (seq 0 64) = true) by (vm_compute; reflexivity).
  rewrite forallb_forall in Hall. apply Hall, in_seq.
  change 63 with (Z.ones 6). rewrite Z.land_ones by lia.
  pose proof (Z.mod_pos_bound v (2 ^ 6) ltac:(lia)). lia.
Qed.

(** The shape of a base64 text, for strings of every length: proved for
    [s], [a :: s] and [a :: b :: s] together, since the encoder eats three
    bytes at a time. *)
Lemma EncodeToString_shape (s : string) :
  let shaped t :=
    everyByte isBase64Byte (GoStrings.EncodeToString t) = true /\
    String.length (GoStrings.EncodeToString t) = (4 * ((String.length t + 2) / 3))%nat in
  shaped s /\ (forall a, shaped (String a s)) /\ (forall a b, shaped (String a (String b s))).
Proof.
  intros shaped.
  assert (Hpad : isBase64Byte GoStrings.padChar = true) by reflexivity.
  induction s as [| c s (IH0 & IH1 & IH2)].
  - split; [by split |]. split.
    + intros a. split; [| reflexivity].
      cbn [GoStrings.EncodeToString everyByte].
      by rewrite !sextet_isBase64Byte, Hpad.
    + intros a b. split; [| reflexivity].
      cbn [GoStrings.EncodeToString everyByte].
      by rewrite !sextet_isBase64Byte, Hpad.
  - split; [apply IH1 |]. split; [intros a; apply IH2 |].
    intros a b. destruct IH0 as [Hbytes Hlen]. split.
    + cbn [GoStrings.EncodeToString everyByte].
      by rewrite !sextet_isBase64Byte, Hbytes.
    + cbn [GoStrings.EncodeToString String.length].
      rewrite Hlen.
      replace (S (S (S (String.length s))) + 2)%nat
        with ((String.length s + 2) + 1 * 3)%nat by lia.
      rewrite Nat.div_add by lia. lia.
Qed.

(** X13.  [GetBase64EncodedCredentials] returns a text of the base64
    alphabet and its padding only, whatever bytes the two strings hold, four
    bytes for every three bytes of [key:secret], rounded up. *)
Theorem credentials_are_base64 (key secret : string) :
  let encoded := Auth.GetBase64EncodedCredentials key secret in
  everyByte isBase64Byte encoded = true /\
  String.length encoded =
    (4 * ((String.length key + String.length secret + 3) / 3))%nat.
Proof.
  unfold Auth.GetBase64EncodedCredentials.
  destruct (EncodeToString_shape (key +:+ ":" +:+ secret)) as [[Hbytes Hlen] _].
  split; [exact Hbytes |]. rewrite Hlen, !append_length. simpl String.length.
  f_equal. f_equal. lia.
Qed.

(* --------------------------------------------------------------------- *)
(** ** Command literals *)

Lemma asciiFields_skip (pre s : string) :
  everyByte GoStrings.asciiSpace pre = true ->
  CmdLiteral.asciiFields (pre +:+ s) "" = CmdLiteral.asciiFields s "".
Proof.
  induction pre as [| c pre IH]; [reflexivity |].
  cbn [everyByte]. intros [Hc Hpre]%andb_prop.
  rewrite append_cons. cbn [CmdLiteral.asciiFields]. rewrite Hc. by apply IH.
Qed.

Lemma asciiFields_word (w : string) :
  forall field rest,
  everyByte (fun c => negb (GoStrings.asciiSpace c)) w = true ->
  rest = "" \/ (exists c r, rest = String c r /\ GoStrings.asciiSpace c = true) ->
  field +:+ w <> "" ->
  exists others, CmdLiteral.asciiFields (w +:+ rest) field = (field +:+ w) :: others.
Proof.
  induction w as [| c w IH]; intros field rest Hw Hrest Hne.
  - rewrite append_nil_r in *. rewrite append_nil.
    destruct field as [| f field]; [done |].
    destruct Hrest as [-> | (c & r & -> & Hc)]; simpl; [eauto |]. rewrite Hc. eauto.
  - simpl in Hw. apply andb_prop in Hw as [Hc Hw]. apply negb_true_iff in Hc.
    rewrite append_cons. simpl. rewrite Hc.
    destruct (IH (field +:+ String c "") rest Hw Hrest) as (others & Hrun).
    { rewrite append_assoc. exact Hne. }
    exists others. by rewrite Hrun, append_assoc.
Qed.

Lemma asciiFields_nonempty (s : string) :
  forall field,
  field <> "" \/ everyByte GoStrings.asciiSpace s = false ->
  CmdLiteral.asciiFields s field <> [].
Proof.
  induction s as [| c s IH]; intros field Hsome; simpl.
  - destruct Hsome as [Hf | [=]]. by destruct field.
  - destruct (GoStrings.asciiSpace c) eqn:Hc.
    + destruct field as [| f field]; [| done].
      apply IH. destruct Hsome as [Hf | Hs]; [done |]. right. simpl in Hs.
      by rewrite Hc in Hs.
    + apply IH. left. by destruct field.
Qed.

(** X14.  On an ASCII command line [GetTrimmedCmdLiteral] returns the
    first word: after any leading spaces, the bytes up to the next space or
    the end. *)
Theorem GetTrimmedCmdLiteral_first_word (FieldsFunc_IsSpace : string -> list string)
    (pre word rest : string) (st : state) :
  GoStrings.isASCII (pre +:+ word +:+ rest) = true ->
  everyByte GoStrings.asciiSpace pre = true ->
  word <> "" ->
  everyByte (fun c => negb (GoStrings.asciiSpace c)) word = true ->
  rest = "" \/ (exists c r, rest = String c r /\ GoStrings.asciiSpace c = true) ->
  CmdLiteral.GetTrimmedCmdLiteral FieldsFunc_IsSpace (pre +:+ word +:+ rest) st =
    (Returned word, st).
Proof.
  intros Hascii Hpre Hne Hword Hrest.
  unfold CmdLiteral.GetTrimmedCmdLiteral, CmdLiteral.Fields. rewrite Hascii.
  rewrite asciiFields_skip by done.
  destruct (asciiFields_word word "" rest Hword Hrest) as (others & Hrun); [done |].
  by rewrite Hrun.
Qed.

Lemma GetTrimmedCmdLiteral_first_word_witness :
  CmdLiteral.GetTrimmedCmdLiteral (fun _ => []) ("  " +:+ "secret" +:+ " create -o k8")
      Demo.emptyState =
    (Returned "secret", Demo.emptyState).
Proof.
  apply (GetTrimmedCmdLiteral_first_word (fun _ => []) "  " "secret" " create -o k8"
           Demo.emptyState).
  - reflexivity.
  - reflexivity.
  - discriminate.
  - reflexivity.
  - right. exists " "%char, "create -o k8". split; reflexivity.
Defined.

(** X15.  On an ASCII command line [GetTrimmedCmdLiteral] panics exactly
    when the line is empty or all spaces: it indexes the first of no
    fields. *)
Theorem GetTrimmedCmdLiteral_panics_iff_blank (FieldsFunc_IsSpace : string -> list string)
    (cmd : string) (st : state) :
  GoStrings.isASCII cmd = true ->
  ((exists msg, CmdLiteral.GetTrimmedCmdLiteral FieldsFunc_IsSpace cmd st
                = (Panicked msg, st)) <->
   everyByte GoStrings.asciiSpace cmd = true).
Proof.
  intros Hascii. unfold CmdLiteral.GetTrimmedCmdLiteral, CmdLiteral.Fields.
  rewrite Hascii. split.
  - intros [msg Hrun].
    destruct (everyByte GoStrings.asciiSpace cmd) eqn:Hblank; [reflexivity |].
    pose proof (asciiFields_nonempty cmd "" (or_intror Hblank)) as Hne.
    destruct (CmdLiteral.asciiFields cmd "") as [| part parts]; [done |].
    discriminate Hrun.
  - intros Hblank. pose proof (asciiFields_skip cmd "" Hblank) as Hskip.
    rewrite append_nil_r in Hskip. rewrite Hskip. simpl. unfold panic. eauto.
Qed.

Lemma GetTrimmedCmdLiteral_panics_witness :
  (exists msg, CmdLiteral.GetTrimmedCmdLiteral (fun _ => []) "   " Demo.emptyState
               = (Panicked msg, Demo.emptyState)) <->
  everyByte GoStrings.asciiSpace "   " = true.
Proof.
  apply (GetTrimmedCmdLiteral_panics_iff_blank (fun _ => []) "   " Demo.emptyState).
  reflexivity.
Defined.

(* ===================================================================== *)
(** * Further properties of the credential resolver *)
(* ===================================================================== *)

(** X16.  For an environment that the main configuration file does not
    have, both resolvers return empty strings and an error, and do nothing
    else: no log line, no prompt, no request.  The error asks for an
    environment when the name is empty and names the environment and the
    configuration file otherwise. *)
Theorem unknown_environment_is_an_error (H : Auth.Host)
    (environment flagUsername flagPassword mainConfigFilePath envKeysAllFilePath : string)
    (st : state) :
  Auth.EnvExistsInMainConfigFile H environment (Auth.MainConfigFilePath H) = false ->
  exists msg,
    Auth.ExecutePreCommandWithBasicAuth H environment flagUsername flagPassword
        mainConfigFilePath envKeysAllFilePath st = (Returned ("", "", Some msg), st) /\
    Auth.ExecutePreCommandWithOAuth H environment flagUsername flagPassword
        mainConfigFilePath envKeysAllFilePath st = (Returned ("", "", Some msg), st) /\
    (environment = "" ->
     msg = "no environment specified. Either specify it using the -e flag or name one of "
           +:+ "the environments in '" +:+ Auth.MainConfigFileName H +:+ "' to 'default'") /\
    (environment <> "" ->
     msg = "Details incorrect/unavailable for environment '" +:+ environment
           +:+ "' in " +:+ mainConfigFilePath).
Proof.
  intros Hunknown. exists (default "" (Auth.unknownEnvironment H environment mainConfigFilePath)).
  unfold Auth.ExecutePreCommandWithBasicAuth, Auth.ExecutePreCommandWithOAuth.
  rewrite Hunknown. unfold Auth.unknownEnvironment, errors_New.
  destruct (Auth.isEmpty environment) eqn:Hempty; simpl.
  - repeat split; try reflexivity. intros Hne. by rewrite (isEmpty_false _ Hne) in Hempty.
  - repeat split; try reflexivity. intros ->. discriminate Hempty.
Qed.

Lemma unknown_environment_witness :
  exists msg,
    Auth.ExecutePreCommandWithBasicAuth Demo.authHost "production" "admin" "pw"
        "my_config.yaml" "env_keys_all.yaml" Demo.cachedState
      = (Returned ("", "", Some msg), Demo.cachedState) /\
    Auth.ExecutePreCommandWithOAuth Demo.authHost "production" "admin" "pw"
        "my_config.yaml" "env_keys_all.yaml" Demo.cachedState
      = (Returned ("", "", Some msg), Demo.cachedState) /\
    ("production" = "" ->
     msg = "no environment specified. Either specify it using the -e flag or name one of "
           +:+ "the environments in '" +:+ "main_config.yaml" +:+ "' to 'default'") /\
    ("production" <> "" ->
     msg = "Details incorrect/unavailable for environment '" +:+ "production"
           +:+ "' in " +:+ "my_config.yaml").
Proof.
  apply (unknown_environment_is_an_error Demo.authHost "production" "admin" "pw"
           "my_config.yaml" "env_keys_all.yaml" Demo.cachedState).
  reflexivity.
Defined.

(** X17.  [ExecutePreCommandWithBasicAuth] stays local on every input: it
    sends no request, writes nothing to the credential file and leaves its
    contents as they were, whether it returns or exits. *)
Theorem basic_auth_stays_local (H : Auth.Host)
    (environment flagUsername flagPassword mainConfigFilePath envKeysAllFilePath : string)
    (st : state) :
  let basic := Auth.ExecutePreCommandWithBasicAuth H environment flagUsername
                 flagPassword mainConfigFilePath envKeysAllFilePath in
  Forall (fun e => isNetworkCall e = false /\ isKeysFileWrite e = false) (emitted basic st) /\
  keysFiles (basic st).2 = keysFiles st.
Proof.
  intros basic.
  assert (Hrun : exists o evs c,
    basic st = (o, {| trace := trace st ++ evs; keysFiles := keysFiles st; clock := c |}) /\
    Forall (fun e => isNetworkCall e = false /\ isKeysFileWrite e = false) evs).
  { unfold basic.
    destruct (Auth.keysOfEnv st environment envKeysAllFilePath) as [cached |] eqn:Hc;
      auth_unfold; simpl in Hc;
      (destruct (Auth.EnvExistsInMainConfigFile H environment (Auth.MainConfigFilePath H));
       [| exists (Returned ("", "", Auth.unknownEnvironment H environment mainConfigFilePath)),
            [], (clock st); rewrite state_eta; by split ]);
      destruct (Auth.isEmpty flagUsername) eqn:Hu;
      destruct (Auth.isEmpty flagPassword) eqn:Hp;
      try destruct (String.eqb flagUsername (Username cached)) eqn:He;
      run; repeat (progress (rewrite ?Hc, ?Hu, ?Hp, ?He; simpl));
      flatten_trace; eexists _, _, _; (split; [reflexivity |]);
      repeat constructor. }
  destruct Hrun as (o & evs & c & Hrun & Hevs).
  rewrite (emitted_of_trace basic st evs) by (by rewrite Hrun).
  by rewrite Hrun.
Qed.

(** X18.  With both flags given, and a user name that does not contradict
    a cached record, [ExecutePreCommandWithBasicAuth] returns the base64
    text of [flagUsername:flagPassword], the API manager endpoint and a nil
    error, without reading the terminal, on the first use of an environment
    as well as on later uses. *)
Theorem basic_auth_uses_the_flags (H : Auth.Host)
    (environment flagUsername flagPassword mainConfigFilePath envKeysAllFilePath : string)
    (st : state) :
  Auth.EnvExistsInMainConfigFile H environment (Auth.MainConfigFilePath H) = true ->
  flagUsername <> "" ->
  flagPassword <> "" ->
  (forall cached, Auth.keysOfEnv st environment envKeysAllFilePath = Some cached ->
                  Username cached = flagUsername) ->
  let basic := Auth.ExecutePreCommandWithBasicAuth H environment flagUsername
                 flagPassword mainConfigFilePath envKeysAllFilePath in
  (basic st).1 =
    Returned (Auth.GetBase64EncodedCredentials flagUsername flagPassword,
              Auth.GetAPIMEndpointOfEnv H environment mainConfigFilePath, None) /\
  List.filter isPrompt (emitted basic st) = [] /\
  clock (basic st).2 = clock st.
Proof.
  intros Hknown Hu%isEmpty_false Hp%isEmpty_false Hcached basic.
  assert (Hrun : exists evs,
    basic st =
      (Returned (Auth.GetBase64EncodedCredentials flagUsername flagPassword,
                 Auth.GetAPIMEndpointOfEnv H environment mainConfigFilePath, None),
       {| trace := trace st ++ evs; keysFiles := keysFiles st; clock := clock st |}) /\
    List.filter isPrompt evs = []).
  { unfold basic.
    destruct (Auth.keysOfEnv st environment envKeysAllFilePath) as [cached |] eqn:Hc.
    - specialize (Hcached cached eq_refl).
      auth_unfold. rewrite Hknown. simpl in Hc.
      run. repeat (progress (rewrite ?Hc, ?Hu, ?Hp, ?Hcached, ?String.eqb_refl; simpl)).
      flatten_trace. eexists. split; reflexivity.
    - clear Hcached. auth_unfold. rewrite Hknown. simpl in Hc.
      run. repeat (progress (rewrite ?Hc, ?Hu, ?Hp; simpl)).
      flatten_trace. eexists. split; reflexivity. }
  destruct Hrun as (evs & Hrun & Hevs).
  rewrite (emitted_of_trace basic st evs) by (by rewrite Hrun).
  by rewrite Hrun.
Qed.

Lemma basic_auth_uses_the_flags_witness :
  let basic := Auth.ExecutePreCommandWithBasicAuth Demo.authHost "dev" "admin" "pw"
                 "main_config.yaml" "env_keys_all.yaml" in
  (basic Demo.cachedState).1 = Returned ("YWRtaW46cHc=", "https://dev/api", None) /\
  List.filter isPrompt (emitted basic Demo.cachedState) = [] /\
  clock (basic Demo.cachedState).2 = clock Demo.cachedState.
Proof.
  apply (basic_auth_uses_the_flags Demo.authHost "dev" "admin" "pw"
           "main_config.yaml" "env_keys_all.yaml" Demo.cachedState).
  - reflexivity.
  - discriminate.
  - discriminate.
  - intros cached. vm_compute. by intros [= <-].
Defined.

(** X19.  On the first use of an environment without a user name flag,
    the password flag is not looked at: each of the two resolvers asks for
    the user name and then for the password at the terminal, whatever the
    servers answer, and its run is the same whatever password was given
    with the flag.  Basic authentication returns the credentials typed. *)
Theorem first_use_ignores_the_password_flag (H : Auth.Host)
    (environment mainConfigFilePath envKeysAllFilePath : string)
    (flagPassword otherPassword : string) (st : state) :
  Auth.EnvExistsInMainConfigFile H environment (Auth.MainConfigFilePath H) = true ->
  Auth.keysOfEnv st environment envKeysAllFilePath = None ->
  let basic p := Auth.ExecutePreCommandWithBasicAuth H environment "" p
                   mainConfigFilePath envKeysAllFilePath in
  let oauth p := Auth.ExecutePreCommandWithOAuth H environment "" p
                   mainConfigFilePath envKeysAllFilePath in
  basic flagPassword st = basic otherPassword st /\
  oauth flagPassword st = oauth otherPassword st /\
  List.filter isPrompt (emitted (basic flagPassword) st) = [PromptedUsername; PromptedPassword] /\
  List.filter isPrompt (emitted (oauth flagPassword) st) = [PromptedUsername; PromptedPassword] /\
  (basic flagPassword st).1 =
    Returned (Auth.GetBase64EncodedCredentials
                (GoStrings.TrimSpace (Auth.unicode H) (Auth.typedUsername H (clock st)))
                (Auth.typedPassword H (S (clock st))),
              Auth.GetAPIMEndpointOfEnv H environment mainConfigFilePath, None).
Proof.
  intros Hknown Hfresh basic oauth.
  assert (Hbasic : forall p, exists evs,
    basic p st =
      (Returned (Auth.GetBase64EncodedCredentials
                   (GoStrings.TrimSpace (Auth.unicode H) (Auth.typedUsername H (clock st)))
                   (Auth.typedPassword H (S (clock st))),
                 Auth.GetAPIMEndpointOfEnv H environment mainConfigFilePath, None),
       {| trace := trace st ++ evs; keysFiles := keysFiles st; clock := S (S (clock st)) |}) /\
    List.filter isPrompt evs = [PromptedUsername; PromptedPassword] /\
    basic p st = basic otherPassword st).
  { intros p. unfold basic. auth_unfold. rewrite Hknown. simpl in Hfresh.
    run. repeat (progress (rewrite ?Hfresh; simpl)).
    flatten_trace. eexists. repeat split; reflexivity. }
  assert (Hoauth : exists o evs c files,
    oauth flagPassword st =
      (o, {| trace := trace st ++ evs; keysFiles := files; clock := c |}) /\
    List.filter isPrompt evs = [PromptedUsername; PromptedPassword]).
  { unfold oauth. auth_unfold. rewrite Hknown. simpl in Hfresh.
    run. repeat (progress (rewrite ?Hfresh; simpl)).
    repeat (match goal with
            | |- context [Auth.transport H ?n ?u ?h ?b] =>
                destruct (Auth.transport H n u h b) as [? | ?] eqn:?; simpl
            | |- context [Auth.json_Unmarshal_RegistrationResponse H ?b] =>
                destruct (Auth.json_Unmarshal_RegistrationResponse H b) as [? [? |]] eqn:?;
                simpl
            | |- context [if ?c then _ else _] => destruct c eqn:?; simpl
            end);
      flatten_trace; eexists _, _, _, _; split; reflexivity. }
  destruct (Hbasic flagPassword) as (evs & Hrun & Hevs & Hsame).
  destruct Hoauth as (o & evs' & c & files & Hrun' & Hevs').
  split; [exact Hsame |]. split; [| split; [| split]].
  - unfold oauth. auth_unfold. rewrite Hknown. simpl in Hfresh.
    run. by repeat (progress (rewrite ?Hfresh; simpl)).
  - by rewrite (emitted_of_trace (basic flagPassword) st evs) by (by rewrite Hrun).
  - by rewrite (emitted_of_trace (oauth flagPassword) st evs') by (by rewrite Hrun').
  - by rewrite Hrun.
Qed.

Lemma first_use_ignores_the_password_flag_witness :
  let basic p := Auth.ExecutePreCommandWithBasicAuth Demo2.authHost "dev" "" p
                   "main_config.yaml" "env_keys_all.yaml" in
  let oauth p := Auth.ExecutePreCommandWithOAuth Demo2.authHost "dev" "" p
                   "main_config.yaml" "env_keys_all.yaml" in
  basic "from-the-flag" Demo.emptyState = basic "" Demo.emptyState /\
  oauth "from-the-flag" Demo.emptyState = oauth "" Demo.emptyState /\
  List.filter isPrompt (emitted (basic "from-the-flag") Demo.emptyState)
    = [PromptedUsername; PromptedPassword] /\
  List.filter isPrompt (emitted (oauth "from-the-flag") Demo.emptyState)
    = [PromptedUsername; PromptedPassword] /\
  (basic "from-the-flag" Demo.emptyState).1 =
    Returned (Auth.GetBase64EncodedCredentials "admin" "typed-password",
              "https://dev/api", None).
Proof.
  apply (first_use_ignores_the_password_flag Demo2.authHost "dev"
           "main_config.yaml" "env_keys_all.yaml" "from-the-flag" "" Demo.emptyState).
  - reflexivity.
  - reflexivity.
Defined.

(** X20.  [GetOAuthTokens] sends exactly one request, the password grant
    to the given URL, and never returns an error.  What it does is decided
    by the answer to that request: on status 200 it returns the decoded
    body with a nil error; on any other status it prints
    [Unable to connect.] with the status and exits with status 1; on a
    transport error it prints [Unable to Connect.] with that error and
    exits with status 1. *)
Theorem GetOAuthTokens_returns_no_error (H : Auth.Host)
    (username password b64EncodedClientIDClientSecret url : string) (st : state) :
  let run := Auth.GetOAuthTokens H username password b64EncodedClientIDClientSecret url in
  let request := tokenRequest H username password b64EncodedClientIDClientSecret url in
  List.filter isNetworkCall (emitted run st) = [request] /\
  keysFiles (run st).2 = keysFiles st /\
  (forall responseDataMap err,
     (run st).1 = Returned (responseDataMap, err) -> err = None) /\
  match Auth.transport H (clock st) url (tokenHeaders H b64EncodedClientIDClientSecret)
          (tokenBody H username password) with
  | Ok resp =>
      if StatusCode resp =? Auth.StatusOK
      then (run st).1 = Returned (Auth.json_Unmarshal_map H (Body resp), None)
      else (run st).1 = Exited 1 /\
           last (emitted run st) =
             Some (Fatal "Unable to connect." (Some ("Status: " +:+ Status resp)))
  | Err e =>
      (run st).1 = Exited 1 /\
      last (emitted run st) = Some (Fatal "Unable to Connect." (Some e))
  end.
Proof.
  intros run request.
  assert (Hrun : exists o evs,
    run st = (o, {| trace := trace st ++ evs; keysFiles := keysFiles st;
                    clock := S (clock st) |}) /\
    List.filter isNetworkCall evs = [request] /\
    (forall responseDataMap err, o = Returned (responseDataMap, err) -> err = None) /\
    match Auth.transport H (clock st) url (tokenHeaders H b64EncodedClientIDClientSecret)
            (tokenBody H username password) with
    | Ok resp =>
        if StatusCode resp =? Auth.StatusOK
        then o = Returned (Auth.json_Unmarshal_map H (Body resp), None)
        else o = Exited 1 /\
             last evs = Some (Fatal "Unable to connect." (Some ("Status: " +:+ Status resp)))
    | Err e =>
        o = Exited 1 /\ last evs = Some (Fatal "Unable to Connect." (Some e))
    end).
  { unfold run, request, tokenRequest, tokenHeaders, tokenBody. auth_unfold. run.
    match goal with |- context [Auth.transport H (clock st) url ?h ?b] =>
      destruct (Auth.transport H (clock st) url h b) as [resp | e] eqn:Hresp
    end; simpl.
    - destruct (StatusCode resp =? Auth.StatusOK) eqn:Hok; simpl; flatten_trace;
        eexists _, _; (split; [reflexivity |]); (split; [reflexivity |]).
      + split; [by intros ? ? [= _ <-] | reflexivity].
      + split; [intros ? ? [=] | by split].
    - flatten_trace. eexists _, _. split; [reflexivity |]. split; [reflexivity |].
      split; [intros ? ? [=] | by split]. }
  destruct Hrun as (o & evs & Hrun & Hnet & Hnil & Hout).
  rewrite (emitted_of_trace run st evs) by (by rewrite Hrun).
  rewrite Hrun. simpl. by repeat split.
Qed.

(** The three answers, on a server that answers 200 at [https://token],
    401 at [https://locked/register] and nothing elsewhere. *)
Example GetOAuthTokens_on_three_answers :
  let run url := Auth.GetOAuthTokens Demo.authHost "admin" "pw" "Y2xpZW50OnNlY3JldA==" url in
  (run "https://token" Demo.emptyState).1 =
    Returned (<["access_token" := "token-1"]> ∅, None) /\
  (run "https://locked/register" Demo.emptyState).1 = Exited 1 /\
  last (emitted (run "https://locked/register") Demo.emptyState) =
    Some (Fatal "Unable to connect." (Some "Status: 401 Unauthorized")) /\
  (run "https://elsewhere" Demo.emptyState).1 = Exited 1 /\
  last (emitted (run "https://elsewhere") Demo.emptyState) =
    Some (Fatal "Unable to Connect." (Some "no route to host")).
Proof. vm_compute. repeat split; reflexivity. Qed.

(** X21.  For an environment with a cached record and no contradicting
    user name flag, [ExecutePreCommandWithOAuth] does not register: its only
    request is the token request, for the cached user name and the password
    supplied now, with the cached client identifier and the cached client
    secret decrypted under the hash of that password, without any local
    check of the result; the credential file is not written. *)
Theorem cached_environment_skips_registration (H : Auth.Host)
    (environment flagUsername flagPassword mainConfigFilePath envKeysAllFilePath : string)
    (st : state) (cached : EnvKeys) :
  Auth.EnvExistsInMainConfigFile H environment (Auth.MainConfigFilePath H) = true ->
  Auth.keysOfEnv st environment envKeysAllFilePath = Some cached ->
  flagUsername = "" \/ flagUsername = Username cached ->
  let oauth := Auth.ExecutePreCommandWithOAuth H environment flagUsername
                 flagPassword mainConfigFilePath envKeysAllFilePath in
  let password :=
    if Auth.isEmpty flagPassword then Auth.typedPassword H (clock st) else flagPassword in
  let clientSecret :=
    Auth.Decrypt H (Auth.GetMD5Hash H password) (ClientSecret cached) in
  List.filter (fun e => isNetworkCall e || isKeysFileWrite e) (emitted oauth st) =
    [ tokenRequest H (Username cached) password
        (Auth.GetBase64EncodedCredentials (ClientID cached) clientSecret)
        (Auth.GetTokenEndpointOfEnv H environment mainConfigFilePath) ] /\
  keysFiles (oauth st).2 = keysFiles st.
Proof.
  intros Hknown Hcached Hflag oauth password clientSecret.
  assert (Hrun : exists o evs c,
    oauth st = (o, {| trace := trace st ++ evs; keysFiles := keysFiles st; clock := c |}) /\
    List.filter (fun e => isNetworkCall e || isKeysFileWrite e) evs =
      [ tokenRequest H (Username cached) password
          (Auth.GetBase64EncodedCredentials (ClientID cached) clientSecret)
          (Auth.GetTokenEndpointOfEnv H environment mainConfigFilePath) ]).
  { unfold oauth, clientSecret, password, tokenRequest, tokenHeaders, tokenBody.
    auth_unfold. rewrite Hknown. simpl in Hcached.
    assert (Hbranch : Auth.isEmpty flagUsername = true \/
                      (Auth.isEmpty flagUsername = false /\
                       String.eqb flagUsername (Username cached) = true)).
    { destruct Hflag as [-> | ->]; [by left |].
      destruct (Auth.isEmpty (Username cached)); [by left | right].
      by rewrite String.eqb_refl. }
    destruct Hbranch as [Hu | [Hu He]];
      destruct (Auth.isEmpty flagPassword) eqn:Hp;
      run; repeat (progress (rewrite ?Hcached, ?Hu, ?Hp, ?He; simpl));
      (match goal with |- context [Auth.transport H ?n ?u ?h ?b] =>
         destruct (Auth.transport H n u h b) as [resp | e] eqn:Hresp
       end;
       [ destruct (negb (StatusCode resp =? Auth.StatusOK)) eqn:Hok | ]);
      simpl; flatten_trace; eexists _, _, _; split; reflexivity. }
  destruct Hrun as (o & evs & c & Hrun & Hevs).
  rewrite (emitted_of_trace oauth st evs) by (by rewrite Hrun).
  by rewrite Hrun.
Qed.

Lemma cached_environment_witness :
  let oauth := Auth.ExecutePreCommandWithOAuth Demo.authHost "dev" "" "pw"
                 "main_config.yaml" "env_keys_all.yaml" in
  List.filter (fun e => isNetworkCall e || isKeysFileWrite e) (emitted oauth Demo.cachedState) =
    [ tokenRequest Demo.authHost "admin" "pw"
        (Auth.GetBase64EncodedCredentials "client-0" "dec[md5(pw)](sealed)")
        "https://token" ] /\
  keysFiles (oauth Demo.cachedState).2 = keysFiles Demo.cachedState.
Proof.
  apply (cached_environment_skips_registration Demo.authHost "dev" "" "pw"
           "main_config.yaml" "env_keys_all.yaml" Demo.cachedState
           {| ClientID := "client-0"; ClientSecret := "sealed"; Username := "admin" |}).
  - reflexivity.
  - vm_compute. reflexivity.
  - left. reflexivity.
Defined.

(** X22.  Two runs in a row.  The first use of an environment registers,
    stores the record and asks for a token; when [Decrypt] under the hash of
    the password undoes [Encrypt] on the registered client secret, a second
    run with the same flags finds the record, does not register again, sends
    the same token request and returns the same result, and leaves the
    credential file as the first run wrote it. *)
Theorem second_run_reuses_the_registration (H : Auth.Host)
    (environment flagUsername flagPassword mainConfigFilePath envKeysAllFilePath : string)
    (st : state) (registration token : Response) :
  let registrationEndpoint :=
    Auth.GetRegistrationEndpointOfEnv H environment (Auth.MainConfigFilePath H) in
  let tokenEndpoint := Auth.GetTokenEndpointOfEnv H environment mainConfigFilePath in
  let registered := (Auth.json_Unmarshal_RegistrationResponse H (Body registration)).1 in
  Auth.EnvExistsInMainConfigFile H environment (Auth.MainConfigFilePath H) = true ->
  Auth.keysOfEnv st environment envKeysAllFilePath = None ->
  flagUsername <> "" ->
  flagPassword <> "" ->
  (forall n headers body,
     Auth.transport H n registrationEndpoint headers body = Ok registration) ->
  StatusCode registration = Auth.StatusOK \/ StatusCode registration = Auth.StatusCreated ->
  (forall n headers body, Auth.transport H n tokenEndpoint headers body = Ok token) ->
  StatusCode token = Auth.StatusOK ->
  Auth.Decrypt H (Auth.GetMD5Hash H flagPassword)
    (Auth.Encrypt H (Auth.GetMD5Hash H flagPassword) (reg_ClientSecret registered))
    = reg_ClientSecret registered ->
  let oauth := Auth.ExecutePreCommandWithOAuth H environment flagUsername
                 flagPassword mainConfigFilePath envKeysAllFilePath in
  let request :=
    tokenRequest H flagUsername flagPassword
      (Auth.GetBase64EncodedCredentials (reg_ClientID registered)
                                        (reg_ClientSecret registered))
      tokenEndpoint in
  let afterFirst := (oauth st).2 in
  (exists registrationHeaders,
     List.filter isNetworkCall (emitted oauth st) =
       [ POST registrationEndpoint registrationHeaders
              (Auth.dedent_Dedent H Auth.registrationBodyLiteral);
         request ]) /\
  (oauth st).1 =
    Returned (default "" (Auth.json_Unmarshal_map H (Body token) !! "access_token"),
              Auth.GetAPIMEndpointOfEnv H environment mainConfigFilePath, None) /\
  List.filter isNetworkCall (emitted oauth afterFirst) = [request] /\
  (oauth afterFirst).1 = (oauth st).1 /\
  keysFiles (oauth afterFirst).2 = keysFiles afterFirst.
Proof.
  intros registrationEndpoint tokenEndpoint registered
         Hknown Hfresh Hu%isEmpty_false Hp%isEmpty_false Hreg Hstatus Htok Htok200 Hround
         oauth request afterFirst.
  assert (Hok : (StatusCode registration =? Auth.StatusOK)
                || (StatusCode registration =? Auth.StatusCreated) = true).
  { destruct Hstatus as [-> | ->]; reflexivity. }
  apply Z.eqb_eq in Htok200.
  pose (record := {| ClientID := reg_ClientID registered;
                     ClientSecret := Auth.Encrypt H (Auth.GetMD5Hash H flagPassword)
                                                  (reg_ClientSecret registered);
                     Username := flagUsername |}).
  pose (result := Returned (default "" (Auth.json_Unmarshal_map H (Body token) !! "access_token"),
                            Auth.GetAPIMEndpointOfEnv H environment mainConfigFilePath,
                            (None : error))).
  assert (Hfirst : exists evs registrationHeaders,
    oauth st =
      (result,
       {| trace := trace st ++ evs;
          keysFiles := <[envKeysAllFilePath :=
                           <[environment := record]>
                             (default ∅ (keysFiles st !! envKeysAllFilePath))]> (keysFiles st);
          clock := S (S (clock st)) |}) /\
    List.filter isNetworkCall evs =
      [ POST registrationEndpoint registrationHeaders
             (Auth.dedent_Dedent H Auth.registrationBodyLiteral);
        request ]).
  { unfold oauth, result, record, request, registered, tokenRequest, tokenHeaders, tokenBody,
      registrationEndpoint, tokenEndpoint in *.
    auth_unfold. rewrite Hknown. simpl in Hfresh.
    destruct (Auth.json_Unmarshal_RegistrationResponse H (Body registration))
      as [rr err] eqn:Hjson.
    run. repeat (progress (rewrite ?Hfresh, ?Hu, ?Hp, ?Hreg, ?Hok, ?Hjson; simpl)).
    destruct err as [e |]; simpl;
      repeat (progress (rewrite ?Htok, ?Htok200; simpl));
      flatten_trace; eexists _, _; split; reflexivity. }
  destruct Hfirst as (evs & registrationHeaders & Hfirst & Hevs).
  assert (Hafter : afterFirst =
            {| trace := trace st ++ evs;
               keysFiles := <[envKeysAllFilePath :=
                                <[environment := record]>
                                  (default ∅ (keysFiles st !! envKeysAllFilePath))]>
                              (keysFiles st);
               clock := S (S (clock st)) |}).
  { unfold afterFirst. by rewrite Hfirst. }
  assert (Hcached : Auth.keysOfEnv afterFirst environment envKeysAllFilePath = Some record).
  { rewrite Hafter. unfold Auth.keysOfEnv. simpl. rewrite lookup_insert_eq. simpl.
    apply lookup_insert_eq. }
  assert (Hsecond : exists evs',
    oauth afterFirst =
      (result,
       {| trace := trace afterFirst ++ evs'; keysFiles := keysFiles afterFirst;
          clock := S (clock afterFirst) |}) /\
    List.filter isNetworkCall evs' = [request]).
  { clearbody afterFirst. clear Hafter Hfirst Hfresh.
    unfold oauth, result, record, request, registered, tokenRequest, tokenHeaders, tokenBody,
      registrationEndpoint, tokenEndpoint in *.
    auth_unfold. rewrite Hknown. simpl in Hcached.
    run. repeat (progress (rewrite ?Hcached, ?Hu, ?Hp, ?String.eqb_refl, ?Hround,
                                   ?Htok, ?Htok200; simpl)).
    flatten_trace. eexists. split; reflexivity. }
  destruct Hsecond as (evs' & Hsecond & Hevs').
  rewrite (emitted_of_trace oauth st evs) by (by rewrite Hfirst).
  rewrite (emitted_of_trace oauth afterFirst evs') by (by rewrite Hsecond).
  rewrite Hfirst, Hsecond. simpl. repeat split; eauto.
Qed.

Lemma second_run_witness :
  let oauth := Auth.ExecutePreCommandWithOAuth Demo2.authHost "dev" "admin" "pw"
                 "main_config.yaml" "env_keys_all.yaml" in
  let request :=
    tokenRequest Demo2.authHost "admin" "pw"
      (Auth.GetBase64EncodedCredentials "client-1" "secret-1") "https://token" in
  let afterFirst := (oauth Demo.emptyState).2 in
  (exists registrationHeaders,
     List.filter isNetworkCall (emitted oauth Demo.emptyState) =
       [ POST "https://dev/register" registrationHeaders Auth.registrationBodyLiteral;
         request ]) /\
  (oauth Demo.emptyState).1 = Returned ("token-1", "https://dev/api", None) /\
  List.filter isNetworkCall (emitted oauth afterFirst) = [request] /\
  (oauth afterFirst).1 = (oauth Demo.emptyState).1 /\
  keysFiles (oauth afterFirst).2 = keysFiles afterFirst.
Proof.
  apply (second_run_reuses_the_registration Demo2.authHost "dev" "admin" "pw"
           "main_config.yaml" "env_keys_all.yaml" Demo.emptyState
           (Demo.answer 200 "200 OK" "registered") (Demo.answer 200 "200 OK" "token")).
  - reflexivity.
  - reflexivity.
  - discriminate.
  - discriminate.
  - reflexivity.
  - left. reflexivity.
  - reflexivity.
  - reflexivity.
  - vm_compute. reflexivity.
Defined.

(** X23.  [GetClientIDSecret] sends exactly one request, the registration
    with the basic credentials of the user, and writes nothing.  When it
    returns a client identifier or a client secret that is not empty, the
    answer had status 200 or 201. *)
Theorem GetClientIDSecret_credentials_need_success (H : Auth.Host)
    (username password url : string) (st : state) :
  let run := Auth.GetClientIDSecret H username password url in
  let headers : gmap string string :=
    <[Auth.HeaderAuthorization H :=
        Auth.HeaderValueAuthBasicPrefix H +:+ " "
        +:+ Auth.GetBase64EncodedCredentials username password]>
      (<[Auth.HeaderContentType H := Auth.HeaderValueApplicationJSON H]> ∅) in
  let body := Auth.dedent_Dedent H Auth.registrationBodyLiteral in
  List.filter isNetworkCall (emitted run st) = [POST url headers body] /\
  keysFiles (run st).2 = keysFiles st /\
  (forall clientID clientSecret err,
     (run st).1 = Returned (clientID, clientSecret, err) ->
     clientID <> "" \/ clientSecret <> "" ->
     exists resp,
       Auth.transport H (clock st) url headers body = Ok resp /\
       (StatusCode resp = Auth.StatusOK \/ StatusCode resp = Auth.StatusCreated)).
Proof.
  intros run headers body.
  assert (Hrun : exists o evs,
    run st = (o, {| trace := trace st ++ evs; keysFiles := keysFiles st;
                    clock := S (clock st) |}) /\
    List.filter isNetworkCall evs = [POST url headers body] /\
    (forall clientID clientSecret err,
       o = Returned (clientID, clientSecret, err) ->
       clientID <> "" \/ clientSecret <> "" ->
       exists resp,
         Auth.transport H (clock st) url headers body = Ok resp /\
         (StatusCode resp = Auth.StatusOK \/ StatusCode resp = Auth.StatusCreated))).
  { unfold run, headers, body. auth_unfold. run.
    match goal with |- context [Auth.transport H (clock st) url ?h ?b] =>
      destruct (Auth.transport H (clock st) url h b) as [resp | e] eqn:Hresp
    end; simpl.
    - destruct ((StatusCode resp =? Auth.StatusOK) || (StatusCode resp =? Auth.StatusCreated))
        eqn:Hok; simpl.
      + destruct (Auth.json_Unmarshal_RegistrationResponse H (Body resp)) as [rr err].
        run. flatten_trace. eexists _, _. split; [reflexivity |]. split; [reflexivity |].
        intros _ _ _ _ _. exists resp. split; [reflexivity |].
        apply orb_true_iff in Hok as [Hok | Hok]; apply Z.eqb_eq in Hok; auto.
      + destruct (StatusCode resp =? Auth.StatusUnauthorized) eqn:H401; simpl;
          flatten_trace; eexists _, _; (split; [reflexivity |]); (split; [reflexivity |]).
        * intros ? ? ? [=].
        * intros ? ? ? [= <- <- <-] [? | ?]; done.
    - flatten_trace. eexists _, _. split; [reflexivity |]. split; [reflexivity |].
      intros ? ? ? [=]. }
  destruct Hrun as (o & evs & Hrun & Hevs & Hcreds).
  rewrite (emitted_of_trace run st evs) by (by rewrite Hrun).
  rewrite Hrun. simpl. by repeat split.
Qed.


(** X24.  When [encrypt] returns an error, the map it returns is empty:
    the secrets encrypted before are dropped.  The secret that the cipher
    refused is the last one handed to it; the entries that come later in the
    order of the iteration are never encrypted. *)
Theorem encrypt_stops_at_the_first_refusal (H : MiUtils.Host) (s : scheme)
    (key : rsa_PublicKey) (plain m : gmap string string) (st st1 : state) (e : string) :
  MiUtils.encrypt H key plain (encryptWith H s) st = (Returned (m, Some e), st1) ->
  m = ∅ /\
  exists done refused later,
    done ++ refused :: later ≡ₚ map_to_list plain /\
    cipher H s (S (clock st + length done)) key refused.2 = Err e /\
    emitted (MiUtils.encrypt H key plain (encryptWith H s)) st
      = (callFor s key <$> done) ++ [callFor s key refused].
Proof.
  intros Hrun. pose proof Hrun as Hloop.
  unfold MiUtils.encrypt, MiUtils.range in Hloop.
  unfold bind, tick, ret in Hloop. simpl in Hloop.
  apply encrypt_loop_failure in Hloop as (-> & done & refused & later & Hentries & He & Hst1).
  split; [reflexivity |]. exists done, refused, later. simpl in He, Hst1.
  split; [by rewrite <- Hentries, (MiUtils.rangeOrder_perm H) |]. split; [exact He |].
  rewrite (emitted_of_trace _ st (callFor s key <$> (done ++ [refused])))
    by (by rewrite Hrun, Hst1).
  by rewrite fmap_app.
Qed.

Lemma encrypt_stops_witness :
  let key := PublicKey Demo.demoKey in
  let run := MiUtils.encrypt Demo.miHost key Demo2.mixedSecrets
               (encryptWith Demo.miHost PKCS1v15) in
  run Demo.emptyState =
    (Returned (∅, Some "crypto/rsa: message too long for RSA key size"),
     {| trace := [ RSAEncryptPKCS1v15 key "redis";
                   RSAEncryptPKCS1v15 key "far too long a secret" ];
        keysFiles := ∅; clock := 3 |}) /\
  exists done refused later,
    done ++ refused :: later ≡ₚ map_to_list Demo2.mixedSecrets /\
    length done = 1%nat /\ length later = 1%nat /\
    cipher Demo.miHost PKCS1v15 (S (0 + length done)) key refused.2
      = Err "crypto/rsa: message too long for RSA key size" /\
    emitted run Demo.emptyState
      = (callFor PKCS1v15 key <$> done) ++ [callFor PKCS1v15 key refused].
Proof.
  intros key run.
  assert (Hrun : run Demo.emptyState =
            (Returned (∅, Some "crypto/rsa: message too long for RSA key size"),
             {| trace := [ RSAEncryptPKCS1v15 key "redis";
                           RSAEncryptPKCS1v15 key "far too long a secret" ];
                keysFiles := ∅; clock := 3 |}))
    by (vm_compute; reflexivity).
  split; [exact Hrun |].
  destruct (encrypt_stops_at_the_first_refusal Demo.miHost PKCS1v15 key
              Demo2.mixedSecrets ∅ Demo.emptyState _
              "crypto/rsa: message too long for RSA key size" Hrun)
    as (_ & done & refused & later & Hperm & He & Hemitted).
  exists done, refused, later. split; [exact Hperm |].
  assert (Hsize : length (map_to_list Demo2.mixedSecrets) = 3%nat)
    by (vm_compute; reflexivity).
  apply Permutation_length in Hperm.
  rewrite Hsize, length_app in Hperm. simpl in Hperm.
  pose proof Hemitted as Hlen. apply (f_equal length) in Hlen.
  unfold emitted in Hlen. fold run in Hlen. rewrite Hrun in Hlen.
  rewrite length_app, length_fmap in Hlen. simpl in Hlen.
  repeat split; [lia | lia | exact He | exact Hemitted].
Defined.

(** X25.  Whatever the input and the answers of the servers,
    [ExecutePreCommandWithOAuth] writes at most one record, and only for the
    environment and the credential file it was called with: the record of
    every other environment, in this or any other file, is after the run
    what it was before. *)
Theorem oauth_touches_one_record_only (H : Auth.Host)
    (environment flagUsername flagPassword mainConfigFilePath envKeysAllFilePath : string)
    (st : state) :
  let oauth := Auth.ExecutePreCommandWithOAuth H environment flagUsername
                 flagPassword mainConfigFilePath envKeysAllFilePath in
  (List.filter isKeysFileWrite (emitted oauth st) = [] \/
   exists record,
     List.filter isKeysFileWrite (emitted oauth st) =
       [KeysFilePut envKeysAllFilePath environment record]) /\
  (forall env path,
     (env, path) <> (environment, envKeysAllFilePath) ->
     Auth.keysOfEnv (oauth st).2 env path = Auth.keysOfEnv st env path).
Proof.
  intros oauth.
  assert (Hrun : exists o evs c files,
    oauth st = (o, {| trace := trace st ++ evs; keysFiles := files; clock := c |}) /\
    ((List.filter isKeysFileWrite evs = [] /\ files = keysFiles st) \/
     exists record,
       List.filter isKeysFileWrite evs = [KeysFilePut envKeysAllFilePath environment record] /\
       files = <[envKeysAllFilePath :=
                   <[environment := record]>
                     (default ∅ (keysFiles st !! envKeysAllFilePath))]> (keysFiles st))).
  { unfold oauth.
    destruct (Auth.keysOfEnv st environment envKeysAllFilePath) as [cached |] eqn:Hc;
      auth_unfold; simpl in Hc;
      (destruct (Auth.EnvExistsInMainConfigFile H environment (Auth.MainConfigFilePath H));
       [| exists (Returned ("", "", Auth.unknownEnvironment H environment mainConfigFilePath)),
            [], (clock st), (keysFiles st); rewrite app_nil_r; split;
            [by destruct st | by left] ]);
      destruct (Auth.isEmpty flagUsername) eqn:Hu;
      destruct (Auth.isEmpty flagPassword) eqn:Hp;
      try destruct (String.eqb flagUsername (Username cached)) eqn:He;
      run; repeat (progress (rewrite ?Hc, ?Hu, ?Hp, ?He; simpl));
      repeat (match goal with
              | |- context [Auth.transport H ?n ?u ?h ?b] =>
                  destruct (Auth.transport H n u h b) as [? | ?] eqn:?; simpl
              | |- context [Auth.json_Unmarshal_RegistrationResponse H ?b] =>
                  destruct (Auth.json_Unmarshal_RegistrationResponse H b) as [? [? |]] eqn:?;
                  simpl
              | |- context [if ?c then _ else _] => destruct c eqn:?; simpl
              end);
      flatten_trace; eexists _, _, _, _; (split; [reflexivity |]); simpl;
      first [ left; split; reflexivity | right; eexists; split; reflexivity ]. }
  destruct Hrun as (o & evs & c & files & Hrun & Hfiles).
  rewrite (emitted_of_trace oauth st evs) by (by rewrite Hrun).
  rewrite Hrun. simpl. split.
  - destruct Hfiles as [[Hevs _] | (record & Hevs & _)]; eauto.
  - intros env path Hother. unfold Auth.keysOfEnv. simpl.
    destruct Hfiles as [[_ ->] | (record & _ & ->)]; [reflexivity |].
    destruct (decide (path = envKeysAllFilePath)) as [-> | Hpath].
    + rewrite lookup_insert_eq. simpl.
      rewrite lookup_insert_ne by congruence.
      by destruct (keysFiles st !! envKeysAllFilePath).
    + by rewrite lookup_insert_ne.
Qed.
